(** * Memoir: chunk store, streaming aggregator, compaction and query tools

    A shallow embedding of the event hook (hooks/events.ts), the expand tool
    (tools/expand.ts) and the history tool (tools/history.ts), together with
    the chunk service and message tracker they drive.

    Conventions.
    - A JavaScript string is a [string]: a sequence of code units, here
      restricted to the range 0..255.  [String.length] is [.length].
    - An optional field [x?: T] is an [option T]; [undefined] is [None].
    - A [number] that holds a count is a [nat]; a timestamp is a [Z].
    - A [Map] or [Set] is an association list or a list without duplicates
      in insertion order, which is the order JavaScript iterates them in.
    - The clock, the id generator and the host's HTTP client are inputs. *)

From Stdlib Require Import String Ascii List Arith ZArith Lia Bool.
From Stdlib Require Import DecimalString.
Import ListNotations.
Open Scope list_scope.
Open Scope string_scope.

(* ================================================================== *)
(** ** The JavaScript runtime functions the sources use               *)
(* ================================================================== *)

Module JS.

(** Truthiness of a string: only the empty string is falsy. *)
Definition truthy (s : string) : bool := negb (s =? "").

(** Truthiness of an optional string ([undefined] and [''] are falsy). *)
Definition truthy_opt (o : option string) : bool :=
  match o with
  | Some s => truthy s
  | None => false
  end.

(** [a || b] on an optional string with a string default. *)
Definition or_else (o : option string) (d : string) : string :=
  match o with
  | Some s => if truthy s then s else d
  | None => d
  end.

(** WhiteSpace and LineTerminator code units below 256:
    TAB, LF, VT, FF, CR, SP and NBSP. *)
Definition is_space (c : ascii) : bool :=
  (c =? "009")%char || (c =? "010")%char || (c =? "011")%char ||
  (c =? "012")%char || (c =? "013")%char || (c =? " ")%char ||
  (c =? "160")%char.

Fixpoint trimStart (s : string) : string :=
  match s with
  | EmptyString => EmptyString
  | String c s' => if is_space c then trimStart s' else s
  end.

Definition reverse (s : string) : string :=
  string_of_list_ascii (rev (list_ascii_of_string s)).

Definition trimEnd (s : string) : string := reverse (trimStart (reverse s)).

(** [String.prototype.trim]. *)
Definition trim (s : string) : string := trimEnd (trimStart s).

(** Every code unit of [s] is white space. *)
Definition all_space (s : string) : bool :=
  forallb is_space (list_ascii_of_string s).

(** [Array.prototype.join]. *)
Definition join (sep : string) (l : list string) : string :=
  String.concat sep l.

(** [String.prototype.includes] for a non-empty needle. *)
Definition includes (s needle : string) : bool :=
  match String.index 0 needle s with
  | Some _ => true
  | None => false
  end.

(** [String.prototype.startsWith]. *)
Definition startsWith (s p : string) : bool := String.prefix p s.

(** A non-negative integer in a template literal. *)
Definition show (n : nat) : string :=
  NilEmpty.string_of_uint (Nat.to_uint n).

(** [Math.ceil(n / d)] on non-negative integers. *)
Definition ceil_div (n d : nat) : nat :=
  n / d + (if n mod d =? 0 then 0 else 1)%nat.

(** [Set.prototype.add] on a set kept in insertion order. *)
Definition set_add (x : string) (s : list string) : list string :=
  if existsb (String.eqb x) s then s else (s ++ [x])%list.

(** [for (const x of xs) set.add(x)]. *)
Definition set_add_all (xs : list string) (s : list string) : list string :=
  fold_left (fun acc x => set_add x acc) xs s.

End JS.

(* ================================================================== *)
(** ** Data model (types.ts)                                          *)
(* ================================================================== *)

(** A JSON value: the [Record<string, unknown>] of a tool input. *)
#[local] Unset Elimination Schemes.
Inductive Json : Type :=
| JNull
| JBool (b : bool)
| JNum (z : Z)
| JStr (s : string)
| JArr (items : list Json)
| JObj (fields : list (string * Json)).
#[local] Set Elimination Schemes.

(** Truthiness of a JSON value: [null], [false], [0] and the empty string
    are falsy, arrays and objects are truthy. *)
Definition json_truthy (j : Json) : bool :=
  match j with
  | JNull => false
  | JBool b => b
  | JNum z => negb (z =? 0)%Z
  | JStr s => JS.truthy s
  | JArr _ => true
  | JObj _ => true
  end.

Inductive Role : Type := user | assistant.

Inductive ChunkStatus : Type := active | compacted.

Inductive PartType : Type := Text | Reasoning | Tool | File.

(** [ChunkMessagePart]: a tag and the optional fields the sources read. *)
Record ChunkMessagePart : Type := mkPart {
  part_type : PartType;
  part_text : option string;
  part_tool : option string;
  part_input : option Json;
  part_output : option string
}.

Record ChunkMessage : Type := mkMessage {
  msg_id : string;
  msg_role : Role;
  msg_parts : list ChunkMessagePart;
  msg_timestamp : Z
}.

Record ChunkMetadata : Type := mkMetadata {
  tools_used : option (list string);
  files_modified : option (list string);
  outcome : option string
}.

Record ChunkContent : Type := mkContent {
  messages : list ChunkMessage;
  metadata : ChunkMetadata
}.

Record Chunk : Type := mkChunk {
  id : string;
  sessionId : string;
  content : ChunkContent;
  summary : option string;
  status : ChunkStatus;
  depth : nat;
  childRefs : list string;
  createdAt : Z
}.

Definition status_eqb (a b : ChunkStatus) : bool :=
  match a, b with
  | active, active | compacted, compacted => true
  | _, _ => false
  end.

Definition empty_metadata : ChunkMetadata := mkMetadata None None None.

Definition set_status (s : ChunkStatus) (c : Chunk) : Chunk :=
  mkChunk (id c) (sessionId c) (content c) (summary c) s (depth c)
          (childRefs c) (createdAt c).

(* ================================================================== *)
(** ** Association lists in insertion order (a JavaScript [Map])      *)
(* ================================================================== *)

Section AssocList.
Context {V : Type}.

Fixpoint alookup (k : string) (m : list (string * V)) : option V :=
  match m with
  | [] => None
  | (k', v) :: m' => if k =? k' then Some v else alookup k m'
  end.

(** [map.set(k, v)]: a known key keeps its place, a new one goes last. *)
Fixpoint aset (k : string) (v : V) (m : list (string * V))
  : list (string * V) :=
  match m with
  | [] => [(k, v)]
  | (k', v') :: m' =>
      if k =? k' then (k', v) :: m' else (k', v') :: aset k v m'
  end.

(** [map.delete(k)]. *)
Definition adelete (k : string) (m : list (string * V))
  : list (string * V) :=
  filter (fun kv => negb (k =? fst kv)) m.

End AssocList.

(* ================================================================== *)
(** ** Streaming aggregator (the message tracker of chunks/index.ts)  *)
(* ================================================================== *)

Module Tracker.

(** Modelled from the spec: the draft message of section 3, a role and a
    mapping from part id to part, kept in part-arrival order.  The
    tracker's source (chunks/index.ts) is not among the files. *)
Record DraftMessage : Type := mkDraft {
  draft_role : Role;
  draft_parts : list (string * ChunkMessagePart)
}.

(** Modelled from the spec: the tracker's state, per session a mapping
    from message id to draft message, in message-arrival order. *)
Definition t : Type := list (string * list (string * DraftMessage)).

(** The tracker of a fresh process. *)
Definition empty : t := [].

(** The draft messages of a session, none when the session is unknown. *)
Definition drafts (tr : t) (sessionID : string)
  : list (string * DraftMessage) :=
  match alookup sessionID tr with
  | Some ms => ms
  | None => []
  end.

(** Modelled from the spec: [ensureMessage] of section 4.1, which creates
    a draft message shell if absent and is a no-op otherwise. *)
Definition ensureMessage (tr : t) (sessionID messageID : string)
           (role : Role) : t :=
  match alookup messageID (drafts tr sessionID) with
  | Some _ => tr
  | None =>
      aset sessionID
           (aset messageID (mkDraft role []) (drafts tr sessionID)) tr
  end.

(** Modelled from the spec: [addPart] of section 4.1, which inserts or
    overwrites the part at [partID] in the named draft message and fails
    with UnknownMessage ([None]) when the message does not exist. *)
Definition addPart (tr : t) (sessionID messageID partID : string)
           (part : ChunkMessagePart) : option t :=
  match alookup messageID (drafts tr sessionID) with
  | None => None
  | Some d =>
      let d' := mkDraft (draft_role d) (aset partID part (draft_parts d)) in
      Some (aset sessionID (aset messageID d' (drafts tr sessionID)) tr)
  end.

(** Modelled from the spec: [hasMessages] of section 4.1. *)
Definition hasMessages (tr : t) (sessionID : string) : bool :=
  match drafts tr sessionID with
  | [] => false
  | _ :: _ => true
  end.

(** Modelled from the spec: [getMessages] of section 4.1; every part
    mapping becomes the message's part sequence in arrival order.  The
    spec's draft carries no timestamp, so the caller supplies one. *)
Definition getMessages (tr : t) (sessionID : string) (now : Z)
  : list ChunkMessage :=
  map (fun kv =>
         mkMessage (fst kv) (draft_role (snd kv))
                   (map snd (draft_parts (snd kv))) now)
      (drafts tr sessionID).

(** Modelled from the spec: [clearSession] of section 4.1. *)
Definition clearSession (tr : t) (sessionID : string) : t :=
  adelete sessionID tr.

End Tracker.

(* ================================================================== *)
(** ** Process state                                                  *)
(* ================================================================== *)

(** The three pieces of state the hooks and tools share: the tracker's
    drafts, the persisted chunks in creation order, and the set of sessions
    that already had context injected (hooks/chat-message.ts). *)
Record State : Type := mkState {
  tracker : Tracker.t;
  chunks : list Chunk;
  injectedSessions : list string
}.

Definition initial_state : State := mkState Tracker.empty [] [].

Definition with_tracker (st : State) (tr : Tracker.t) : State :=
  mkState tr (chunks st) (injectedSessions st).

Definition with_chunks (st : State) (cs : list Chunk) : State :=
  mkState (tracker st) cs (injectedSessions st).

(* ================================================================== *)
(** ** Chunk store and compaction engine (chunks/index.ts)            *)
(* ================================================================== *)

Module ChunkService.

(** Modelled from the spec: the pair compaction returns to its caller
    (section 4.3, step 7). *)
Record CompactResult : Type := mkCompactResult {
  summaryChunk : Chunk;
  compactedChunks : list Chunk
}.

(** A chunk of the session with status active. *)
Definition is_active_in (sessionID : string) (c : Chunk) : bool :=
  (sessionId c =? sessionID) && status_eqb (status c) active.

(** Modelled from the spec: [getActiveChunks] of section 4.2, all chunks
    of the session with status active, independent of depth. *)
Definition getActiveChunks (st : State) (sessionID : string) : list Chunk :=
  filter (is_active_in sessionID) (chunks st).

(** Modelled from the spec: a chunk is retrievable by its id, which is
    unique (section 3). *)
Definition getChunk (st : State) (chunkId : string) : option Chunk :=
  find (fun c => id c =? chunkId) (chunks st).

(** Modelled from the spec: creation of a depth-0 chunk with status
    active, a fresh id and the current timestamp (sections 3 and 4.2);
    the tests call it directly as [create]. *)
Definition create (st : State) (sessionID : string) (c : ChunkContent)
           (newId : string) (now : Z) : State * Chunk :=
  let chunk := mkChunk newId sessionID c None active 0 [] now in
  (with_chunks st (chunks st ++ [chunk])%list, chunk).

Section Finalize.
(** The paths a tool invocation modified, read off its input; the spec
    leaves the scan open (path-bearing fields). *)
Variable modifiedFiles : string -> option Json -> list string.

(** The tool parts of the messages, in order. *)
Definition toolParts (ms : list ChunkMessage) : list ChunkMessagePart :=
  filter (fun p => match part_type p with Tool => true | _ => false end)
         (flat_map msg_parts ms).

(** Modelled from the spec: the metadata finalize derives, the set of
    tool names and the set of paths found in tool inputs. *)
Definition deriveMetadata (ms : list ChunkMessage) : ChunkMetadata :=
  let names :=
    flat_map (fun p => match part_tool p with
                       | Some n => [n]
                       | None => []
                       end) (toolParts ms) in
  let paths :=
    flat_map (fun p => match part_tool p with
                       | Some n => modifiedFiles n (part_input p)
                       | None => []
                       end) (toolParts ms) in
  mkMetadata (Some (JS.set_add_all names []))
             (Some (JS.set_add_all paths [])) None.

(** Modelled from the spec: [finalize] of section 4.2.  With no draft
    message it does nothing; otherwise it snapshots the drafts into a
    new active depth-0 chunk and clears the session's drafts. *)
Definition finalize (st : State) (sessionID : string)
           (newId : string) (now : Z) : State :=
  if negb (Tracker.hasMessages (tracker st) sessionID) then st
  else
    let ms := Tracker.getMessages (tracker st) sessionID now in
    let c := mkContent ms (deriveMetadata ms) in
    let chunk := mkChunk newId sessionID c None active 0 [] now in
    mkState (Tracker.clearSession (tracker st) sessionID)
            (chunks st ++ [chunk])%list (injectedSessions st).
End Finalize.

(** Modelled from the spec: the compaction protocol of section 4.3,
    steps 2 to 7.  The summary chunk is created first and the chunks
    named by its [childRefs] are then flipped by id. *)
Definition compact (st : State) (sessionID summaryText : string)
           (newId : string) (now : Z) : State * option CompactResult :=
  let activeChunks := getActiveChunks st sessionID in
  if (length activeChunks <=? 1)%nat then (st, None)
  else
    let refs := map id activeChunks in
    let summaryChunk :=
      mkChunk newId sessionID (mkContent [] empty_metadata)
              (Some summaryText) active
              (1 + list_max (map depth activeChunks)) refs now in
    let created := (chunks st ++ [summaryChunk])%list in
    let flipped :=
      map (fun c => if existsb (String.eqb (id c)) refs
                    then set_status compacted c else c) created in
    (with_chunks st flipped,
     Some (mkCompactResult summaryChunk
                           (map (set_status compacted) activeChunks))).

(** Modelled from the spec: [expand] of section 4.5.  An unknown id
    gives the empty list; otherwise the chunk, followed, when children
    are asked for, by its direct children in [childRefs] order. *)
Definition expand (st : State) (chunkId : string)
           (includeChildren : option bool) : list Chunk :=
  match getChunk st chunkId with
  | None => []
  | Some c =>
      match includeChildren with
      | Some true =>
          c :: flat_map (fun r => match getChunk st r with
                                  | Some child => [child]
                                  | None => []
                                  end) (childRefs c)
      | _ => [c]
      end
  end.

(** Modelled from the spec: [deleteSession] of section 4.2. *)
Definition deleteSession (st : State) (sessionID : string) : State :=
  with_chunks st
    (filter (fun c => negb (sessionId c =? sessionID)) (chunks st)).

End ChunkService.

(* ================================================================== *)
(** ** Event hook (hooks/events.ts)                                   *)
(* ================================================================== *)

Module Events.

Inductive ToolStatus : Type := pending | running | completed | error.

(** [ToolState]. *)
Record ToolState : Type := mkToolState {
  ts_status : ToolStatus;
  ts_input : option Json;
  ts_output : option string;
  ts_error : option string;
  ts_title : option string;
  ts_metadata : option Json
}.

(** [EventMessagePart]; its [type] is an arbitrary string. *)
Record EventMessagePart : Type := mkEventPart {
  ep_id : string;
  ep_sessionID : string;
  ep_messageID : string;
  ep_type : string;
  ep_text : option string;
  ep_tool : option string;
  ep_callID : option string;
  ep_state : option ToolState
}.

(** [Message]; the role is whatever string the host sent. *)
Record Message : Type := mkEventMessage {
  m_id : string;
  m_sessionID : string;
  m_role : string
}.

(** [OpenCodeMessagePart] and [OpenCodeMessage], as the host's API
    returns them; [parts] may be missing or not an array. *)
Record OpenCodeMessagePart : Type := mkOcPart {
  oc_type : string;
  oc_text : option string
}.

Record OpenCodeMessage : Type := mkOcMessage {
  oc_id : string;
  oc_role : string;
  oc_parts : option (list OpenCodeMessagePart)
}.

(** The [Event] union; [EvOther] is the last alternative, any other
    type string with properties the hook never reads. *)
Inductive Event : Type :=
| EvSessionIdle (sessionID : string)
| EvSessionCompacted (sessionID : string)
| EvSessionDeleted (infoId : string)
| EvMessageUpdated (info : Message)
| EvMessagePartUpdated (part : EventMessagePart)
| EvOther (type : string).

Definition event_type (e : Event) : string :=
  match e with
  | EvSessionIdle _ => "session.idle"
  | EvSessionCompacted _ => "session.compacted"
  | EvSessionDeleted _ => "session.deleted"
  | EvMessageUpdated _ => "message.updated"
  | EvMessagePartUpdated _ => "message.part.updated"
  | EvOther ty => ty
  end.

(** What the outside world supplies while one event is handled: the
    clock, the ids the store draws for the chunk of a finalize and for the
    chunk of a compaction, and the answer of [client.session.messages]
    ([None] when there is no client, the call throws or [data] is not an
    array). *)
Record Env : Type := mkEnv {
  env_now : Z;
  env_chunkId : string;
  env_summaryId : string;
  env_hostMessages : option (list OpenCodeMessage)
}.

Section Handlers.
Variable modifiedFiles : string -> option Json -> list string.

(** [handleSessionIdle]. *)
Definition handleSessionIdle (st : State) (env : Env)
           (sessionID : string) : State :=
  ChunkService.finalize modifiedFiles st sessionID
                        (env_chunkId env) (env_now env).

(** The loop body of [generateCompactionSummary]: the two sets and the
    message count after one more chunk. *)
Definition gatherChunk (acc : list string * list string * nat)
           (chunk : Chunk) : list string * list string * nat :=
  let '(allTools, allFiles, totalMessages) := acc in
  let totalMessages :=
    totalMessages + length (messages (content chunk)) in
  let allTools :=
    match tools_used (metadata (content chunk)) with
    | Some ts => JS.set_add_all ts allTools
    | None => allTools
    end in
  let allFiles :=
    match files_modified (metadata (content chunk)) with
    | Some fs => JS.set_add_all fs allFiles
    | None => allFiles
    end in
  (allTools, allFiles, totalMessages).

(** [generateCompactionSummary]. *)
Definition generateCompactionSummary (chunks : list Chunk) : string :=
  let '(allTools, allFiles, totalMessages) :=
    fold_left gatherChunk chunks ([], [], 0) in
  let parts :=
    [JS.show totalMessages ++ " messages across " ++
     JS.show (length chunks) ++ " chunks"] in
  let parts :=
    if (0 <? length allTools)%nat
    then (parts ++ [("tools: " ++ JS.join ", " allTools)%string])%list
    else parts in
  let parts :=
    if (0 <? length allFiles)%nat
    then
      let fileList :=
        if (length allFiles <=? 3)%nat
        then JS.join ", " allFiles
        else JS.join ", " (firstn 3 allFiles) ++ " +" ++
             JS.show (length allFiles - 3) ++ " more" in
      (parts ++ [("files: " ++ fileList)%string])%list
    else parts in
  JS.join "; " parts.

(** The test of [fetchCompactionSummary] on one text. *)
Definition looksLikeSummary (text : string) : bool :=
  JS.includes text "Session Continuation Prompt" ||
  JS.includes text "Complete Summary of All Work" ||
  (JS.includes text "What We Did" && JS.includes text "ch_").

(** The inner loop of [fetchCompactionSummary] over one message. *)
Fixpoint scanParts (parts : list OpenCodeMessagePart) : option string :=
  match parts with
  | [] => None
  | part :: rest =>
      match oc_text part with
      | Some text =>
          if (oc_type part =? "text") && JS.truthy text &&
             looksLikeSummary text &&
             negb (JS.startsWith text "## Project Memory (Memoir)")
          then Some text
          else scanParts rest
      | None => scanParts rest
      end
  end.

(** The outer loop, over the messages newest first. *)
Fixpoint scanMessages (newestFirst : list OpenCodeMessage)
  : option string :=
  match newestFirst with
  | [] => None
  | message :: older =>
      match oc_parts message with
      | None => scanMessages older
      | Some parts =>
          match scanParts parts with
          | Some text => Some text
          | None => scanMessages older
          end
      end
  end.

(** [fetchCompactionSummary]. *)
Definition fetchCompactionSummary (env : Env) : option string :=
  match env_hostMessages env with
  | None => None
  | Some messages => scanMessages (rev messages)
  end.

(** [handleSessionCompacted]. *)
Definition handleSessionCompacted (st : State) (env : Env)
           (sessionID : string) : State :=
  let st := ChunkService.finalize modifiedFiles st sessionID
                                  (env_chunkId env) (env_now env) in
  let activeChunks := ChunkService.getActiveChunks st sessionID in
  if (1 <? length activeChunks)%nat then
    let openCodeSummary := fetchCompactionSummary env in
    let compactionSummary :=
      JS.or_else openCodeSummary
                 (generateCompactionSummary activeChunks) in
    fst (ChunkService.compact st sessionID compactionSummary
                              (env_summaryId env) (env_now env))
  else st.

(** [clearInjectedSession] of hooks/chat-message.ts. *)
Definition clearInjectedSession (st : State) (sessionID : string)
  : State :=
  mkState (tracker st) (chunks st)
          (filter (fun s => negb (s =? sessionID))
                  (injectedSessions st)).

(** [handleSessionDeleted]. *)
Definition handleSessionDeleted (st : State) (sessionID : string)
  : State :=
  let st := ChunkService.deleteSession st sessionID in
  let st :=
    with_tracker st (Tracker.clearSession (tracker st) sessionID) in
  clearInjectedSession st sessionID.

(** [handleMessageUpdated]. *)
Definition handleMessageUpdated (st : State) (message : Message)
  : State :=
  if negb (m_role message =? "user") &&
     negb (m_role message =? "assistant")
  then st
  else
    let role := if m_role message =? "user" then user else assistant in
    with_tracker st
      (Tracker.ensureMessage (tracker st) (m_sessionID message)
                             (m_id message) role).

(** [part.state?.status !== 'completed']. *)
Definition notCompleted (s : option ToolState) : bool :=
  match s with
  | Some ts => match ts_status ts with completed => false | _ => true end
  | None => true
  end.

Definition state_input (s : option ToolState) : option Json :=
  match s with Some ts => ts_input ts | None => None end.

Definition state_output (s : option ToolState) : option string :=
  match s with Some ts => ts_output ts | None => None end.

(** [!part.text || part.text.trim() === '']. *)
Definition emptyText (t : option string) : bool :=
  match t with
  | None => true
  | Some s => negb (JS.truthy s) || (JS.trim s =? "")
  end.

(** The guards and the conversion of [handleMessagePartUpdated]: the
    chunk part it hands to the tracker, or [None] when it returns
    before the call. *)
Definition convertPart (part : EventMessagePart)
  : option ChunkMessagePart :=
  if negb (ep_type part =? "text") && negb (ep_type part =? "tool")
  then None
  else if (ep_type part =? "text") && emptyText (ep_text part)
  then None
  else if (ep_type part =? "tool") && notCompleted (ep_state part)
  then None
  else if ep_type part =? "text"
  then Some (mkPart Text (ep_text part) None None None)
  else if ep_type part =? "tool"
  then Some (mkPart Tool None (ep_tool part)
                    (state_input (ep_state part))
                    (state_output (ep_state part)))
  else None.

(** [handleMessagePartUpdated]: a part that passes the guards is added
    to the tracker; a failing [addPart] rejects the promise and leaves
    the state as it was. *)
Definition handleMessagePartUpdated (st : State)
           (part : EventMessagePart) : State :=
  match convertPart part with
  | None => st
  | Some chunkPart =>
      match Tracker.addPart (tracker st) (ep_sessionID part)
                            (ep_messageID part) (ep_id part) chunkPart
      with
      | Some tr => with_tracker st tr
      | None => st
      end
  end.

Definition HANDLED_EVENTS : list string :=
  ["session.idle"; "session.compacted"; "session.deleted";
   "message.updated"; "message.part.updated"].

(** [handleEvent]. *)
Definition handleEvent (st : State) (env : Env) (event : Event)
  : State :=
  if negb (existsb (String.eqb (event_type event)) HANDLED_EVENTS)
  then st
  else
    match event with
    | EvSessionIdle sessionID => handleSessionIdle st env sessionID
    | EvSessionCompacted sessionID =>
        handleSessionCompacted st env sessionID
    | EvSessionDeleted infoId => handleSessionDeleted st infoId
    | EvMessageUpdated info => handleMessageUpdated st info
    | EvMessagePartUpdated part => handleMessagePartUpdated st part
    | EvOther _ => st
    end.

(** The state after a feed of events, each with its environment. *)
Definition run (st : State) (feed : list (Env * Event)) : State :=
  fold_left (fun s ee => handleEvent s (fst ee) (snd ee)) feed st.

End Handlers.

End Events.

(* ================================================================== *)
(** ** Expand tool (tools/expand.ts)                                  *)
(* ================================================================== *)

(** The line feed and the double quote of the template literals. *)
Definition nl : string := String "010" "".

Definition dq : string := String "034" "".

Definition show_status (s : ChunkStatus) : string :=
  match s with
  | active => "active"
  | compacted => "compacted"
  end.

Definition show_role (r : Role) : string :=
  match r with
  | user => "user"
  | assistant => "assistant"
  end.

Module ExpandTool.

Definition CHARS_PER_TOKEN : nat := 4.

Definition LARGE_RESPONSE_TOKEN_THRESHOLD : nat := 4000.

(** [estimateTokens]. *)
Definition estimateTokens (text : string) : nat :=
  JS.ceil_div (String.length text) CHARS_PER_TOKEN.

(** The tool's arguments. *)
Record Args : Type := mkArgs {
  chunk_id : string;
  include_children : option bool;
  preview_only : option bool
}.

(** The object the tool serializes with [JSON.stringify], one
    constructor per shape; [NotFound] is the one with [success: false]. *)
Inductive Response : Type :=
| NotFound (error : string)
| Preview (chunk_count estimated_full_tokens : nat)
          (previews hint : string)
| Full (chunk_count estimated_tokens : nat) (content : string)
       (warning : option string).

Definition success (r : Response) : bool :=
  match r with
  | NotFound _ => false
  | _ => true
  end.

Section Format.
(** [new Date(ms).toISOString()] and [JSON.stringify(v, null, 2)]. *)
Variable toISOString : Z -> string.
Variable stringify : Json -> string.

(** [formatMessagePart]. *)
Definition formatMessagePart (part : ChunkMessagePart) : string :=
  match part_type part with
  | Text => JS.or_else (part_text part) ""
  | Reasoning =>
      match part_text part with
      | Some t => if JS.truthy t then "[Reasoning: " ++ t ++ "]" else ""
      | None => ""
      end
  | Tool =>
      match part_tool part with
      | None => ""
      | Some name =>
          if negb (JS.truthy name) then ""
          else
            let lines := ["**Tool: " ++ name ++ "**"] in
            let lines :=
              match part_input part with
              | Some input =>
                  if json_truthy input then
                    let inputStr := stringify input in
                    let truncatedInput :=
                      if (500 <? String.length inputStr)%nat
                      then substring 0 500 inputStr ++ nl ++
                           "... (truncated)"
                      else inputStr in
                    (lines ++ [("Input:" ++ nl ++ "```json" ++ nl ++
                                truncatedInput ++ nl ++
                                "```")%string])%list
                  else lines
              | None => lines
              end in
            let lines :=
              match part_output part with
              | Some output =>
                  if JS.truthy output then
                    let truncatedOutput :=
                      if (2000 <? String.length output)%nat
                      then substring 0 2000 output ++ nl ++
                           "... (truncated)"
                      else output in
                    (lines ++ [("Output:" ++ nl ++ "```" ++ nl ++
                                truncatedOutput ++ nl ++
                                "```")%string])%list
                  else lines
              | None => lines
              end in
            JS.join nl lines
      end
  | File =>
      match part_text part with
      | Some t => if JS.truthy t then "[File: " ++ t ++ "]" else ""
      | None => ""
      end
  end.

(** The lines one message contributes to [formatChunkContent]. *)
Definition messageLines (msg : ChunkMessage) : list string :=
  (nl ++ "**" ++ show_role (msg_role msg) ++ "** (" ++
   toISOString (msg_timestamp msg * 1000) ++ "):")
    :: filter JS.truthy (map formatMessagePart (msg_parts msg)).

(** [formatChunkContent]. *)
Definition formatChunkContent (chunk : Chunk) : string :=
  let lines :=
    ["## Chunk " ++ id chunk;
     "Session: " ++ sessionId chunk;
     "Status: " ++ show_status (status chunk) ++ ", Depth: " ++
     JS.show (depth chunk)] in
  let lines :=
    match summary chunk with
    | Some s =>
        if JS.truthy s
        then (lines ++ [(nl ++ "### Summary" ++ nl ++ s)%string])%list
        else lines
    | None => lines
    end in
  let messageCount := length (messages (content chunk)) in
  let lines :=
    (lines ++ [(nl ++ "### Messages (" ++ JS.show messageCount ++
                ")")%string])%list in
  let lines :=
    (lines ++ flat_map messageLines (messages (content chunk)))%list in
  let lines :=
    match files_modified (metadata (content chunk)) with
    | Some filesModified =>
        if (0 <? length filesModified)%nat
        then (lines ++ [(nl ++ "### Files Modified" ++ nl ++
                         JS.join nl filesModified)%string])%list
        else lines
    | None => lines
    end in
  let lines :=
    match tools_used (metadata (content chunk)) with
    | Some toolsUsed =>
        if (0 <? length toolsUsed)%nat
        then (lines ++ [(nl ++ "### Tools Used" ++ nl ++
                         JS.join ", " toolsUsed)%string])%list
        else lines
    | None => lines
    end in
  JS.join nl lines.

(** [formatChunkPreview]. *)
Definition formatChunkPreview (chunk : Chunk) : string :=
  let lines :=
    ["## Chunk " ++ id chunk;
     "Session: " ++ sessionId chunk;
     "Status: " ++ show_status (status chunk) ++ ", Depth: " ++
     JS.show (depth chunk);
     "Created: " ++ toISOString (createdAt chunk * 1000)] in
  let lines :=
    match summary chunk with
    | Some s =>
        if JS.truthy s
        then (lines ++ [(nl ++ "### Summary" ++ nl ++ s)%string])%list
        else lines
    | None => lines
    end in
  let messageCount := length (messages (content chunk)) in
  let filesModified :=
    match files_modified (metadata (content chunk)) with
    | Some fs => length fs
    | None => 0
    end in
  let toolsUsed :=
    match tools_used (metadata (content chunk)) with
    | Some ts => ts
    | None => []
    end in
  let lines :=
    (lines ++ [(nl ++ "### Stats")%string;
               ("- Messages: " ++ JS.show messageCount)%string;
               ("- Files modified: " ++
                JS.show filesModified)%string])%list in
  let lines :=
    if (0 <? length toolsUsed)%nat
    then (lines ++ [("- Tools used: " ++
                     JS.join ", " toolsUsed)%string])%list
    else lines in
  let fullContent := formatChunkContent chunk in
  let estimatedTokens := estimateTokens fullContent in
  let lines :=
    (lines ++ [("- Estimated full size: ~" ++ JS.show estimatedTokens ++
                " tokens")%string])%list in
  let lines :=
    if (0 <? length (childRefs chunk))%nat
    then (lines ++ [(nl ++ "### Child Chunks")%string;
                    JS.join nl (map (fun r => ("- " ++ r)%string)
                                    (childRefs chunk))])%list
    else lines in
  JS.join nl lines.

Definition divider : string := nl ++ nl ++ "---" ++ nl ++ nl.

(** [expandTool.execute]. *)
Definition execute (st : State) (args : Args) : Response :=
  let chunks :=
    ChunkService.expand st (chunk_id args) (include_children args) in
  if (length chunks =? 0)%nat
  then NotFound ("Chunk " ++ chunk_id args ++ " not found")
  else
    match preview_only args with
    | Some true =>
        let previews := JS.join divider (map formatChunkPreview chunks) in
        let totalEstimatedTokens :=
          fold_left (fun sum chunk =>
                       sum + estimateTokens (formatChunkContent chunk))
                    chunks 0 in
        Preview (length chunks) totalEstimatedTokens previews
                (if (LARGE_RESPONSE_TOKEN_THRESHOLD <?
                     totalEstimatedTokens)%nat
                 then "Full expansion would be ~" ++
                      JS.show totalEstimatedTokens ++
                      " tokens. Consider using a subagent for detailed analysis."
                 else "Use preview_only=false for full content.")
    | _ =>
        let formatted := JS.join divider (map formatChunkContent chunks) in
        let estimatedTokens := estimateTokens formatted in
        Full (length chunks) estimatedTokens formatted
             (if (LARGE_RESPONSE_TOKEN_THRESHOLD <? estimatedTokens)%nat
              then Some ("Large response (~" ++ JS.show estimatedTokens ++
                         " tokens). For future explorations of this size, consider delegating to a subagent to preserve context.")
              else None)
    end.
End Format.

End ExpandTool.

(* ================================================================== *)
(** ** History tool (tools/history.ts)                                *)
(* ================================================================== *)

Module HistoryTool.

Definition CHARS_PER_TOKEN : nat := 4.

Definition LARGE_RESULT_TOKEN_THRESHOLD : nat := 2000.

(** [estimateTokens]. *)
Definition estimateTokens (text : string) : nat :=
  JS.ceil_div (String.length text) CHARS_PER_TOKEN.

(** The tool's arguments and its context. *)
Record Args : Type := mkArgs {
  query : option string;
  all_sessions : option bool;
  session_ids : option (list string);
  depth_arg : option nat;
  limit : option nat
}.

Record ToolContext : Type := mkContext { sessionID : string }.

(** The options and results of [chunkService.search], and the options
    of [chunkService.getRecentChunks]. *)
Record SearchOptions : Type := mkSearchOptions {
  so_sessionId : option string;
  so_depth : option nat;
  so_limit : nat
}.

Record SearchResult : Type := mkSearchResult {
  chunk : Chunk;
  rank : Z
}.

Record RecentOptions : Type := mkRecentOptions {
  ro_sessionId : option string;
  ro_limit : nat
}.

(** The two read methods of the chunk service the tool calls.  Full-text
    ranking lives in the embedded database, so they are an interface. *)
Record ChunkQueries : Type := mkQueries {
  search : string -> SearchOptions -> list SearchResult;
  getRecentChunks : RecentOptions -> list Chunk
}.

(** One element of [formatted], in recent mode and in search mode. *)
Record RecentEntry : Type := mkRecentEntry {
  re_id : string;
  re_sessionId : string;
  re_depth : nat;
  re_status : ChunkStatus;
  re_summary : string;
  re_created : string;
  re_messages : nat;
  re_files_modified : nat
}.

Record SearchEntry : Type := mkSearchEntry {
  se_id : string;
  se_sessionId : string;
  se_depth : nat;
  se_status : ChunkStatus;
  se_summary : string;
  se_messages : nat;
  se_files_modified : nat;
  se_rank : Z
}.

(** The object the tool serializes, one constructor per [return]. *)
Inductive Response : Type :=
| RecentEmpty (scope message : string) (hint : option string)
| Recent (count : nat) (scope : string) (chunks : list RecentEntry)
         (hint : string)
| SearchEmpty (scope query message : string) (hint : option string)
| Search (count : nat) (scope query : string)
         (estimated_tokens estimated_expanded_tokens : nat)
         (chunks : list SearchEntry) (hint : string)
         (warning : option string).

Definition scope_of (r : Response) : string :=
  match r with
  | RecentEmpty scope _ _ => scope
  | Recent _ scope _ _ => scope
  | SearchEmpty scope _ _ _ => scope
  | Search _ scope _ _ _ _ _ _ => scope
  end.

Definition warning_of (r : Response) : option string :=
  match r with
  | Search _ _ _ _ _ _ _ warning => warning
  | _ => None
  end.

(** [c.summary || `${c.content.messages.length} messages`]. *)
Definition summaryOrCount (c : Chunk) : string :=
  JS.or_else (summary c)
             (JS.show (length (messages (content c))) ++ " messages").

(** [c.content.metadata.files_modified?.length || 0]. *)
Definition filesModifiedCount (c : Chunk) : nat :=
  match files_modified (metadata (content c)) with
  | Some fs => length fs
  | None => 0
  end.

(** The session to search and the scope text, from the arguments. *)
Definition resolveScope (args : Args) (context : ToolContext)
  : option string * string :=
  match session_ids args with
  | Some (first :: rest) =>
      (Some first, "sessions: " ++ JS.join ", " (first :: rest))
  | _ =>
      match all_sessions args with
      | Some true => (None, "all sessions")
      | _ => (Some (sessionID context), "current session")
      end
  end.

(** The reducer of [estimatedExpandedTokens]. *)
Definition expandedCost (sum : nat) (r : SearchResult) : nat :=
  let summaryLength := String.length (JS.or_else (summary (chunk r)) "") in
  let estimatedFullLength := Nat.max (summaryLength * 20) 2000 in
  sum + JS.ceil_div estimatedFullLength CHARS_PER_TOKEN.

Definition expandHint : string :=
  "Use memoir_expand({ chunk_id: " ++ dq ++ "ch_xxx" ++ dq ++
  " }) to see full content.".

(** [args.limit ?? 10]. *)
Definition limitOf (args : Args) : nat :=
  match limit args with
  | Some n => n
  | None => 10
  end.

Definition retryHint (args : Args) (text : string) : option string :=
  match all_sessions args with
  | Some true => None
  | _ => Some text
  end.

Section Execute.
Variable chunkService : ChunkQueries.
(** [new Date(ms).toISOString()] and [JSON.stringify(formatted)]. *)
Variable toISOString : Z -> string.
Variable stringify : list SearchEntry -> string.

(** [historyTool.execute]. *)
Definition execute (args : Args) (context : ToolContext) : Response :=
  let '(sessionId_, searchScope) := resolveScope args context in
  let limit := limitOf args in
  let query :=
    match query args with
    | Some q => Some (JS.trim q)
    | None => None
    end in
  if negb (JS.truthy_opt query) then
    let recentChunks :=
      getRecentChunks chunkService (mkRecentOptions sessionId_ limit) in
    if (length recentChunks =? 0)%nat then
      RecentEmpty searchScope ("No chunks found in " ++ searchScope)
        (retryHint args
           "Try with all_sessions: true to see past sessions")
    else
      let formatted :=
        map (fun c =>
               mkRecentEntry (id c) (sessionId c) (depth c)
                 (status c) (summaryOrCount c)
                 (toISOString (createdAt c * 1000))
                 (length (messages (content c)))
                 (filesModifiedCount c)) recentChunks in
      Recent (length formatted) searchScope formatted
        expandHint
  else
    let query := JS.or_else query "" in
    let results :=
      search chunkService query
             (mkSearchOptions sessionId_ (depth_arg args) limit) in
    if (length results =? 0)%nat then
      SearchEmpty searchScope query
        ("No matches for " ++ dq ++ query ++ dq ++ " in " ++
         searchScope)
        (retryHint args
           "Try with all_sessions: true to search past sessions")
    else
      let formatted :=
        map (fun r =>
               let c := chunk r in
               mkSearchEntry (id c) (sessionId c) (depth c)
                 (status c) (summaryOrCount c)
                 (length (messages (content c)))
                 (filesModifiedCount c) (rank r)) results in
      let responseText := stringify formatted in
      let estimatedTokens := estimateTokens responseText in
      let estimatedExpandedTokens := fold_left expandedCost results 0 in
      Search (length results) searchScope query estimatedTokens
        estimatedExpandedTokens formatted
        expandHint
        (if (LARGE_RESULT_TOKEN_THRESHOLD <? estimatedExpandedTokens)%nat
            && (3 <? length results)%nat
         then Some ("Expanding all " ++ JS.show (length results) ++
                    " results would use ~" ++
                    JS.show estimatedExpandedTokens ++
                    " tokens. Consider using memoir_expand with preview_only=true first, or delegate detailed analysis to a subagent.")
         else None).
End Execute.

End HistoryTool.

(* ================================================================== *)
(** ** The properties, as the specification words them                *)
(* ================================================================== *)

Module Spec.

(** The filtering policy of section 4.1: a part is accepted when it is a
    text part whose text is not blank, or a tool part whose execution has
    reached the status completed. *)
Definition acceptablePart (part : Events.EventMessagePart) : Prop :=
  (Events.ep_type part = "text" /\
   exists t, Events.ep_text part = Some t /\ JS.all_space t = false) \/
  (Events.ep_type part = "tool" /\
   exists ts, Events.ep_state part = Some ts /\
              Events.ts_status ts = Events.completed).

(** A chunk part of type text or tool. *)
Definition isTextOrTool (p : ChunkMessagePart) : bool :=
  match part_type p with
  | Text | Tool => true
  | Reasoning | File => false
  end.

(** Every part of every draft message is of type text or tool. *)
Definition draftOk (d : Tracker.DraftMessage) : bool :=
  forallb (fun kv => isTextOrTool (snd kv)) (Tracker.draft_parts d).

Definition sessionOk (ms : list (string * Tracker.DraftMessage)) : bool :=
  forallb (fun message => draftOk (snd message)) ms.

Definition draftsTextOrTool (tr : Tracker.t) : bool :=
  forallb (fun session => sessionOk (snd session)) tr.

(** Every part of every message of every chunk is of type text or tool. *)
Definition chunksTextOrTool (cs : list Chunk) : bool :=
  forallb (fun c =>
             forallb (fun m => forallb isTextOrTool (msg_parts m))
                     (messages (content c))) cs.

(** The invariant of the event feed: drafts and chunks hold text and tool
    parts only. *)
Definition inv (st : State) : Prop :=
  draftsTextOrTool (tracker st) = true /\
  chunksTextOrTool (chunks st) = true.

(** The store after the flip of the active chunks of a session: those
    chunks become compacted, every other chunk stays as it is. *)
Definition flipActive (sessionID : string) (cs : list Chunk) : list Chunk :=
  map (fun c => if ChunkService.is_active_in sessionID c
                then set_status compacted c else c) cs.

(** The tool names and file paths the chunks' metadata list, in order,
    and the number of messages the chunks hold. *)
Definition toolNames (cs : list Chunk) : list string :=
  flat_map (fun c => match tools_used (metadata (content c)) with
                     | Some ts => ts
                     | None => []
                     end) cs.

Definition fileNames (cs : list Chunk) : list string :=
  flat_map (fun c => match files_modified (metadata (content c)) with
                     | Some fs => fs
                     | None => []
                     end) cs.

Definition totalMessages (cs : list Chunk) : nat :=
  list_sum (map (fun c => length (messages (content c))) cs).

(** The distinct elements of a list, in order of first occurrence. *)
Fixpoint distinct (l : list string) : list string :=
  match l with
  | [] => []
  | x :: rest => x :: filter (fun y => negb (y =? x)) (distinct rest)
  end.

(** The generated summary of section 4.3, step 4: the counts, then the
    tools when there are any, then the files when there are any, at most
    three of them by name and the number of the others after them. *)
Definition toolsSegment (tools : list string) : string :=
  match tools with
  | [] => ""
  | _ :: _ => "; tools: " ++ JS.join ", " tools
  end.

Definition filesSegment (files : list string) : string :=
  match files with
  | [] => ""
  | _ :: _ =>
      "; files: " ++ JS.join ", " (firstn 3 files) ++
      (if (3 <? length files)%nat
       then " +" ++ JS.show (length files - 3) ++ " more"
       else "")
  end.

Definition metadataSummary (total n : nat) (tools files : list string)
  : string :=
  JS.show total ++ " messages across " ++ JS.show n ++ " chunks" ++
  toolsSegment tools ++ filesSegment files.

(** The warning rule of the history tool as the interface section words
    it: whenever the estimated cost of expanding all results is above the
    threshold, the response carries a warning. *)
Definition warnsWheneverCostly : Prop :=
  forall (chunkService : HistoryTool.ChunkQueries)
         (toISOString : Z -> string)
         (stringify : list HistoryTool.SearchEntry -> string)
         (args : HistoryTool.Args) (context : HistoryTool.ToolContext)
         count scope query tokens expanded entries hint warning,
    HistoryTool.execute chunkService toISOString stringify args context =
      HistoryTool.Search count scope query tokens expanded entries hint
                         warning ->
    HistoryTool.LARGE_RESULT_TOKEN_THRESHOLD < expanded ->
    warning <> None.

(** The invariants of section 3 on the store: ids are unique, and every
    child reference names a stored chunk of the same session. *)
Definition storeOk (st : State) : Prop :=
  NoDup (map id (chunks st)) /\
  forall c r, In c (chunks st) -> In r (childRefs c) ->
              exists child, In child (chunks st) /\ id child = r /\
                            sessionId child = sessionId c.

(** The two ids an event may draw are new to the store and distinct. *)
Definition freshEnv (env : Events.Env) (st : State) : Prop :=
  ~ In (Events.env_chunkId env) (map id (chunks st)) /\
  ~ In (Events.env_summaryId env) (map id (chunks st)) /\
  Events.env_chunkId env <> Events.env_summaryId env.

(** A feed whose ids are fresh at the moment each event is handled. *)
Fixpoint freshFeed (mf : string -> option Json -> list string)
         (st : State) (feed : list (Events.Env * Events.Event)) : Prop :=
  match feed with
  | [] => True
  | (env, event) :: rest =>
      freshEnv env st /\
      freshFeed mf (Events.handleEvent mf st env event) rest
  end.

End Spec.

(* ================================================================== *)
(** ** Concrete inputs                                                *)
(* ================================================================== *)

Module Demo.

(** Stand-ins for the runtime's date and JSON printers and for the scan
    of tool inputs; the theorems hold for every choice of them. *)
Definition toISOString (ms : Z) : string := "1970-01-01T00:00:00.000Z".

Definition stringify (j : Json) : string := "{}".

Definition modifiedFiles (name : string) (input : option Json)
  : list string :=
  match input with
  | Some (JObj (("filePath", JStr path) :: _)) => [path]
  | _ => []
  end.

Definition textMessage (mid body : string) : ChunkMessage :=
  mkMessage mid user [mkPart Text (Some body) None None None] 1700000000.

Definition taskContent (mid body : string) : ChunkContent :=
  mkContent [textMessage mid body]
            (mkMetadata (Some ["read"; "write"]) (Some ["src/index.ts"])
                        (Some "success")).

(** Two depth-0 chunks of session S, as the tests create them. *)
Definition twoChunks : State :=
  let st := fst (ChunkService.create initial_state "S"
                   (taskContent "msg-1" "Task 1") "ch_1" 1700000001) in
  fst (ChunkService.create st "S"
         (taskContent "msg-2" "Task 2") "ch_2" 1700000002).

(** The same session after [compact(S, 'Summary X')]. *)
Definition compactedOnce : State :=
  fst (ChunkService.compact twoChunks "S" "Summary X" "ch_3" 1700000003).

(** The summary chunk that compaction created. *)
Definition summaryOfTwo : Chunk :=
  mkChunk "ch_3" "S" (mkContent [] empty_metadata) (Some "Summary X")
          active 1 ["ch_1"; "ch_2"] 1700000003.

(** A small event feed for session S. *)
Definition env : Events.Env :=
  Events.mkEnv 1700000010 "ch_10" "ch_11" None.

Definition userMessage : Events.Message :=
  Events.mkEventMessage "msg-1" "S" "user".

Definition helloPart : Events.EventMessagePart :=
  Events.mkEventPart "prt-1" "S" "msg-1" "text" (Some "Hello")
                     None None None.

Definition blankPart : Events.EventMessagePart :=
  Events.mkEventPart "prt-0" "S" "msg-1" "text" (Some "   ")
                     None None None.

Definition reasoningPart : Events.EventMessagePart :=
  Events.mkEventPart "prt-3" "S" "msg-1" "reasoning" (Some "thinking")
                     None None None.

Definition bashInput : Json := JObj [("command", JStr "ls")].

Definition runningTool : Events.EventMessagePart :=
  Events.mkEventPart "prt-2" "S" "msg-1" "tool" None (Some "bash")
    (Some "call-1")
    (Some (Events.mkToolState Events.running (Some bashInput)
                              None None None None)).

Definition completedTool : Events.EventMessagePart :=
  Events.mkEventPart "prt-2" "S" "msg-1" "tool" None (Some "bash")
    (Some "call-1")
    (Some (Events.mkToolState Events.completed (Some bashInput)
                              (Some "README.md") None None None)).

(** A chunk that lists five files, and a host that answers with a
    continuation prompt. *)
Definition manyFiles : Chunk :=
  mkChunk "ch_5" "S"
          (mkContent [textMessage "msg-5" "Task 5"]
                     (mkMetadata (Some ["edit"; "read"])
                                 (Some ["a.ts"; "b.ts"; "src/index.ts";
                                        "c.ts"; "d.ts"])
                                 None))
          None active 0 [] 1700000005.

Definition hostNarrative : string :=
  "Session Continuation Prompt: fixed the bug [ch_1]".

Definition envWithNarrative : Events.Env :=
  Events.mkEnv 1700000010 "ch_10" "ch_11"
    (Some [Events.mkOcMessage "m1" "assistant"
             (Some [Events.mkOcPart "text" (Some hostNarrative)]);
           Events.mkOcMessage "m2" "user"
             (Some [Events.mkOcPart "text" (Some "continue")])]).

(** A chunk whose summary is 500 characters long, and a chunk service
    whose search finds it alone. *)
Definition longSummary : string :=
  string_of_list_ascii (repeat "x"%char 500).

Definition longChunk : Chunk :=
  mkChunk "ch_9" "S" (mkContent [] empty_metadata) (Some longSummary)
          active 1 ["ch_1"; "ch_2"] 1700000009.

Definition oneLongResult : HistoryTool.ChunkQueries :=
  HistoryTool.mkQueries
    (fun _ _ => [HistoryTool.mkSearchResult longChunk (-1)])
    (fun _ => []).

(** A chunk service over a fixed list of chunks: a search matches the
    chunks of the session asked for (all sessions when none is). *)
Definition inSession (sid : option string) (c : Chunk) : bool :=
  match sid with
  | Some s => sessionId c =? s
  | None => true
  end.

Definition serviceOver (cs : list Chunk) : HistoryTool.ChunkQueries :=
  HistoryTool.mkQueries
    (fun _ o =>
       map (fun c => HistoryTool.mkSearchResult c (-1))
           (firstn (HistoryTool.so_limit o)
                   (filter (inSession (HistoryTool.so_sessionId o)) cs)))
    (fun o =>
       firstn (HistoryTool.ro_limit o)
              (filter (inSession (HistoryTool.ro_sessionId o)) cs)).

Definition taskChunk (cid sid body : string) : Chunk :=
  mkChunk cid sid (mkContent [textMessage "msg" body] empty_metadata)
          None active 0 [] 1700000000.

(** Five chunks of one session, and one chunk in each of two sessions. *)
Definition fiveTasks : list Chunk :=
  [taskChunk "ch_a" "session-1" "Task 0"; taskChunk "ch_b" "session-1" "Task 1";
   taskChunk "ch_c" "session-1" "Task 2"; taskChunk "ch_d" "session-1" "Task 3";
   taskChunk "ch_e" "session-1" "Task 4"].

Definition twoSessions : list Chunk :=
  [taskChunk "ch_a" "session-a" "Work in session A";
   taskChunk "ch_b" "session-b" "Work in session B"].

Definition stringifyEntries (l : list HistoryTool.SearchEntry) : string :=
  "[]".

Definition searchTask : HistoryTool.Args :=
  HistoryTool.mkArgs (Some "Task") None None None None.

Definition searchBoth : HistoryTool.Args :=
  HistoryTool.mkArgs (Some "Work") None
                     (Some ["session-a"; "session-b"]) None None.

Definition inSessionS : HistoryTool.ToolContext := HistoryTool.mkContext "S".

Definition inSession1 : HistoryTool.ToolContext :=
  HistoryTool.mkContext "session-1".

Definition expandSummary : ExpandTool.Args :=
  ExpandTool.mkArgs "ch_3" (Some true) None.

End Demo.

(* ================================================================== *)
(** ** Chat message hook (hooks/chat-message.ts)                      *)
(* ================================================================== *)

Module ChatMessage.

(** [Memory], as far as the hook reads it. *)
Record Memory : Type := mkMemory {
  mem_type : string;
  mem_content : string
}.

(** [Part]: a text part, or any other object with a [type]. *)
Record Part : Type := mkChatPart {
  p_id : option string;
  p_sessionID : option string;
  p_messageID : option string;
  p_type : string;
  p_text : option string;
  p_synthetic : option bool
}.

(** [ChatMessageInput], without the agent and the model. *)
Record ChatMessageInput : Type := mkInput {
  in_sessionID : string;
  in_messageID : option string
}.

(** What the hook asks of the memory service and of the chunk service;
    [getRecentSummaryChunks] answers [None] when [getChunkService] throws. *)
Record Services : Type := mkServices {
  searchRelevant : string -> list Memory;
  detectKeyword : string -> bool;
  getRecentSummaryChunks : nat -> option (list Chunk)
}.

Definition MEMORY_NUDGE_MESSAGE : string :=
  "[MEMORY TRIGGER DETECTED]" ++ nl ++
  "The user wants you to remember something. Use the `memoir` tool with `mode: " ++
  dq ++ "add" ++ dq ++ "` to save this information." ++ nl ++
  "Extract the key information and save it as a concise, searchable memory." ++
  nl ++
  "Choose an appropriate type: " ++ dq ++ "preference" ++ dq ++ ", " ++
  dq ++ "pattern" ++ dq ++ ", " ++ dq ++ "gotcha" ++ dq ++ ", " ++
  dq ++ "fact" ++ dq ++ ", or " ++ dq ++ "learned" ++ dq ++ ".".

(** [formatChunkSummary]. *)
Definition formatChunkSummary (chunk : Chunk) : string :=
  let messageCount := length (messages (content chunk)) in
  let files :=
    match files_modified (metadata (content chunk)) with
    | Some fs => length fs
    | None => 0
    end in
  let tools :=
    JS.or_else
      (match tools_used (metadata (content chunk)) with
       | Some ts => Some (JS.join ", " (firstn 3 ts))
       | None => None
       end) "none" in
  let fallback :=
    JS.show messageCount ++ " messages, " ++ JS.show files ++
    " files modified, tools: " ++ tools in
  match summary chunk with
  | Some s => if JS.truthy s then s else fallback
  | None => fallback
  end.

(** The tools section of [formatContextInjection]. *)
Definition TOOLS_SECTION : string :=
  "## Memoir Tools" ++ nl ++
  "- `memoir` - Add or search project memories" ++ nl ++
  "- `memoir_history` - Search past sessions for relevant work (returns compact summaries)" ++
  nl ++
  "- `memoir_expand` - Expand a [ch_xxx] reference to see full details" ++ nl ++
  "  - Use `preview_only: true` to check size before full expansion" ++ nl ++
  nl ++
  "**Context Budget Tip**: Expanded chunks can be large (1000-10000+ tokens each)." ++
  nl ++
  "When exploring history or analyzing multiple chunks, consider delegating to a subagent:" ++
  nl ++ "```" ++ nl ++ "Task({ " ++ nl ++
  "  prompt: " ++ dq ++
  "Use memoir_history and memoir_expand to find and analyze past work on [topic]" ++
  dq ++ "," ++ nl ++
  "  subagent_type: " ++ dq ++ "explore" ++ dq ++ nl ++ "})" ++ nl ++ "```".

Section Format.
(** [new Date(ms).toLocaleDateString()]. *)
Variable toLocaleDateString : Z -> string.

(** [formatSessionHistory]. *)
Definition formatSessionHistory (chunks : list Chunk) : string :=
  if (length chunks =? 0)%nat then ""
  else
    let lines :=
      map (fun c =>
             let date := toLocaleDateString (createdAt c * 1000) in
             "- [" ++ id c ++ "] (" ++ date ++ "): " ++ formatChunkSummary c)
          chunks in
    nl ++ "## Recent Session History" ++ nl ++
    "The following past work may be relevant:" ++ nl ++ nl ++
    JS.join nl lines ++ nl ++ nl ++
    "Use `memoir_expand({ chunk_id: " ++ dq ++ "ch_xxx" ++ dq ++
    " })` to see full details of any chunk.".

(** [formatContextInjection]. *)
Definition formatContextInjection (memories : list Memory)
           (recentChunks : list Chunk) : string :=
  let sections : list string := [] in
  let sections :=
    if (0 <? length memories)%nat
    then
      let memoryLines :=
        map (fun m => "- [" ++ mem_type m ++ "] " ++ mem_content m)
            memories in
      (sections ++
       [("## Project Memory (Memoir)" ++ nl ++
         "The following memories are relevant to this conversation:" ++
         nl ++ nl ++ JS.join nl memoryLines)%string])%list
    else sections in
  let historySection := formatSessionHistory recentChunks in
  let sections :=
    if JS.truthy historySection
    then (sections ++ [historySection])%list
    else sections in
  let sections :=
    if (0 <? length sections)%nat
    then (sections ++ [TOOLS_SECTION])%list
    else sections in
  JS.join (nl ++ nl) sections.

(** [createSyntheticPart]; [now] is what [Date.now()] returns. *)
Definition createSyntheticPart (now : nat) (sessionID messageID text : string)
  : Part :=
  mkChatPart (Some ("memoir-" ++ JS.show now)) (Some sessionID)
             (Some messageID) "text" (Some text) (Some true).

(** [extractTextFromParts]; a missing text joins as the empty string. *)
Definition extractTextFromParts (parts : list Part) : string :=
  JS.join nl
    (map (fun p => match p_text p with Some t => t | None => "" end)
         (filter (fun p => p_type p =? "text") parts)).

(** [hasInjectedSession]. *)
Definition hasInjectedSession (st : State) (sessionID : string) : bool :=
  existsb (String.eqb sessionID) (injectedSessions st).

(** [resetInjectedSessions]. *)
Definition resetInjectedSessions (st : State) : State :=
  mkState (tracker st) (chunks st) [].

(** [handleChatMessage]: the state and the parts of the output after the
    hook; [nowContext] and [nowNudge] are the two readings of the clock. *)
Definition handleChatMessage (services : Services)
           (nowContext nowNudge : nat) (st : State)
           (input : ChatMessageInput) (parts : list Part)
  : State * list Part :=
  let sessionID := in_sessionID input in
  let messageID := in_messageID input in
  let messageText := extractTextFromParts parts in
  if negb (JS.truthy (JS.trim messageText)) then (st, parts)
  else
    let isFirstMessage := negb (hasInjectedSession st sessionID) in
    let '(st, parts) :=
      if isFirstMessage then
        let st :=
          mkState (tracker st) (chunks st)
                  (JS.set_add sessionID (injectedSessions st)) in
        let memories := searchRelevant services messageText in
        let recentChunks :=
          match getRecentSummaryChunks services 5 with
          | Some cs => cs
          | None => []
          end in
        if (0 <? length memories)%nat || (0 <? length recentChunks)%nat
        then
          let contextText := formatContextInjection memories recentChunks in
          let contextPart :=
            createSyntheticPart nowContext sessionID
                                (JS.or_else messageID "") contextText in
          (st, contextPart :: parts)
        else (st, parts)
      else (st, parts) in
    if detectKeyword services messageText
    then
      let nudgePart :=
        createSyntheticPart nowNudge sessionID (JS.or_else messageID "")
                            MEMORY_NUDGE_MESSAGE in
      (st, (parts ++ [nudgePart])%list)
    else (st, parts).

End Format.

End ChatMessage.

(* ================================================================== *)
(** ** Compaction hook (hooks/compaction.ts)                          *)
(* ================================================================== *)

Module CompactionHook.

(** [CompactionOutput]. *)
Record CompactionOutput : Type := mkOutput {
  context : list string;
  prompt : option string
}.

(** [summarizeChunk]. *)
Definition summarizeChunk (chunk : Chunk) : string :=
  let c := content chunk in
  let messageCount := length (messages c) in
  let tools :=
    JS.or_else (match tools_used (metadata c) with
                | Some ts => Some (JS.join ", " ts)
                | None => None
                end) "none" in
  let files :=
    match files_modified (metadata c) with
    | Some fs => length fs
    | None => 0
    end in
  let outcome := JS.or_else (outcome (metadata c)) "unknown" in
  let generated :=
    JS.show messageCount ++ " messages, tools: " ++ tools ++ ", " ++
    JS.show files ++ " files modified, outcome: " ++ outcome in
  match summary chunk with
  | Some s => if JS.truthy s then s else generated
  | None => generated
  end.

(** The line of one chunk in [formatChunksForContext]. *)
Definition chunkLine (c : Chunk) : string :=
  "[" ++ id c ++ "]: " ++ summarizeChunk c.

(** [formatChunksForContext]. *)
Definition formatChunksForContext (chunks : list Chunk) : string :=
  let chunkSummaries := JS.join nl (map chunkLine chunks) in
  "## Session History (Memoir)" ++ nl ++
  "When summarizing, reference these chunk IDs so details can be retrieved later:" ++
  nl ++ nl ++ chunkSummaries ++ nl ++ nl ++
  "IMPORTANT: Your summary should include [chunk_id] references like:" ++ nl ++
  dq ++ "Fixed authentication bug [ch_xxx] and added rate limiting [ch_yyy]" ++
  dq ++ nl ++ nl ++
  "This allows the full context to be retrieved if needed using the memoir_expand tool.".

(** [handleCompaction]: the output after the hook. *)
Definition handleCompaction (st : State) (sessionID : string)
           (output : CompactionOutput) : CompactionOutput :=
  let chunks := ChunkService.getActiveChunks st sessionID in
  if (length chunks =? 0)%nat then output
  else
    let contextText := formatChunksForContext chunks in
    mkOutput (context output ++ [contextText])%list (prompt output).

End CompactionHook.

(* ================================================================== *)
(** ** Logging service (logging/index.ts)                             *)
(* ================================================================== *)

Module Logging.

Inductive LogLevel : Type := debug | info | warn | error.

Definition LEVEL_PRIORITY (level : LogLevel) : nat :=
  match level with
  | debug => 0
  | info => 1
  | warn => 2
  | error => 3
  end.

(** An [Error]: its message, and its cause when that is an [Error]. *)
#[local] Unset Elimination Schemes.
Inductive JsError : Type :=
| mkError (message : string) (cause : option JsError).
#[local] Set Elimination Schemes.

(** [formatError]. *)
Fixpoint formatError (err : JsError) (depth : nat) : string :=
  match err with
  | mkError message cause =>
      match cause with
      | Some inner =>
          if (depth <? 10)%nat
          then message ++ " Caused by: " ++ formatError inner (depth + 1)
          else message
      | None => message
      end
  end.

(** [LoggingConfig], as far as the service reads it. *)
Record LoggingConfig : Type := mkConfig {
  cfg_debug : bool;
  cfg_file : option string
}.

(** A value of the [extra] record: plain data or an [Error]. *)
Inductive ExtraValue : Type :=
| Plain (value : Json)
| Thrown (err : JsError).

(** The body of a call to [client.app.log]. *)
Record LogBody : Type := mkBody {
  body_service : string;
  body_level : LogLevel;
  body_message : string;
  body_extra : option (list (string * Json))
}.

(** The OpenCode client: whether its [app.log] resolves on a body. *)
Definition OpenCodeClient : Type := LogBody -> bool.

(** A logger instance, and the static fields of the class. *)
Record Logger : Type := mkLogger {
  config : LoggingConfig;
  minLevel : LogLevel;
  fallbackPath : option string
}.

Record Statics : Type := mkStatics {
  instance : option Logger;
  client : option OpenCodeClient
}.

(** What the service does to the outside: a directory it creates, a call
    to the client, a line it appends to a file. *)
Inductive Effect : Type :=
| Mkdir (dir : string)
| ClientLog (body : LogBody)
| AppendFile (path line : string).

(** [level.toUpperCase()] on the four level names. *)
Definition upperName (level : LogLevel) : string :=
  match level with
  | debug => "DEBUG"
  | info => "INFO"
  | warn => "WARN"
  | error => "ERROR"
  end.

(** [String.prototype.padEnd] with the default filler, a space. *)
Definition padEnd (s : string) (n : nat) : string :=
  s ++ string_of_list_ascii (repeat " "%char (n - String.length s)).

(** [s.split('.')[0]]: the text before the first dot. *)
Fixpoint beforeDot (s : string) : string :=
  match s with
  | EmptyString => EmptyString
  | String c rest =>
      if (c =? ".")%char then EmptyString else String c (beforeDot rest)
  end.

Section Runtime.
(** [path.join], [path.dirname], [fs.existsSync], [os.platform()],
    [os.homedir()], the two environment variables, and
    [JSON.stringify]. *)
Variable join : list string -> string.
Variable dirname : string -> string.
Variable existsSync : string -> bool.
Variable platform : string.
Variable homedir : string.
Variable APPDATA : option string.
Variable XDG_DATA_HOME : option string.
Variable stringify : list (string * Json) -> string.

(** [getOpenCodeLogDir]. *)
Definition getOpenCodeLogDir : string :=
  if platform =? "darwin"
  then join [homedir; ".local"; "share"; "opencode"; "log"]
  else if platform =? "win32"
  then join [JS.or_else APPDATA (join [homedir; "AppData"; "Roaming"]);
             "opencode"; "log"]
  else
    let xdgData :=
      JS.or_else XDG_DATA_HOME (join [homedir; ".local"; "share"]) in
    join [xdgData; "opencode"; "log"].

(** The constructor: the instance, and the directory it creates when the
    fallback file's directory does not exist. *)
Definition newLogger (cfg : LoggingConfig) (storagePath : string)
  : Logger * list Effect :=
  let minLevel := if cfg_debug cfg then debug else info in
  let fallbackPath :=
    if JS.truthy_opt (cfg_file cfg)
    then Some (join [storagePath; JS.or_else (cfg_file cfg) ""])
    else if cfg_debug cfg
    then Some (join [getOpenCodeLogDir; "memoir.log"])
    else None in
  let effects :=
    match fallbackPath with
    | Some path =>
        if JS.truthy path then
          let dir := dirname path in
          if negb (existsSync dir) then [Mkdir dir] else []
        else []
    | None => []
    end in
  (mkLogger cfg minLevel fallbackPath, effects).

(** [Logger.setClient]. *)
Definition setClient (s : Statics) (c : OpenCodeClient) : Statics :=
  mkStatics (instance s) (Some c).

(** [Logger.reset]. *)
Definition reset (s : Statics) : Statics := mkStatics None None.

(** [isEnabled]. *)
Definition isEnabled (s : Statics) (l : Logger) : bool :=
  cfg_debug (config l) ||
  match client s with Some _ => true | None => false end.

(** [getPath]. *)
Definition getPath (l : Logger) : option string := fallbackPath l.

(** [shouldLog]. *)
Definition shouldLog (l : Logger) (level : LogLevel) : bool :=
  (LEVEL_PRIORITY (minLevel l) <=? LEVEL_PRIORITY level)%nat.

(** [formatExtra]. *)
Definition formatExtra (extra : option (list (string * ExtraValue)))
  : option (list (string * Json)) :=
  match extra with
  | None => None
  | Some entries =>
      Some (map (fun kv =>
                   match snd kv with
                   | Thrown e => (fst kv, JStr (formatError e 0))
                   | Plain v => (fst kv, v)
                   end) entries)
  end.

(** [writeToFile]; [isoNow] is [new Date().toISOString()].  A failing
    append is swallowed, so the attempt is all there is to see. *)
Definition writeToFile (l : Logger) (isoNow : string) (level : LogLevel)
           (message : string) (extra : option (list (string * Json)))
  : list Effect :=
  match fallbackPath l with
  | None => []
  | Some path =>
      if negb (JS.truthy path) then []
      else
        let timestamp := beforeDot isoNow in
        let levelStr := padEnd (upperName level) 5 in
        let extraStr :=
          match extra with
          | Some e => " " ++ stringify e
          | None => ""
          end in
        let line :=
          levelStr ++ " " ++ timestamp ++ " service=memoir " ++ message ++
          extraStr ++ nl in
        [AppendFile path line]
  end.

(** [log]. *)
Definition log (s : Statics) (l : Logger) (isoNow : string)
           (level : LogLevel) (message : string)
           (extra : option (list (string * ExtraValue))) : list Effect :=
  if negb (shouldLog l level) then []
  else
    let formattedExtra := formatExtra extra in
    match client s with
    | Some c =>
        let body := mkBody "memoir" level message formattedExtra in
        if c body then [ClientLog body]
        else (ClientLog body ::
              writeToFile l isoNow level message formattedExtra)
    | None => writeToFile l isoNow level message formattedExtra
    end.

(** [Logger.get()] followed by one of [debug], [info], [warn], [error]:
    without an instance the logger is the no-op one. *)
Definition logVia (s : Statics) (isoNow : string) (level : LogLevel)
           (message : string) (extra : option (list (string * ExtraValue)))
  : list Effect :=
  match instance s with
  | None => []
  | Some l => log s l isoNow level message extra
  end.

(** [Logger.initialize]: the statics after the call, the instance it
    returns and what it did. *)
Definition initialize (s : Statics) (isoNow : string) (cfg : LoggingConfig)
           (storagePath : string) : Statics * Logger * list Effect :=
  match instance s with
  | Some l => (s, l, [])
  | None =>
      let '(l, created) := newLogger cfg storagePath in
      let s' := mkStatics (Some l) (client s) in
      let startup :=
        log s' l isoNow info "logger initialized"
            (Some [("debug", Plain (JBool (cfg_debug cfg)));
                   ("fallbackPath",
                    Plain (match fallbackPath l with
                           | Some p => JStr p
                           | None => JNull
                           end));
                   ("hasClient",
                    Plain (JBool (match client s with
                                  | Some _ => true
                                  | None => false
                                  end)))]) in
      (s', l, (created ++ startup)%list)
  end.

End Runtime.

End Logging.

(* ================================================================== *)
(** ** Notions used to state properties of the hooks and tools        *)
(* ================================================================== *)

Module Props.

(** [x] occurs in [s]. *)
Definition occursIn (x s : string) : Prop :=
  exists before after, s = before ++ x ++ after.

(** The condition under which [fetchCompactionSummary] takes a part: a
    text part with a non-empty text that looks like a summary and is not
    the plugin's own memory injection. *)
Definition isSummaryPart (p : Events.OpenCodeMessagePart) : bool :=
  match Events.oc_text p with
  | Some t =>
      (Events.oc_type p =? "text") && JS.truthy t &&
      Events.looksLikeSummary t &&
      negb (JS.startsWith t "## Project Memory (Memoir)")
  | None => false
  end.

(** No part of the message is taken. *)
Definition noSummaryIn (m : Events.OpenCodeMessage) : bool :=
  match Events.oc_parts m with
  | Some parts => forallb (fun p => negb (isSummaryPart p)) parts
  | None => true
  end.

(** The session an event is about, when it names one. *)
Definition sessionOf (e : Events.Event) : option string :=
  match e with
  | Events.EvSessionIdle s => Some s
  | Events.EvSessionCompacted s => Some s
  | Events.EvSessionDeleted s => Some s
  | Events.EvMessageUpdated info => Some (Events.m_sessionID info)
  | Events.EvMessagePartUpdated part => Some (Events.ep_sessionID part)
  | Events.EvOther _ => None
  end.

(** The chunks of one session, in store order. *)
Definition chunksOf (st : State) (sessionID : string) : list Chunk :=
  filter (fun c => sessionId c =? sessionID) (chunks st).

(** A chunk as it was, or as it was but compacted. *)
Definition sameButStatus (before after : Chunk) : Prop :=
  after = before \/ after = set_status compacted before.

(** An event other than session.deleted. *)
Definition keepsChunks (e : Events.Event) : bool :=
  match e with
  | Events.EvSessionDeleted _ => false
  | _ => true
  end.

(** A part the chat hook made itself. *)
Definition isSynthetic (p : ChatMessage.Part) : Prop :=
  ChatMessage.p_type p = "text" /\ ChatMessage.p_synthetic p = Some true.

(** The messages of an error and of its causes, outermost first. *)
Fixpoint causeChain (err : Logging.JsError) : list string :=
  match err with
  | Logging.mkError message cause =>
      message :: match cause with
                 | Some inner => causeChain inner
                 | None => []
                 end
  end.

(** The summaries, the ids and the count a history response lists. *)
Definition listedSummaries (r : HistoryTool.Response) : list string :=
  match r with
  | HistoryTool.Recent _ _ entries _ => map HistoryTool.re_summary entries
  | HistoryTool.Search _ _ _ _ _ entries _ _ =>
      map HistoryTool.se_summary entries
  | _ => []
  end.

Definition listedIds (r : HistoryTool.Response) : list string :=
  match r with
  | HistoryTool.Recent _ _ entries _ => map HistoryTool.re_id entries
  | HistoryTool.Search _ _ _ _ _ entries _ _ => map HistoryTool.se_id entries
  | _ => []
  end.

Definition countOf (r : HistoryTool.Response) : nat :=
  match r with
  | HistoryTool.Recent count _ _ _ => count
  | HistoryTool.Search count _ _ _ _ _ _ _ => count
  | _ => 0
  end.

(** The estimate a history response gives for expanding its results. *)
Definition expandedTokensOf (r : HistoryTool.Response) : option nat :=
  match r with
  | HistoryTool.Search _ _ _ _ expanded _ _ _ => Some expanded
  | _ => None
  end.

End Props.

(* ================================================================== *)
(** ** More concrete inputs                                           *)
(* ================================================================== *)

Module Demo2.

Definition partB : ChunkMessagePart :=
  mkPart Text (Some "draft of b") None None None.

(** Two sessions side by side: session-a with two active chunks and an
    empty draft message, session-b with one chunk, a draft and the
    injection flag. *)
Definition mixed : State :=
  mkState
    [("session-b", [("msg-b", Tracker.mkDraft user [("prt-b", partB)])]);
     ("session-a", [("msg-a", Tracker.mkDraft assistant [])])]
    [Demo.taskChunk "ch_a1" "session-a" "A one";
     Demo.taskChunk "ch_b" "session-b" "B";
     Demo.taskChunk "ch_a2" "session-a" "A two"]
    ["session-b"].

(** A later update of the part [prt-1] of message [msg-1]. *)
Definition helloAgain : Events.EventMessagePart :=
  Events.mkEventPart "prt-1" "S" "msg-1" "text" (Some "Hello, world")
                     None None None.


(** The state after message.updated for [msg-1]. *)
Definition tracked : State :=
  Events.handleEvent Demo.modifiedFiles initial_state Demo.env
                     (Events.EvMessageUpdated Demo.userMessage).

(** A memory service with one memory for every text, which sees a keyword
    in texts that contain [remember]; no chunk service yet. *)
Definition chatServices : ChatMessage.Services :=
  ChatMessage.mkServices
    (fun _ => [ChatMessage.mkMemory "preference" "Use strict mode"])
    (fun t => JS.includes t "remember")
    (fun _ => None).

Definition toLocaleDateString (ms : Z) : string := "1/1/1970".

Definition chatInput : ChatMessage.ChatMessageInput :=
  ChatMessage.mkInput "S" (Some "msg-1").

Definition userText (t : string) : ChatMessage.Part :=
  ChatMessage.mkChatPart (Some "prt-1") (Some "S") (Some "msg-1") "text"
                         (Some t) None.

(** A part that is not text. *)
Definition filePart : ChatMessage.Part :=
  ChatMessage.mkChatPart (Some "prt-2") (Some "S") (Some "msg-1") "file"
                         None None.

(** A summary chunk that carries a narrative of the host, the context
    injected from it alone and with a memory, and a host whose newest
    message holds a given text. *)
Definition narrativeChunk : Chunk :=
  mkChunk "ch_9" "S" (mkContent [] empty_metadata)
          (Some Demo.hostNarrative) active 1 ["ch_1"; "ch_2"] 1700000009.

Definition historyInjection : string :=
  ChatMessage.formatContextInjection toLocaleDateString []
                                     [narrativeChunk].

Definition headingMemory : ChatMessage.Memory :=
  ChatMessage.mkMemory "fact" "Session Continuation Prompt is the host's heading".

Definition memoryInjection : string :=
  ChatMessage.formatContextInjection toLocaleDateString [headingMemory]
                                     [narrativeChunk].

Definition realSummary : Events.OpenCodeMessage :=
  Events.mkOcMessage "m0" "assistant"
    (Some [Events.mkOcPart "text"
             (Some "Complete Summary of All Work: real")]).

Definition injectedMessage (t : string) : Events.OpenCodeMessage :=
  Events.mkOcMessage "m1" "user" (Some [Events.mkOcPart "text" (Some t)]).

Definition envAfterInjection (t : string) : Events.Env :=
  Events.mkEnv 0 "a" "b" (Some [realSummary; injectedMessage t]).

(** A tool part whose output is 5000 characters long. *)
Definition bigTool : ChunkMessagePart :=
  mkPart Tool None (Some "bash") (Some Demo.bashInput)
         (Some (string_of_list_ascii (repeat "o"%char 5000))).

(** A chain of thirteen errors, each caused by the next. *)
Fixpoint errorChain (n : nat) : Logging.JsError :=
  match n with
  | O => Logging.mkError "e0" None
  | S k => Logging.mkError ("e" ++ JS.show n) (Some (errorChain k))
  end.

(** The path functions of a POSIX host whose directories all exist, and a
    flat printer for the extra record. *)
Definition pathJoin (parts : list string) : string := JS.join "/" parts.

Definition pathDirname (p : string) : string := "/data".

Definition logStringify (e : list (string * Json)) : string := "{}".

Definition defaultLogging : Logging.LoggingConfig :=
  Logging.mkConfig false None.

Definition fileLogging : Logging.LoggingConfig :=
  Logging.mkConfig false (Some "memoir.log").

Definition freshStatics : Logging.Statics := Logging.mkStatics None None.

(** A client whose [app.log] always rejects. *)
Definition rejectingClient : Logging.OpenCodeClient := fun _ => false.

(** A query of blanks. *)
Definition blankQuery : HistoryTool.Args :=
  HistoryTool.mkArgs (Some "   ") None None (Some 2) None.

Definition noQuery : HistoryTool.Args :=
  HistoryTool.mkArgs None None None None None.

End Demo2.

(* ================================================================== *)
(** ** Facts about the runtime functions                              *)
(* ================================================================== *)

Module JSFacts.
Import JS.

Lemma ceil_div_bounds (n d : nat) :
  0 < d -> n <= d * ceil_div n d /\ d * ceil_div n d < n + d.
Proof.
  intros Hd. unfold ceil_div.
  pose proof (Nat.div_mod_eq n d) as Hdiv.
  pose proof (Nat.mod_upper_bound n d ltac:(lia)) as Hmod.
  destruct (Nat.eqb_spec (n mod d) 0) as [E | E]; nia.
Qed.

Lemma ceil_div_least (n d k : nat) :
  0 < d -> n <= d * k -> ceil_div n d <= k.
Proof.
  intros Hd Hk. destruct (ceil_div_bounds n d Hd) as [_ Hup]. nia.
Qed.

Lemma truthy_true_iff (s : string) : truthy s = true <-> s <> "".
Proof.
  unfold truthy. destruct (String.eqb_spec s ""); split; intros; try easy.
Qed.

Lemma trimStart_empty_iff (s : string) :
  trimStart s = "" <-> all_space s = true.
Proof.
  unfold all_space. induction s as [| c s IH]; simpl.
  - tauto.
  - destruct (is_space c); simpl; [exact IH | split; discriminate].
Qed.

Lemma trimStart_head (s : string) (c : ascii) (r : string) :
  trimStart s = String c r -> is_space c = false.
Proof.
  induction s as [| a s IH]; simpl; [discriminate |].
  destruct (is_space a) eqn:E; [exact IH |].
  intros H. injection H as -> _. exact E.
Qed.

Lemma reverse_empty_iff (s : string) : reverse s = "" <-> s = "".
Proof.
  unfold reverse. split.
  - intros H. destruct s as [| c s]; [reflexivity |]. exfalso.
    apply (f_equal list_ascii_of_string) in H.
    rewrite list_ascii_of_string_of_list_ascii in H. simpl in H.
    destruct (rev (list_ascii_of_string s)); discriminate.
  - intros ->. reflexivity.
Qed.

Lemma all_space_reverse (s : string) : all_space (reverse s) = all_space s.
Proof.
  unfold all_space, reverse.
  rewrite list_ascii_of_string_of_list_ascii.
  apply eq_true_iff_eq. rewrite !forallb_forall.
  split; intros H x Hx; apply H; [apply in_rev in Hx | apply in_rev];
    try rewrite rev_involutive; assumption.
Qed.

(** [s.trim() === ''] exactly when [s] is made of white space only. *)
Lemma trim_empty_iff (s : string) : trim s = "" <-> all_space s = true.
Proof.
  unfold trim, trimEnd. rewrite reverse_empty_iff, trimStart_empty_iff.
  rewrite all_space_reverse. split.
  - intros H. apply trimStart_empty_iff.
    destruct (trimStart s) as [| c r] eqn:E; [reflexivity |].
    apply trimStart_head in E. unfold all_space in H. simpl in H.
    rewrite E in H. discriminate.
  - intros H. apply trimStart_empty_iff in H. rewrite H. reflexivity.
Qed.

End JSFacts.

(* ================================================================== *)
(** ** The part filter of the event hook                              *)
(* ================================================================== *)

Module PartFilter.
Import Events.

Lemma emptyText_false_iff (t : option string) :
  emptyText t = false <-> exists s, t = Some s /\ JS.all_space s = false.
Proof.
  unfold emptyText. destruct t as [s |].
  - split.
    + intros H. exists s. split; [reflexivity |].
      apply orb_false_iff in H. destruct H as [_ H].
      destruct (JS.all_space s) eqn:E; [| reflexivity].
      apply JSFacts.trim_empty_iff in E. rewrite E in H. discriminate.
    + intros [s' [[= <-] Hs]]. apply orb_false_iff. split.
      * apply negb_false_iff. apply JSFacts.truthy_true_iff.
        intros ->. discriminate.
      * destruct (String.eqb_spec (JS.trim s) ""); [| reflexivity].
        apply JSFacts.trim_empty_iff in e. congruence.
  - split; [discriminate | intros [s [[=] _]]].
Qed.

Lemma notCompleted_false_iff (s : option ToolState) :
  notCompleted s = false <-> exists ts, s = Some ts /\ ts_status ts = completed.
Proof.
  unfold notCompleted. destruct s as [ts |].
  - destruct (ts_status ts) eqn:E; split; try discriminate;
      try (intros [ts' [[= <-] H]]; congruence).
    intros _. exists ts. auto.
  - split; [discriminate | intros [ts [[=] _]]].
Qed.

(** The hook hands a part to the tracker exactly when the filtering policy
    accepts it. *)
Lemma convertPart_some_iff (part : EventMessagePart) :
  (exists cp, convertPart part = Some cp) <-> Spec.acceptablePart part.
Proof.
  unfold convertPart, Spec.acceptablePart.
  destruct (String.eqb_spec (ep_type part) "text") as [Ht | Ht];
    destruct (String.eqb_spec (ep_type part) "tool") as [Hl | Hl]; simpl.
  - rewrite Ht in Hl. discriminate.
  - destruct (emptyText (ep_text part)) eqn:E.
    + split; [intros [cp [=]] |].
      intros [[_ H] | [H _]]; [| contradiction].
      apply emptyText_false_iff in H. congruence.
    + split; [| intros _; eexists; reflexivity].
      intros _. left. split; [assumption |].
      apply emptyText_false_iff. assumption.
  - destruct (notCompleted (ep_state part)) eqn:E.
    + split; [intros [cp [=]] |].
      intros [[H _] | [_ H]]; [contradiction |].
      apply notCompleted_false_iff in H. congruence.
    + split; [| intros _; eexists; reflexivity].
      intros _. right. split; [assumption |].
      apply notCompleted_false_iff. assumption.
  - split; [intros [cp [=]] |].
    intros [[H _] | [H _]]; contradiction.
Qed.

(** The chunk part the hook builds is of type text or tool. *)
Lemma convertPart_type (part : EventMessagePart) (cp : ChunkMessagePart) :
  convertPart part = Some cp -> Spec.isTextOrTool cp = true.
Proof.
  unfold convertPart.
  repeat match goal with
         | |- context [if ?b then _ else _] => destruct b
         end; intros [=]; subst; reflexivity.
Qed.

(** C2. A streamed part reaches the tracker only if it is a text part with
    non-blank text or a tool part whose state is completed; every other
    part (blank text, a tool that is pending, running or in error, any
    other type) is dropped and the state stays as it was. *)
Theorem part_accepted_only_if_complete (part : EventMessagePart) :
  ((exists cp, convertPart part = Some cp) <-> Spec.acceptablePart part) /\
  (forall mf st env,
      ~ Spec.acceptablePart part ->
      handleEvent mf st env (EvMessagePartUpdated part) = st) /\
  (forall mf st env,
      handleEvent mf st env (EvMessagePartUpdated part) <> st ->
      (ep_type part = "text" /\
       exists t, ep_text part = Some t /\ JS.trim t <> "") \/
      (ep_type part = "tool" /\
       exists ts, ep_state part = Some ts /\ ts_status ts = completed)).
Proof.
  assert (Hdrop : forall mf st env,
             convertPart part = None ->
             handleEvent mf st env (EvMessagePartUpdated part) = st).
  { intros mf st env H. unfold handleEvent, handleMessagePartUpdated.
    simpl. rewrite H. reflexivity. }
  split; [apply convertPart_some_iff |]. split.
  - intros mf st env Hn. apply Hdrop.
    destruct (convertPart part) as [cp |] eqn:E; [| reflexivity].
    exfalso. apply Hn. apply convertPart_some_iff. eauto.
  - intros mf st env Hchg.
    destruct (convertPart part) as [cp |] eqn:E.
    + assert (Ha : Spec.acceptablePart part)
        by (apply convertPart_some_iff; eauto).
      destruct Ha as [[Ht [t [Htx Hs]]] | Hl]; [left | right; assumption].
      split; [assumption |]. exists t. split; [assumption |].
      intros Hb. apply JSFacts.trim_empty_iff in Hb. congruence.
    + exfalso. apply Hchg. apply Hdrop. reflexivity.
Qed.

(** The scenario of the specification: a running tool part is ignored,
    and the same part, once completed, is in the chunk of the next
    finalize. *)
Lemma part_accepted_only_if_complete_witness :
  let tracked :=
    run Demo.modifiedFiles initial_state
        [(Demo.env, EvMessageUpdated Demo.userMessage)] in
  handleEvent Demo.modifiedFiles tracked Demo.env
              (EvMessagePartUpdated Demo.runningTool) = tracked /\
  map (fun c => map msg_parts (messages (content c)))
      (chunks (run Demo.modifiedFiles tracked
                   [(Demo.env, EvMessagePartUpdated Demo.runningTool);
                    (Demo.env, EvMessagePartUpdated Demo.completedTool);
                    (Demo.env, EvSessionIdle "S")])) =
    [[[mkPart Tool None (Some "bash") (Some Demo.bashInput)
              (Some "README.md")]]].
Proof.
  cbv zeta. split.
  - destruct (part_accepted_only_if_complete Demo.runningTool)
      as [_ [Hdrop _]].
    apply Hdrop.
    intros [[H _] | [_ [ts [Hs Hc]]]]; [discriminate H |].
    injection Hs as <-. discriminate Hc.
  - vm_compute. reflexivity.
Defined.

End PartFilter.

(* ================================================================== *)
(** ** Association lists and [forallb]                                *)
(* ================================================================== *)

Section AssocFacts.
Context {V : Type}.
Variable P : V -> bool.

Lemma forallb_alookup (k : string) (m : list (string * V)) (v : V) :
  forallb (fun kv => P (snd kv)) m = true -> alookup k m = Some v ->
  P v = true.
Proof.
  induction m as [| [k' v'] m IH]; simpl; [discriminate |].
  intros H. apply andb_true_iff in H. destruct H as [Hv Hm].
  destruct (k =? k'); [intros [= <-]; exact Hv | apply IH, Hm].
Qed.

Lemma forallb_aset (k : string) (v : V) (m : list (string * V)) :
  forallb (fun kv => P (snd kv)) m = true -> P v = true ->
  forallb (fun kv => P (snd kv)) (aset k v m) = true.
Proof.
  intros Hm Hv. induction m as [| [k' v'] m IH]; simpl.
  - rewrite Hv. reflexivity.
  - simpl in Hm. apply andb_true_iff in Hm. destruct Hm as [Hv' Hm].
    destruct (k =? k'); simpl.
    + rewrite Hv, Hm. reflexivity.
    + rewrite Hv', (IH Hm). reflexivity.
Qed.

Lemma forallb_adelete (k : string) (m : list (string * V)) :
  forallb (fun kv => P (snd kv)) m = true ->
  forallb (fun kv => P (snd kv)) (adelete k m) = true.
Proof.
  unfold adelete. rewrite !forallb_forall. intros H x Hx.
  apply filter_In in Hx. apply H, Hx.
Qed.

End AssocFacts.

(* ================================================================== *)
(** ** What the event feed can put into drafts and chunks             *)
(* ================================================================== *)

Module FeedInvariant.
Import Events Spec.

Lemma drafts_ok (tr : Tracker.t) (sessionID : string) :
  Spec.draftsTextOrTool tr = true ->
  sessionOk (Tracker.drafts tr sessionID) = true.
Proof.
  intros H. unfold Tracker.drafts.
  destruct (alookup sessionID tr) as [ms |] eqn:E; [| reflexivity].
  exact (forallb_alookup sessionOk sessionID tr ms H E).
Qed.

Lemma ensureMessage_ok tr sessionID messageID role :
  Spec.draftsTextOrTool tr = true ->
  Spec.draftsTextOrTool
    (Tracker.ensureMessage tr sessionID messageID role) = true.
Proof.
  intros H. unfold Tracker.ensureMessage.
  destruct (alookup messageID (Tracker.drafts tr sessionID)); [exact H |].
  apply (forallb_aset sessionOk); [exact H |].
  apply (forallb_aset draftOk); [apply drafts_ok, H | reflexivity].
Qed.

Lemma addPart_ok tr sessionID messageID partID part tr' :
  Spec.draftsTextOrTool tr = true -> Spec.isTextOrTool part = true ->
  Tracker.addPart tr sessionID messageID partID part = Some tr' ->
  Spec.draftsTextOrTool tr' = true.
Proof.
  intros H Hp. unfold Tracker.addPart.
  destruct (alookup messageID (Tracker.drafts tr sessionID)) as [d |] eqn:E;
    [| discriminate].
  intros [= <-]. pose proof (drafts_ok tr sessionID H) as Hs.
  apply (forallb_aset sessionOk); [exact H |].
  apply (forallb_aset draftOk); [exact Hs |].
  unfold draftOk. simpl.
  apply (forallb_aset Spec.isTextOrTool); [| exact Hp].
  exact (forallb_alookup draftOk messageID _ d Hs E).
Qed.

Lemma clearSession_ok tr sessionID :
  Spec.draftsTextOrTool tr = true ->
  Spec.draftsTextOrTool (Tracker.clearSession tr sessionID) = true.
Proof. apply (forallb_adelete sessionOk). Qed.

Lemma getMessages_ok tr sessionID now :
  Spec.draftsTextOrTool tr = true ->
  forallb (fun m => forallb Spec.isTextOrTool (msg_parts m))
          (Tracker.getMessages tr sessionID now) = true.
Proof.
  intros H. pose proof (drafts_ok tr sessionID H) as Hs.
  unfold Tracker.getMessages.
  induction (Tracker.drafts tr sessionID) as [| [k d] ms IH]; simpl;
    [reflexivity |].
  simpl in Hs. apply andb_true_iff in Hs. destruct Hs as [Hd Hms].
  rewrite (IH Hms), andb_true_r. unfold draftOk in Hd.
  rewrite forallb_forall in *. intros p Hp.
  apply in_map_iff in Hp. destruct Hp as [kv [<- Hkv]]. apply Hd, Hkv.
Qed.

Lemma finalize_inv mf st sessionID newId now :
  inv st -> inv (ChunkService.finalize mf st sessionID newId now).
Proof.
  intros [Hd Hc]. unfold ChunkService.finalize.
  destruct (Tracker.hasMessages (tracker st) sessionID); simpl;
    [| split; assumption].
  split; simpl.
  - apply clearSession_ok, Hd.
  - unfold Spec.chunksTextOrTool. rewrite forallb_app. simpl.
    fold (Spec.chunksTextOrTool (chunks st)). rewrite Hc. simpl.
    rewrite getMessages_ok by exact Hd. reflexivity.
Qed.

Lemma compact_inv st sessionID summaryText newId now :
  inv st ->
  inv (fst (ChunkService.compact st sessionID summaryText newId now)).
Proof.
  intros [Hd Hc]. unfold ChunkService.compact.
  destruct (length (ChunkService.getActiveChunks st sessionID) <=? 1)%nat;
    simpl; [split; assumption |].
  split; [exact Hd |]. simpl.
  unfold Spec.chunksTextOrTool in *. rewrite forallb_forall in *.
  intros c Hin. apply in_map_iff in Hin. destruct Hin as [c0 [<- Hc0]].
  assert (H0 : forallb (fun m => forallb Spec.isTextOrTool (msg_parts m))
                       (messages (content c0)) = true).
  { apply in_app_or in Hc0. destruct Hc0 as [Hc0 | [<- | []]];
      [apply Hc, Hc0 | reflexivity]. }
  destruct (existsb _ _); [exact H0 | exact H0].
Qed.

Lemma handleEvent_inv mf st env event :
  inv st -> inv (handleEvent mf st env event).
Proof.
  intros Hinv. unfold handleEvent.
  destruct (negb _); [exact Hinv |].
  destruct event as [sid | sid | sid | info | part | ty];
    try exact Hinv.
  - apply finalize_inv, Hinv.
  - unfold handleSessionCompacted.
    destruct (1 <? _)%nat; [apply compact_inv |]; apply finalize_inv, Hinv.
  - destruct Hinv as [Hd Hc]. unfold handleSessionDeleted. split; simpl.
    + apply clearSession_ok, Hd.
    + unfold Spec.chunksTextOrTool in *. rewrite forallb_forall in *.
      intros c Hin. apply filter_In in Hin. apply Hc, Hin.
  - unfold handleMessageUpdated. destruct (_ && _); [exact Hinv |].
    destruct Hinv as [Hd Hc]. split; [| exact Hc]. simpl.
    apply ensureMessage_ok, Hd.
  - unfold handleMessagePartUpdated.
    destruct (convertPart part) as [cp |] eqn:E; [| exact Hinv].
    destruct (Tracker.addPart _ _ _ _ _) as [tr |] eqn:Ea; [| exact Hinv].
    destruct Hinv as [Hd Hc]. split; [| exact Hc]. simpl.
    exact (addPart_ok _ _ _ _ _ _ Hd (PartFilter.convertPart_type _ _ E) Ea).
Qed.

Lemma run_inv mf feed st : inv st -> inv (run mf st feed).
Proof.
  revert st. unfold run.
  induction feed as [| [env event] feed IH]; intros st H; simpl;
    [exact H | apply IH, handleEvent_inv, H].
Qed.

(** C9. Whatever events the host feeds to the hook, starting from the empty
    state, every part held in a draft message and every part of every chunk
    is of type text or tool; a part the hook builds is never a reasoning
    or file part. *)
Theorem feed_parts_are_text_or_tool
        (mf : string -> option Json -> list string)
        (feed : list (Env * Event)) :
  Spec.draftsTextOrTool (tracker (run mf initial_state feed)) = true /\
  Spec.chunksTextOrTool (chunks (run mf initial_state feed)) = true /\
  (forall part cp,
      convertPart part = Some cp ->
      part_type cp <> Reasoning /\ part_type cp <> File).
Proof.
  destruct (run_inv mf feed initial_state) as [Hd Hc];
    [split; reflexivity |].
  repeat split; try assumption;
    apply PartFilter.convertPart_type in H; unfold Spec.isTextOrTool in H;
    intros E; rewrite E in H; discriminate.
Qed.

(** A feed with a reasoning part, a text part and a blank text part: the
    chunk of the finalize holds the text part alone. *)
Lemma feed_parts_are_text_or_tool_witness :
  let feed :=
    [(Demo.env, EvMessageUpdated Demo.userMessage);
     (Demo.env, EvMessagePartUpdated Demo.reasoningPart);
     (Demo.env, EvMessagePartUpdated Demo.helloPart);
     (Demo.env, EvMessagePartUpdated Demo.blankPart);
     (Demo.env, EvSessionIdle "S")] in
  Spec.chunksTextOrTool (chunks (run Demo.modifiedFiles initial_state feed))
    = true /\
  map (fun c => map msg_parts (messages (content c)))
      (chunks (run Demo.modifiedFiles initial_state feed)) =
    [[[mkPart Text (Some "Hello") None None None]]].
Proof.
  cbv zeta. split.
  - apply (feed_parts_are_text_or_tool Demo.modifiedFiles).
  - vm_compute. reflexivity.
Defined.

End FeedInvariant.

(* ================================================================== *)
(** ** The expand tool                                                *)
(* ================================================================== *)

Module ExpandFacts.
Import ExpandTool.

(** [estimateTokens] is the ceiling of a quarter of the length. *)
Lemma estimateTokens_ceil (s : string) :
  String.length s <= 4 * estimateTokens s /\
  4 * estimateTokens s < String.length s + 4.
Proof.
  unfold estimateTokens, CHARS_PER_TOKEN.
  apply (JSFacts.ceil_div_bounds (String.length s) 4). lia.
Qed.

(** The response of the tool in full mode, when the chunk is found. *)
Lemma execute_full_shape
      (toISOString : Z -> string) (stringify : Json -> string)
      (st : State) (args : Args) :
  ChunkService.expand st (chunk_id args) (include_children args) <> [] ->
  preview_only args <> Some true ->
  let chunks :=
    ChunkService.expand st (chunk_id args) (include_children args) in
  let content :=
    JS.join divider (map (formatChunkContent toISOString stringify) chunks) in
  execute toISOString stringify st args =
    Full (length chunks) (estimateTokens content) content
         (if (LARGE_RESPONSE_TOKEN_THRESHOLD <? estimateTokens content)%nat
          then Some ("Large response (~" ++
                     JS.show (estimateTokens content) ++
                     " tokens). For future explorations of this size, consider delegating to a subagent to preserve context.")
          else None).
Proof.
  intros Hfound Hfull. unfold execute.
  destruct (ChunkService.expand st (chunk_id args) (include_children args))
    as [| c cs] eqn:E; [contradiction |].
  cbn [length Nat.eqb].
  destruct (preview_only args) as [[|] |];
    [contradiction Hfull; reflexivity | reflexivity | reflexivity].
Qed.

(** C7. A full expansion reports as its token estimate the ceiling of the
    formatted content's length over four, and carries a warning exactly when
    that estimate is above 4000. *)
Theorem full_expansion_estimate
        (toISOString : Z -> string) (stringify : Json -> string)
        (st : State) (args : Args) :
  ChunkService.expand st (chunk_id args) (include_children args) <> [] ->
  preview_only args <> Some true ->
  exists content tokens warning,
    execute toISOString stringify st args =
      Full (length (ChunkService.expand st (chunk_id args)
                                        (include_children args)))
           tokens content warning /\
    content =
      JS.join divider
              (map (formatChunkContent toISOString stringify)
                   (ChunkService.expand st (chunk_id args)
                                        (include_children args))) /\
    String.length content <= 4 * tokens /\
    4 * tokens < String.length content + 4 /\
    (warning <> None <-> LARGE_RESPONSE_TOKEN_THRESHOLD < tokens) /\
    LARGE_RESPONSE_TOKEN_THRESHOLD = 4000.
Proof.
  intros Hfound Hfull.
  pose proof (execute_full_shape toISOString stringify st args Hfound Hfull)
    as Hshape. cbv zeta in Hshape.
  eexists. eexists. eexists. split; [exact Hshape |].
  split; [reflexivity |].
  match goal with
  | |- String.length ?c <= _ /\ _ =>
      destruct (estimateTokens_ceil c) as [Hlo Hhi]
  end.
  split; [exact Hlo |]. split; [exact Hhi |]. split; [| reflexivity].
  match goal with
  | |- context [Nat.ltb ?a ?b] => destruct (Nat.ltb_spec a b)
  end.
  - split; [intros _; assumption | intros _; discriminate].
  - split; [intros H0; contradiction H0; reflexivity | lia].
Qed.

(** Lookup by id fails on an id no chunk carries. *)
Lemma getChunk_unknown (st : State) (chunkId : string) :
  ~ In chunkId (map id (chunks st)) -> ChunkService.getChunk st chunkId = None.
Proof.
  unfold ChunkService.getChunk. intros Hno.
  induction (chunks st) as [| c cs IH]; simpl; [reflexivity |].
  destruct (String.eqb_spec (id c) chunkId) as [E | E].
  - exfalso. apply Hno. left. exact E.
  - apply IH. intros H. apply Hno. right. exact H.
Qed.

(** Lookup by id finds a stored chunk when ids are unique. *)
Lemma getChunk_stored (st : State) (c : Chunk) :
  NoDup (map id (chunks st)) -> In c (chunks st) ->
  ChunkService.getChunk st (id c) = Some c.
Proof.
  unfold ChunkService.getChunk.
  induction (chunks st) as [| c0 cs IH]; simpl; [contradiction |].
  intros Hnd Hin. inversion Hnd as [| x l Hx Hl]; subst.
  destruct (String.eqb_spec (id c0) (id c)) as [E | E].
  - destruct Hin as [-> | Hin]; [reflexivity |].
    exfalso. apply Hx. rewrite E. apply in_map, Hin.
  - destruct Hin as [-> | Hin]; [contradiction E; reflexivity |].
    apply IH; assumption.
Qed.

(** A successful lookup returns a stored chunk with the id asked for. *)
Lemma getChunk_some (st : State) (chunkId : string) (c : Chunk) :
  ChunkService.getChunk st chunkId = Some c ->
  In c (chunks st) /\ id c = chunkId.
Proof.
  unfold ChunkService.getChunk. intros H. apply find_some in H.
  destruct H as [Hin He]. split; [exact Hin |].
  apply String.eqb_eq, He.
Qed.

(** The children [expand] resolves: one per reference, in order, when every
    reference names a stored chunk. *)
Lemma children_ids (st : State) (refs : list string) :
  (forall r, In r refs -> In r (map id (chunks st))) ->
  map id (flat_map (fun r => match ChunkService.getChunk st r with
                             | Some child => [child]
                             | None => []
                             end) refs) = refs.
Proof.
  induction refs as [| r refs IH]; intros Hall; simpl; [reflexivity |].
  destruct (ChunkService.getChunk st r) as [child |] eqn:E.
  - apply getChunk_some in E. destruct E as [_ E]. simpl.
    rewrite E, IH; [reflexivity |]. intros r' Hr'. apply Hall. right. exact Hr'.
  - exfalso. assert (Hin : In r (map id (chunks st))) by (apply Hall; left; reflexivity).
    apply in_map_iff in Hin. destruct Hin as [c [Hc Hin]].
    unfold ChunkService.getChunk in E.
    apply (find_none _ _ E) in Hin. simpl in Hin.
    rewrite Hc, String.eqb_refl in Hin. discriminate.
Qed.

(** C5. For an id no chunk carries, [expand] returns the empty list whatever
    [includeChildren] is, and the expand tool answers with [success: false]
    and an error that names the id. *)
Theorem expand_unknown_not_found
        (toISOString : Z -> string) (stringify : Json -> string)
        (st : State) (chunkId : string) :
  ~ In chunkId (map id (chunks st)) ->
  (forall includeChildren,
      ChunkService.expand st chunkId includeChildren = []) /\
  (forall includeChildren previewOnly,
      execute toISOString stringify st
              (mkArgs chunkId includeChildren previewOnly) =
        NotFound ("Chunk " ++ chunkId ++ " not found") /\
      success (execute toISOString stringify st
                       (mkArgs chunkId includeChildren previewOnly)) = false).
Proof.
  intros Hno.
  assert (Hexp : forall includeChildren,
             ChunkService.expand st chunkId includeChildren = []).
  { intros inc. unfold ChunkService.expand.
    rewrite (getChunk_unknown st chunkId Hno). reflexivity. }
  split; [exact Hexp |].
  intros inc prev. unfold execute. simpl. rewrite Hexp. simpl.
  split; reflexivity.
Qed.

(** The id [ch_nonexistent123] of the tests, against the compacted session. *)
Lemma expand_unknown_not_found_witness :
  ChunkService.expand Demo.compactedOnce "ch_nonexistent123" (Some true) = []
  /\ execute Demo.toISOString Demo.stringify Demo.compactedOnce
             (mkArgs "ch_nonexistent123" None None) =
       NotFound "Chunk ch_nonexistent123 not found".
Proof.
  destruct (expand_unknown_not_found Demo.toISOString Demo.stringify
              Demo.compactedOnce "ch_nonexistent123") as [He Hx].
  - vm_compute. intuition discriminate.
  - split; [apply He | apply (Hx None None)].
Defined.

(** C6. For a stored chunk with [k] child references, all of them stored,
    [expand] with children returns [k + 1] chunks, the chunk and then the
    chunks its references name, in that order and nothing else; without
    children, or with the flag omitted, it returns the chunk alone.  The
    tool's [chunk_count] is that length. *)
Theorem expand_children_count
        (toISOString : Z -> string) (stringify : Json -> string)
        (st : State) (c : Chunk) :
  NoDup (map id (chunks st)) ->
  In c (chunks st) ->
  (forall r, In r (childRefs c) -> In r (map id (chunks st))) ->
  length (ChunkService.expand st (id c) (Some true)) =
    length (childRefs c) + 1 /\
  (exists children,
      ChunkService.expand st (id c) (Some true) = c :: children /\
      map id children = childRefs c /\
      Forall (fun child => In child (chunks st)) children) /\
  ChunkService.expand st (id c) (Some false) = [c] /\
  ChunkService.expand st (id c) None = [c] /\
  (exists tokens content warning,
      execute toISOString stringify st (mkArgs (id c) (Some true) None) =
        Full (length (childRefs c) + 1) tokens content warning) /\
  (exists tokens content warning,
      execute toISOString stringify st (mkArgs (id c) None None) =
        Full 1 tokens content warning).
Proof.
  intros Hnd Hin Hrefs.
  pose proof (getChunk_stored st c Hnd Hin) as Hget.
  pose proof (children_ids st (childRefs c) Hrefs) as Hids.
  assert (Hexp : ChunkService.expand st (id c) (Some true) =
                 c :: flat_map (fun r => match ChunkService.getChunk st r with
                                         | Some child => [child]
                                         | None => []
                                         end) (childRefs c)).
  { unfold ChunkService.expand. rewrite Hget. reflexivity. }
  assert (Hlen : length (ChunkService.expand st (id c) (Some true)) =
                 length (childRefs c) + 1).
  { rewrite Hexp. simpl. rewrite <- Hids at 2. rewrite length_map. lia. }
  assert (Hone : forall inc, inc <> Some true ->
                             ChunkService.expand st (id c) inc = [c]).
  { intros inc Hinc. unfold ChunkService.expand. rewrite Hget.
    destruct inc as [[|] |]; [contradiction Hinc | |]; reflexivity. }
  split; [exact Hlen |]. split.
  { eexists. split; [exact Hexp |]. split; [exact Hids |].
    apply Forall_forall. intros child Hc. apply in_flat_map in Hc.
    destruct Hc as [r [_ Hc]].
    destruct (ChunkService.getChunk st r) as [x |] eqn:E; [| contradiction].
    destruct Hc as [<- | []]. apply getChunk_some in E. apply E. }
  split; [apply Hone; discriminate |].
  split; [apply Hone; discriminate |]. split.
  - pose proof (execute_full_shape toISOString stringify st
                  (mkArgs (id c) (Some true) None)) as Hs.
    cbv zeta in Hs. simpl chunk_id in Hs. simpl include_children in Hs.
    simpl preview_only in Hs. rewrite Hlen in Hs.
    eexists. eexists. eexists. apply Hs; [| discriminate].
    rewrite Hexp. discriminate.
  - pose proof (execute_full_shape toISOString stringify st
                  (mkArgs (id c) None None)) as Hs.
    cbv zeta in Hs. simpl chunk_id in Hs. simpl include_children in Hs.
    simpl preview_only in Hs. rewrite (Hone None) in Hs by discriminate.
    eexists. eexists. eexists. apply Hs; discriminate.
Qed.

(** The summary chunk of the compacted session has two children: three
    chunks with them, one without. *)
Lemma expand_children_count_witness :
  length (ChunkService.expand Demo.compactedOnce "ch_3" (Some true)) = 3 /\
  map id (ChunkService.expand Demo.compactedOnce "ch_3" (Some true)) =
    ["ch_3"; "ch_1"; "ch_2"] /\
  ChunkService.expand Demo.compactedOnce "ch_3" None = [Demo.summaryOfTwo].
Proof.
  destruct (expand_children_count Demo.toISOString Demo.stringify
              Demo.compactedOnce Demo.summaryOfTwo)
    as [Hlen [[children [Hexp [Hids _]]] [_ [Hnone _]]]].
  - vm_compute. repeat constructor; simpl; intuition discriminate.
  - vm_compute. right. right. left. reflexivity.
  - vm_compute. intuition.
  - split; [exact Hlen |]. split; [| exact Hnone].
    change "ch_3" with (id Demo.summaryOfTwo). rewrite Hexp. simpl.
    rewrite Hids. reflexivity.
Defined.

(** The summary chunk of the compacted session expands, with its two
    children, to three chunks. *)
Lemma full_expansion_estimate_witness :
  exists content tokens warning,
    execute Demo.toISOString Demo.stringify Demo.compactedOnce
            Demo.expandSummary = Full 3 tokens content warning /\
    String.length content <= 4 * tokens /\
    4 * tokens < String.length content + 4 /\
    (warning <> None <-> 4000 < tokens).
Proof.
  destruct (full_expansion_estimate Demo.toISOString Demo.stringify
              Demo.compactedOnce Demo.expandSummary)
    as [content [tokens [warning [H [_ [Hlo [Hhi [Hw _]]]]]]]].
  - vm_compute. discriminate.
  - discriminate.
  - exists content, tokens, warning. repeat split; try assumption; apply Hw.
Defined.

End ExpandFacts.

(* ================================================================== *)
(** ** Finalize                                                       *)
(* ================================================================== *)

Module FinalizeFacts.
Import Events.

Lemma alookup_adelete {V : Type} (k : string) (m : list (string * V)) :
  alookup k (adelete k m) = None.
Proof.
  unfold adelete. induction m as [| [k' v] m IH]; simpl; [reflexivity |].
  destruct (String.eqb_spec k k') as [E | E]; simpl; [exact IH |].
  destruct (String.eqb_spec k k'); [contradiction | exact IH].
Qed.

(** After [clearSession] the session has no draft message. *)
Lemma hasMessages_clearSession (tr : Tracker.t) (sessionID : string) :
  Tracker.hasMessages (Tracker.clearSession tr sessionID) sessionID = false.
Proof.
  unfold Tracker.hasMessages, Tracker.drafts, Tracker.clearSession.
  rewrite alookup_adelete. reflexivity.
Qed.

(** After [finalize] the session has no draft message. *)
Lemma hasMessages_finalize mf st sessionID newId now :
  Tracker.hasMessages
    (tracker (ChunkService.finalize mf st sessionID newId now))
    sessionID = false.
Proof.
  unfold ChunkService.finalize.
  destruct (Tracker.hasMessages (tracker st) sessionID) eqn:E; simpl;
    [apply hasMessages_clearSession | exact E].
Qed.

Lemma finalize_no_drafts mf st sessionID newId now :
  Tracker.hasMessages (tracker st) sessionID = false ->
  ChunkService.finalize mf st sessionID newId now = st.
Proof.
  intros H. unfold ChunkService.finalize. rewrite H. reflexivity.
Qed.

(** With a draft message, [finalize] appends exactly one chunk. *)
Lemma finalize_with_drafts mf st sessionID newId now :
  Tracker.hasMessages (tracker st) sessionID = true ->
  exists chunk,
    chunks (ChunkService.finalize mf st sessionID newId now) =
      (chunks st ++ [chunk])%list /\
    id chunk = newId /\ sessionId chunk = sessionID /\
    status chunk = active /\ depth chunk = 0 /\ childRefs chunk = [].
Proof.
  intros H. unfold ChunkService.finalize. rewrite H. simpl.
  eexists. split; [reflexivity |]. repeat split.
Qed.

(** C4. When the session has no draft message, [finalize] (and so the
    session.idle event) creates no chunk and returns the state it was
    given; and a second [finalize] right after a first, with nothing
    tracked in between, changes nothing, so it never yields a second
    chunk. *)
Theorem finalize_without_drafts_is_noop
        (mf : string -> option Json -> list string)
        (st : State) (sessionID : string) :
  (Tracker.drafts (tracker st) sessionID = [] ->
   forall env,
     ChunkService.finalize mf st sessionID (env_chunkId env) (env_now env)
       = st /\
     handleEvent mf st env (EvSessionIdle sessionID) = st) /\
  (forall env1 env2,
      let st1 := handleEvent mf st env1 (EvSessionIdle sessionID) in
      handleEvent mf st1 env2 (EvSessionIdle sessionID) = st1 /\
      length (chunks st1) <= length (chunks st) + 1).
Proof.
  split.
  - intros Hnone env.
    assert (H : Tracker.hasMessages (tracker st) sessionID = false)
      by (unfold Tracker.hasMessages; rewrite Hnone; reflexivity).
    split; [apply finalize_no_drafts, H |].
    unfold handleEvent, handleSessionIdle. simpl.
    apply finalize_no_drafts, H.
  - intros env1 env2. unfold handleEvent, handleSessionIdle. simpl. split.
    + apply finalize_no_drafts, hasMessages_finalize.
    + destruct (Tracker.hasMessages (tracker st) sessionID) eqn:E.
      * destruct (finalize_with_drafts mf st sessionID (env_chunkId env1)
                    (env_now env1) E) as [chunk [Hc _]].
        rewrite Hc, length_app. simpl. lia.
      * rewrite finalize_no_drafts by exact E. lia.
Qed.

(** A session without drafts is left alone by session.idle; a session
    with one tracked message gets one chunk from two idle events. *)
Lemma finalize_without_drafts_is_noop_witness :
  handleEvent Demo.modifiedFiles Demo.twoChunks Demo.env (EvSessionIdle "S")
    = Demo.twoChunks /\
  length (chunks (run Demo.modifiedFiles initial_state
                      [(Demo.env, EvMessageUpdated Demo.userMessage);
                       (Demo.env, EvMessagePartUpdated Demo.helloPart);
                       (Demo.env, EvSessionIdle "S");
                       (Demo.env, EvSessionIdle "S")])) = 1.
Proof.
  split.
  - destruct (finalize_without_drafts_is_noop Demo.modifiedFiles
                Demo.twoChunks "S") as [H _].
    apply H. reflexivity.
  - vm_compute. reflexivity.
Defined.

End FinalizeFacts.

(* ================================================================== *)
(** ** Compaction                                                     *)
(* ================================================================== *)

Module CompactFacts.
Import ChunkService Spec.

(** Chunks with unique ids are determined by their id. *)
Lemma same_id_same_chunk (cs : list Chunk) (a b : Chunk) :
  NoDup (map id cs) -> In a cs -> In b cs -> id a = id b -> a = b.
Proof.
  induction cs as [| c cs IH]; simpl; [contradiction |].
  intros Hnd Ha Hb E. inversion Hnd as [| x l Hx Hl]; subst.
  destruct Ha as [-> | Ha], Hb as [-> | Hb].
  - reflexivity.
  - exfalso. apply Hx. rewrite E. apply in_map, Hb.
  - exfalso. apply Hx. rewrite <- E. apply in_map, Ha.
  - apply IH; assumption.
Qed.

Lemma existsb_eqb_In (x : string) (l : list string) :
  existsb (String.eqb x) l = true <-> In x l.
Proof.
  rewrite existsb_exists. split.
  - intros [y [Hy E]]. apply String.eqb_eq in E. subst. exact Hy.
  - intros H. exists x. split; [exact H | apply String.eqb_refl].
Qed.

(** With unique ids, the flip by id hits exactly the active chunks of the
    session. *)
Lemma flipped_iff_active (st : State) (sessionID : string) (c : Chunk) :
  NoDup (map id (chunks st)) -> In c (chunks st) ->
  existsb (String.eqb (id c)) (map id (getActiveChunks st sessionID)) =
    is_active_in sessionID c.
Proof.
  intros Hnd Hin. apply eq_true_iff_eq. rewrite existsb_eqb_In. split.
  - intros H. apply in_map_iff in H. destruct H as [a [E Ha]].
    unfold getActiveChunks in Ha. apply filter_In in Ha.
    destruct Ha as [Ha Hact].
    rewrite <- (same_id_same_chunk (chunks st) a c Hnd Ha Hin E).
    exact Hact.
  - intros H. apply in_map. unfold getActiveChunks. apply filter_In.
    split; assumption.
Qed.

(** A fresh id is not among the ids of the active chunks. *)
Lemma fresh_not_flipped (st : State) (sessionID newId : string) :
  ~ In newId (map id (chunks st)) ->
  existsb (String.eqb newId) (map id (getActiveChunks st sessionID)) = false.
Proof.
  intros Hfresh. destruct (existsb _ _) eqn:E; [| reflexivity].
  exfalso. apply Hfresh. apply existsb_eqb_In in E.
  apply in_map_iff in E. destruct E as [a [E Ha]].
  unfold getActiveChunks in Ha. apply filter_In in Ha.
  rewrite <- E. apply in_map, Ha.
Qed.

Lemma flipActive_none_active (sessionID : string) (cs : list Chunk) :
  filter (is_active_in sessionID) (flipActive sessionID cs) = [].
Proof.
  unfold flipActive. induction cs as [| c cs IH]; simpl; [reflexivity |].
  destruct (is_active_in sessionID c) eqn:E.
  - unfold is_active_in at 1. simpl. rewrite andb_false_r. exact IH.
  - rewrite E. exact IH.
Qed.

Lemma list_max_bound (l : list nat) (x : nat) :
  In x l -> x <= list_max l.
Proof.
  intros H. pose proof (proj1 (list_max_le l (list_max l)) (le_n _)) as Hall.
  rewrite Forall_forall in Hall. apply Hall, H.
Qed.

Lemma list_max_attained (l : list nat) :
  l <> [] -> In (list_max l) l.
Proof.
  induction l as [| a l IH]; [contradiction |]. intros _. simpl.
  destruct l as [| b l'].
  - left. simpl. lia.
  - destruct (Nat.max_spec a (list_max (b :: l'))) as [[_ E] | [_ E]];
      rewrite E; [right; apply IH; discriminate | left; reflexivity].
Qed.

(** The effect of [compact] on a store with unique ids and a fresh id. *)
Lemma compact_many (st : State) (sessionID summaryText newId : string)
      (now : Z) :
  NoDup (map id (chunks st)) -> ~ In newId (map id (chunks st)) ->
  1 < length (getActiveChunks st sessionID) ->
  let activeChunks := getActiveChunks st sessionID in
  let s := mkChunk newId sessionID (mkContent [] empty_metadata)
                   (Some summaryText) active
                   (1 + list_max (map depth activeChunks))
                   (map id activeChunks) now in
  compact st sessionID summaryText newId now =
    (with_chunks st (flipActive sessionID (chunks st) ++ [s])%list,
     Some (mkCompactResult s (map (set_status compacted) activeChunks))).
Proof.
  intros Hnd Hfresh Hmany. cbv zeta. unfold compact.
  destruct (Nat.leb_spec (length (getActiveChunks st sessionID)) 1);
    [lia |].
  f_equal. f_equal. rewrite map_app. simpl.
  rewrite (fresh_not_flipped st sessionID newId Hfresh). f_equal.
  unfold flipActive. apply map_ext_in. intros c Hc.
  rewrite (flipped_iff_active st sessionID c Hnd Hc). reflexivity.
Qed.

(** C1. On a store with unique ids, given a fresh id: [compact] returns
    null and leaves the state alone when the session has at most one active
    chunk; otherwise it appends exactly one chunk, active, one deeper than
    the deepest of the prior active chunks, and flips each of those (and
    nothing else) to compacted.  The session.compacted event, likewise,
    stops after its flush when at most one chunk is active. *)
Theorem compact_noop_or_one_summary
        (st : State) (sessionID summaryText newId : string) (now : Z) :
  NoDup (map id (chunks st)) -> ~ In newId (map id (chunks st)) ->
  let activeChunks := getActiveChunks st sessionID in
  let result := compact st sessionID summaryText newId now in
  (length activeChunks <= 1 -> result = (st, None)) /\
  (1 < length activeChunks ->
   exists s,
     snd result =
       Some (mkCompactResult s (map (set_status compacted) activeChunks)) /\
     chunks (fst result) = (flipActive sessionID (chunks st) ++ [s])%list /\
     length (chunks (fst result)) = length (chunks st) + 1 /\
     id s = newId /\ sessionId s = sessionID /\ status s = active /\
     childRefs s = map id activeChunks /\
     depth s = 1 + list_max (map depth activeChunks) /\
     (forall c, In c activeChunks -> depth c < depth s) /\
     (exists c, In c activeChunks /\ depth s = 1 + depth c) /\
     (forall c, In c activeChunks ->
                In (set_status compacted c) (chunks (fst result))) /\
     getActiveChunks (fst result) sessionID = [s]) /\
  (forall mf env,
      let flushed :=
        finalize mf st sessionID (Events.env_chunkId env)
                 (Events.env_now env) in
      length (getActiveChunks flushed sessionID) <= 1 ->
      Events.handleEvent mf st env (Events.EvSessionCompacted sessionID) =
        flushed).
Proof.
  intros Hnd Hfresh. cbv zeta. split; [| split].
  3: { intros mf env Hfew.
       unfold Events.handleEvent, Events.handleSessionCompacted.
       cbn [Events.event_type negb existsb].
       cbn -[compact finalize getActiveChunks Nat.ltb
             Events.generateCompactionSummary
             Events.fetchCompactionSummary].
       match goal with
       | |- context [Nat.ltb ?a ?b] => destruct (Nat.ltb_spec a b)
       end; [lia | reflexivity]. }
  - intros Hfew. unfold compact.
    destruct (Nat.leb_spec (length (getActiveChunks st sessionID)) 1);
      [reflexivity | lia].
  - intros Hmany.
    pose proof (compact_many st sessionID summaryText newId now
                             Hnd Hfresh Hmany) as Hc.
    cbv zeta in Hc. rewrite Hc. simpl. eexists.
    split; [reflexivity |]. split; [reflexivity |].
    split; [unfold flipActive; rewrite length_app, length_map; reflexivity |].
    simpl. do 5 (split; [reflexivity |]).
    split; [| split; [| split]].
    + intros c Hin. apply Nat.lt_succ_r, list_max_bound, in_map, Hin.
    + assert (Hne : map depth (getActiveChunks st sessionID) <> []).
      { destruct (getActiveChunks st sessionID); simpl in *;
          [lia | discriminate]. }
      apply list_max_attained in Hne. apply in_map_iff in Hne.
      destruct Hne as [c [E Hin]]. exists c. split; [exact Hin |].
      rewrite E. reflexivity.
    + intros c Hin. apply in_or_app. left.
      unfold getActiveChunks in Hin. apply filter_In in Hin.
      destruct Hin as [Hin Hact]. unfold flipActive. apply in_map_iff.
      exists c. rewrite Hact. split; [reflexivity | exact Hin].
    + unfold getActiveChunks. simpl. rewrite filter_app.
      rewrite flipActive_none_active. simpl.
      unfold is_active_in. simpl. rewrite String.eqb_refl. reflexivity.
Qed.

(** The scenario of the specification: two depth-0 chunks in session S,
    compacted with the summary [Summary X]. *)
Lemma compact_noop_or_one_summary_witness :
  exists s,
    snd (compact Demo.twoChunks "S" "Summary X" "ch_3" 1700000003) =
      Some (mkCompactResult
              s (map (set_status compacted)
                     (getActiveChunks Demo.twoChunks "S"))) /\
    depth s = 1 /\ status s = active /\ childRefs s = ["ch_1"; "ch_2"] /\
    getActiveChunks Demo.compactedOnce "S" = [s] /\
    compact Demo.compactedOnce "S" "Again" "ch_4" 1700000004 =
      (Demo.compactedOnce, None).
Proof.
  destruct (compact_noop_or_one_summary Demo.twoChunks "S" "Summary X"
              "ch_3" 1700000003) as [_ [Hmany _]].
  - vm_compute. repeat constructor; simpl; intuition discriminate.
  - vm_compute. intuition discriminate.
  - destruct Hmany as [s [Hr [_ [_ [_ [_ [Hs [Hrefs [Hd [_ [_ [_ Ha]]]]]]]]]]]].
    + vm_compute. lia.
    + exists s. split; [exact Hr |]. split; [rewrite Hd; reflexivity |].
      split; [exact Hs |]. split; [rewrite Hrefs; reflexivity |].
      split; [exact Ha |].
      destruct (compact_noop_or_one_summary Demo.compactedOnce "S" "Again"
                  "ch_4" 1700000004) as [Hfew _].
      * vm_compute. repeat constructor; simpl; intuition discriminate.
      * vm_compute. intuition discriminate.
      * apply Hfew. unfold Demo.compactedOnce. rewrite Ha. simpl. lia.
Defined.

End CompactFacts.

(* ================================================================== *)
(** ** The summary text of a compaction                               *)
(* ================================================================== *)

Module SummaryFacts.
Import Events.

Lemma append_assoc (a b c : string) : (a ++ b) ++ c = a ++ (b ++ c).
Proof. induction a as [| x a IH]; simpl; [reflexivity | rewrite IH; reflexivity]. Qed.

Lemma append_empty_r (a : string) : a ++ "" = a.
Proof. induction a as [| x a IH]; simpl; [reflexivity | rewrite IH; reflexivity]. Qed.

Lemma filter_filter {A : Type} (f g : A -> bool) (l : list A) :
  filter f (filter g l) = filter (fun x => g x && f x) l.
Proof.
  induction l as [| x l IH]; simpl; [reflexivity |].
  destruct (g x); simpl; [destruct (f x) |]; rewrite IH; reflexivity.
Qed.

(** Adding a list to an insertion-ordered set appends its distinct
    elements that the set does not hold yet. *)
Lemma set_add_all_distinct (xs acc : list string) :
  JS.set_add_all xs acc =
    (acc ++ filter (fun y => negb (existsb (String.eqb y) acc))
                   (Spec.distinct xs))%list.
Proof.
  revert acc. induction xs as [| x xs IH]; intros acc; simpl.
  - rewrite app_nil_r. reflexivity.
  - unfold JS.set_add_all in *. simpl. rewrite IH. unfold JS.set_add.
    destruct (existsb (String.eqb x) acc) eqn:E; simpl.
    + f_equal. rewrite filter_filter. apply filter_ext_in. intros y _.
      destruct (String.eqb_spec y x) as [-> | _]; simpl;
        [rewrite E |]; reflexivity.
    + rewrite <- app_assoc. simpl. f_equal. f_equal.
      rewrite filter_filter. apply filter_ext_in. intros y _.
      rewrite existsb_app. simpl. rewrite orb_false_r.
      rewrite negb_orb. apply andb_comm.
Qed.

Lemma set_add_all_app (xs ys acc : list string) :
  JS.set_add_all (xs ++ ys) acc = JS.set_add_all ys (JS.set_add_all xs acc).
Proof. unfold JS.set_add_all. apply fold_left_app. Qed.

(** What the loop of [generateCompactionSummary] has gathered at its end. *)
Lemma gather_all (cs : list Chunk) (tools files : list string) (n : nat) :
  fold_left gatherChunk cs (tools, files, n) =
    (JS.set_add_all (Spec.toolNames cs) tools,
     JS.set_add_all (Spec.fileNames cs) files,
     n + Spec.totalMessages cs).
Proof.
  revert tools files n. induction cs as [| c cs IH]; intros tools files n.
  - simpl. rewrite Nat.add_0_r. reflexivity.
  - cbn [fold_left]. unfold gatherChunk at 2. rewrite IH.
    unfold Spec.toolNames, Spec.fileNames, Spec.totalMessages.
    cbn [flat_map map list_sum]. rewrite !set_add_all_app.
    f_equal; [f_equal |].
    + destruct (tools_used (metadata (content c))); reflexivity.
    + destruct (files_modified (metadata (content c))); reflexivity.
    + simpl. lia.
Qed.

Lemma set_add_all_nil (xs : list string) :
  JS.set_add_all xs [] = Spec.distinct xs.
Proof.
  rewrite set_add_all_distinct. cbn [app existsb negb].
  induction (Spec.distinct xs) as [| x l IH]; simpl;
    [reflexivity | rewrite IH; reflexivity].
Qed.

(** The text assembled from a header and the two sets. *)
Lemma assemble_parts (header : string) (tools files : list string) :
  JS.join "; "
    (let parts := [header] in
     let parts :=
       if (0 <? length tools)%nat
       then (parts ++ [("tools: " ++ JS.join ", " tools)%string])%list
       else parts in
     let parts :=
       if (0 <? length files)%nat
       then
         let fileList :=
           if (length files <=? 3)%nat
           then JS.join ", " files
           else JS.join ", " (firstn 3 files) ++ " +" ++
                JS.show (length files - 3) ++ " more" in
         (parts ++ [("files: " ++ fileList)%string])%list
       else parts in
     parts) =
  header ++ Spec.toolsSegment tools ++ Spec.filesSegment files.
Proof.
  cbv zeta.
  assert (Hfiles :
            forall f fs,
              (if (length (f :: fs) <=? 3)%nat
               then JS.join ", " (f :: fs)
               else JS.join ", " (firstn 3 (f :: fs)) ++ " +" ++
                    JS.show (length (f :: fs) - 3) ++ " more") =
              JS.join ", " (firstn 3 (f :: fs)) ++
              (if (3 <? length (f :: fs))%nat
               then " +" ++ JS.show (length (f :: fs) - 3) ++ " more"
               else "")).
  { intros f fs. destruct (Nat.leb_spec (length (f :: fs)) 3) as [Hle | Hgt].
    - destruct (Nat.ltb_spec 3 (length (f :: fs))); [lia |].
      rewrite firstn_all2 by exact Hle. rewrite append_empty_r. reflexivity.
    - destruct (Nat.ltb_spec 3 (length (f :: fs))); [reflexivity | lia]. }
  destruct tools as [| t ts]; destruct files as [| f fs].
  - cbn. rewrite append_empty_r. reflexivity.
  - rewrite Hfiles. unfold Spec.filesSegment, Spec.toolsSegment.
    generalize (JS.join ", " (firstn 3 (f :: fs)) ++
                (if (3 <? length (f :: fs))%nat
                 then " +" ++ JS.show (length (f :: fs) - 3) ++ " more"
                 else "")) as fileList.
    intros fileList. reflexivity.
  - unfold Spec.filesSegment, Spec.toolsSegment.
    generalize (JS.join ", " (t :: ts)) as toolList. intros toolList.
    cbn. rewrite append_empty_r. reflexivity.
  - rewrite Hfiles. unfold Spec.filesSegment, Spec.toolsSegment.
    generalize (JS.join ", " (firstn 3 (f :: fs)) ++
                (if (3 <? length (f :: fs))%nat
                 then " +" ++ JS.show (length (f :: fs) - 3) ++ " more"
                 else "")) as fileList.
    generalize (JS.join ", " (t :: ts)) as toolList.
    intros toolList fileList. reflexivity.
Qed.

(** The generated summary has the form the specification gives. *)
Lemma generated_summary_form (cs : list Chunk) :
  generateCompactionSummary cs =
    Spec.metadataSummary (Spec.totalMessages cs) (length cs)
                         (Spec.distinct (Spec.toolNames cs))
                         (Spec.distinct (Spec.fileNames cs)).
Proof.
  unfold generateCompactionSummary. rewrite gather_all.
  rewrite !set_add_all_nil. cbv beta iota.
  rewrite (assemble_parts
             (JS.show (0 + Spec.totalMessages cs) ++ " messages across " ++
              JS.show (length cs) ++ " chunks")).
  unfold Spec.metadataSummary. rewrite !append_assoc. reflexivity.
Qed.

Lemma distinct_In (x : string) (l : list string) :
  In x (Spec.distinct l) <-> In x l.
Proof.
  induction l as [| a l IH]; simpl; [tauto |].
  rewrite filter_In, IH. split.
  - intros [H | [H _]]; auto.
  - intros [H | H]; [left; exact H |].
    destruct (String.eqb_spec x a) as [-> | Hne]; [left; reflexivity |].
    right. split; [exact H | reflexivity].
Qed.

Lemma distinct_NoDup (l : list string) : NoDup (Spec.distinct l).
Proof.
  induction l as [| a l IH]; simpl; constructor.
  - rewrite filter_In. intros [_ H]. rewrite String.eqb_refl in H.
    discriminate.
  - apply NoDup_filter, IH.
Qed.

(** A narrative the host returns is never the empty string. *)
Lemma scanParts_truthy (parts : list OpenCodeMessagePart) (t : string) :
  scanParts parts = Some t -> JS.truthy t = true.
Proof.
  induction parts as [| p parts IH]; simpl; [discriminate |].
  destruct (oc_text p) as [s |]; [| exact IH].
  destruct ((oc_type p =? "text") && JS.truthy s) eqn:E; simpl;
    [| exact IH].
  destruct (looksLikeSummary s && negb (JS.startsWith s _)); [| exact IH].
  intros [= <-]. apply andb_true_iff in E. apply E.
Qed.

Lemma fetch_truthy (env : Env) (t : string) :
  fetchCompactionSummary env = Some t -> JS.truthy t = true.
Proof.
  unfold fetchCompactionSummary.
  destruct (env_hostMessages env) as [ms |]; [| discriminate].
  induction (rev ms) as [| m l IH]; simpl; [discriminate |].
  destruct (oc_parts m) as [parts |]; [| exact IH].
  destruct (scanParts parts) as [s |] eqn:E; [| exact IH].
  intros [= <-]. apply (scanParts_truthy parts), E.
Qed.

(** [openCodeSummary || generateCompactionSummary(activeChunks)]. *)
Lemma narrative_or_generated (env : Env) (generated : string) :
  JS.or_else (fetchCompactionSummary env) generated =
    match fetchCompactionSummary env with
    | Some narrative => narrative
    | None => generated
    end.
Proof.
  destruct (fetchCompactionSummary env) as [t |] eqn:E; [| reflexivity].
  simpl. rewrite (fetch_truthy env t E). reflexivity.
Qed.

(** The chunk [compact] creates carries the summary text it was given. *)
Lemma compact_summary_text (st : State) (sessionID text newId : string)
      (now : Z) (r : ChunkService.CompactResult) :
  snd (ChunkService.compact st sessionID text newId now) = Some r ->
  summary (ChunkService.summaryChunk r) = Some text /\
  exists older s,
    chunks (fst (ChunkService.compact st sessionID text newId now)) =
      (older ++ [s])%list /\
    id s = newId /\ summary s = Some text.
Proof.
  unfold ChunkService.compact.
  destruct (length (ChunkService.getActiveChunks st sessionID) <=? 1)%nat;
    simpl; [discriminate |].
  intros [= <-]. split; [reflexivity |].
  rewrite map_app. cbn [map]. eexists. eexists. split; [reflexivity |].
  destruct (existsb _ _); split; reflexivity.
Qed.

(** C3. When a session.compacted event finds more than one active chunk,
    the chunk the compaction appends carries as summary the narrative
    extracted from the host when there is one, and otherwise the generated
    text: the message and chunk counts, then [tools:] with the distinct
    tool names when there are any, then [files:] with at most three
    distinct paths and [+K more] for the K others.  A summary handed to
    [compact] by its caller is stored as it is. *)
Theorem compaction_summary_text
        (mf : string -> option Json -> list string)
        (st : State) (env : Env) (sessionID : string) :
  let st1 :=
    ChunkService.finalize mf st sessionID (env_chunkId env) (env_now env) in
  let activeChunks := ChunkService.getActiveChunks st1 sessionID in
  1 < length activeChunks ->
  (exists older s,
      chunks (handleEvent mf st env (EvSessionCompacted sessionID)) =
        (older ++ [s])%list /\
      id s = env_summaryId env /\
      summary s =
        Some match fetchCompactionSummary env with
             | Some narrative => narrative
             | None =>
                 Spec.metadataSummary
                   (Spec.totalMessages activeChunks) (length activeChunks)
                   (Spec.distinct (Spec.toolNames activeChunks))
                   (Spec.distinct (Spec.fileNames activeChunks))
             end) /\
  (forall text newId now r,
      snd (ChunkService.compact st1 sessionID text newId now) = Some r ->
      summary (ChunkService.summaryChunk r) = Some text) /\
  (forall cs,
      generateCompactionSummary cs =
        Spec.metadataSummary (Spec.totalMessages cs) (length cs)
                             (Spec.distinct (Spec.toolNames cs))
                             (Spec.distinct (Spec.fileNames cs)) /\
      NoDup (Spec.distinct (Spec.fileNames cs)) /\
      length (firstn 3 (Spec.distinct (Spec.fileNames cs))) <= 3).
Proof.
  cbv zeta. intros Hmany. split; [| split].
  - unfold handleEvent, handleSessionCompacted. cbn [event_type negb existsb].
    cbn -[ChunkService.compact ChunkService.finalize
          ChunkService.getActiveChunks generateCompactionSummary
          fetchCompactionSummary Nat.ltb].
    destruct (Nat.ltb_spec 1
                (length (ChunkService.getActiveChunks
                           (ChunkService.finalize mf st sessionID
                              (env_chunkId env) (env_now env))
                           sessionID))) as [_ | Hle]; [| lia].
    rewrite narrative_or_generated, generated_summary_form.
    match goal with
    | |- context [ChunkService.compact ?a ?b ?c ?d ?e] =>
        destruct (snd (ChunkService.compact a b c d e)) as [r |] eqn:Er
    end.
    + apply compact_summary_text in Er. destruct Er as [_ [older [s H]]].
      exists older, s. exact H.
    + exfalso. unfold ChunkService.compact in Er.
      match type of Er with
      | context [Nat.leb ?a ?b] => destruct (Nat.leb_spec a b); [lia |]
      end.
      discriminate.
  - intros text newId now r Hr.
    apply (compact_summary_text _ _ _ _ _ _ Hr).
  - intros cs. split; [apply generated_summary_form |].
    split; [apply distinct_NoDup | apply firstn_le_length].
Qed.

(** The session of two chunks: without a narrative from the host the
    summary is generated, with one it is the narrative. *)
Lemma compaction_summary_text_witness :
  (exists older s,
      chunks (handleEvent Demo.modifiedFiles Demo.twoChunks Demo.env
                          (EvSessionCompacted "S")) = (older ++ [s])%list /\
      summary s =
        Some "2 messages across 2 chunks; tools: read, write; files: src/index.ts") /\
  (exists older s,
      chunks (handleEvent Demo.modifiedFiles Demo.twoChunks
                          Demo.envWithNarrative
                          (EvSessionCompacted "S")) = (older ++ [s])%list /\
      summary s = Some Demo.hostNarrative).
Proof.
  split.
  - destruct (compaction_summary_text Demo.modifiedFiles Demo.twoChunks
                Demo.env "S") as [[older [s [Hc [_ Hs]]]] _].
    + vm_compute. lia.
    + exists older, s. split; [exact Hc |]. rewrite Hs. vm_compute.
      reflexivity.
  - destruct (compaction_summary_text Demo.modifiedFiles Demo.twoChunks
                Demo.envWithNarrative "S") as [[older [s [Hc [_ Hs]]]] _].
    + vm_compute. lia.
    + exists older, s. split; [exact Hc |]. rewrite Hs. vm_compute.
      reflexivity.
Defined.

(** Five distinct files: three are named, two are counted. *)
Example generated_summary_more_files :
  generateCompactionSummary (Demo.manyFiles :: chunks Demo.twoChunks) =
    "3 messages across 3 chunks; tools: edit, read, write; files: a.ts, b.ts, src/index.ts +2 more".
Proof. vm_compute. reflexivity. Qed.

(** No tools and no files: the counts alone. *)
Example generated_summary_counts_only :
  generateCompactionSummary
    [mkChunk "ch_7" "S" (mkContent [] empty_metadata) None active 0 [] 0] =
    "0 messages across 1 chunks".
Proof. vm_compute. reflexivity. Qed.

End SummaryFacts.

(* ================================================================== *)
(** ** The history tool                                               *)
(* ================================================================== *)

Module HistoryFacts.
Import HistoryTool.

(** The response to a query that is not blank and has results. *)
Lemma execute_search_shape
      (chunkService : ChunkQueries) (toISOString : Z -> string)
      (stringify : list SearchEntry -> string)
      (args : Args) (context : ToolContext) (q : string) :
  query args = Some q -> JS.trim q <> "" ->
  let results :=
    search chunkService (JS.trim q)
           (mkSearchOptions (fst (resolveScope args context))
                            (depth_arg args) (limitOf args)) in
  results <> [] ->
  exists tokens entries,
    execute chunkService toISOString stringify args context =
      Search (length results) (snd (resolveScope args context)) (JS.trim q)
             tokens (fold_left expandedCost results 0) entries expandHint
             (if (LARGE_RESULT_TOKEN_THRESHOLD <?
                  fold_left expandedCost results 0)%nat
                 && (3 <? length results)%nat
              then Some ("Expanding all " ++ JS.show (length results) ++
                         " results would use ~" ++
                         JS.show (fold_left expandedCost results 0) ++
                         " tokens. Consider using memoir_expand with preview_only=true first, or delegate detailed analysis to a subagent.")
              else None).
Proof.
  intros Hq Hnb. cbv zeta. intros Hres. unfold execute.
  destruct (resolveScope args context) as [sid scope]. rewrite Hq.
  cbn [JS.truthy_opt fst snd].
  apply JSFacts.truthy_true_iff in Hnb. rewrite Hnb. cbn [negb JS.or_else].
  rewrite Hnb.
  destruct (search chunkService (JS.trim q)
                   (mkSearchOptions sid (depth_arg args) (limitOf args)))
    as [| r rs] eqn:E; [contradiction |].
  cbn [length Nat.eqb]. eexists. eexists. reflexivity.
Qed.

(** Every result costs at least 500 estimated tokens. *)
Lemma expandedCost_lower (rs : list SearchResult) (n : nat) :
  n + 500 * length rs <= fold_left expandedCost rs n.
Proof.
  revert n. induction rs as [| r rs IH]; intros n; simpl; [lia |].
  eapply Nat.le_trans; [| apply IH]. unfold expandedCost, CHARS_PER_TOKEN.
  match goal with
  | |- context [JS.ceil_div ?m 4] =>
      destruct (JSFacts.ceil_div_bounds m 4 ltac:(lia)) as [Hlo _];
      pose proof (Nat.le_max_r (String.length
                                  (JS.or_else (summary (chunk r)) "") * 20)
                               2000)
  end.
  lia.
Qed.

(** C8, as the code has it. For a query with results, the history tool
    attaches the warning exactly when the estimated cost of expanding all
    results is above 2000 tokens and there are more than three results. *)
Theorem history_warning_rule
        (chunkService : ChunkQueries) (toISOString : Z -> string)
        (stringify : list SearchEntry -> string)
        (args : Args) (context : ToolContext) (q : string) :
  query args = Some q -> JS.trim q <> "" ->
  let results :=
    search chunkService (JS.trim q)
           (mkSearchOptions (fst (resolveScope args context))
                            (depth_arg args) (limitOf args)) in
  results <> [] ->
  exists tokens entries warning,
    execute chunkService toISOString stringify args context =
      Search (length results) (snd (resolveScope args context)) (JS.trim q)
             tokens (fold_left expandedCost results 0) entries expandHint
             warning /\
    (warning <> None <->
     LARGE_RESULT_TOKEN_THRESHOLD < fold_left expandedCost results 0 /\
     3 < length results) /\
    LARGE_RESULT_TOKEN_THRESHOLD = 2000 /\
    500 * length results <= fold_left expandedCost results 0.
Proof.
  intros Hq Hnb. cbv zeta. intros Hres.
  destruct (execute_search_shape chunkService toISOString stringify args
              context q Hq Hnb Hres) as [tokens [entries Hshape]].
  cbv zeta in Hshape.
  eexists. eexists. eexists. split; [exact Hshape |].
  split; [| split; [reflexivity | apply (expandedCost_lower _ 0)]].
  match goal with
  | |- context [Nat.ltb ?a ?b && Nat.ltb ?c ?d] =>
      destruct (Nat.ltb_spec a b); destruct (Nat.ltb_spec c d); simpl
  end;
    (split; [intros H1; try (contradiction H1; reflexivity); lia
            | intros [H1 H2]; try lia; discriminate]).
Qed.

(** Five results of 500 estimated tokens each: the warning is there. *)
Lemma history_warning_rule_witness :
  warning_of (execute (Demo.serviceOver Demo.fiveTasks) Demo.toISOString
                      Demo.stringifyEntries Demo.searchTask Demo.inSession1)
    <> None.
Proof.
  destruct (history_warning_rule (Demo.serviceOver Demo.fiveTasks)
              Demo.toISOString Demo.stringifyEntries Demo.searchTask
              Demo.inSession1 "Task")
    as [tokens [entries [warning [Hx [Hw _]]]]].
  - reflexivity.
  - vm_compute. discriminate.
  - vm_compute. discriminate.
  - rewrite Hx. simpl warning_of. apply Hw. split.
    + apply Nat.ltb_lt. vm_compute. reflexivity.
    + apply Nat.ltb_lt. vm_compute. reflexivity.
Defined.

(** One result with a summary of 500 characters: an estimated 2500 tokens
    to expand it, above the threshold, and no warning. *)
Lemma history_warning_not_on_cost_alone : ~ Spec.warnsWheneverCostly.
Proof.
  intros H.
  assert (Hx : exists tokens entries hint,
             execute Demo.oneLongResult Demo.toISOString
                     Demo.stringifyEntries Demo.searchTask Demo.inSessionS =
               Search 1 "current session" "Task" tokens 2500 entries hint
                      None).
  { eexists. eexists. eexists. vm_compute. reflexivity. }
  destruct Hx as [tokens [entries [hint Hx]]].
  apply (H _ _ _ _ _ _ _ _ _ _ _ _ _ Hx); [| reflexivity].
  apply Nat.ltb_lt. vm_compute. reflexivity.
Qed.

(** C10. When [session_ids] holds two or more ids, the tool searches the
    first one only, while the scope it reports lists every id given.  With a
    query that is not blank, what it lists is what [search] returns for the
    trimmed query in the first session: as many entries, with the ids, the
    session ids and the ranks of the results, in their order.  Without a
    query, or with a blank one, it lists what [getRecentChunks] returns for
    the first session.  So its answer is the same for any two chunk services
    that agree on that session, whatever they hold for the others. *)
Theorem only_first_session_id_is_searched
        (toISOString : Z -> string) (stringify : list SearchEntry -> string)
        (args : Args) (context : ToolContext)
        (first second : string) (rest : list string) :
  session_ids args = Some (first :: second :: rest) ->
  resolveScope args context =
    (Some first, "sessions: " ++ JS.join ", " (first :: second :: rest)) /\
  (forall chunkService,
      scope_of (execute chunkService toISOString stringify args context) =
        "sessions: " ++ first ++ ", " ++ second ++
        match rest with
        | [] => ""
        | _ :: _ => ", " ++ JS.join ", " rest
        end) /\
  (forall service1 service2,
      (forall q o, so_sessionId o = Some first ->
                   search service1 q o = search service2 q o) ->
      (forall o, ro_sessionId o = Some first ->
                 getRecentChunks service1 o = getRecentChunks service2 o) ->
      execute service1 toISOString stringify args context =
        execute service2 toISOString stringify args context) /\
  (forall chunkService q,
      query args = Some q -> JS.trim q <> "" ->
      let results :=
        search chunkService (JS.trim q)
               (mkSearchOptions (Some first) (depth_arg args)
                                (limitOf args)) in
      let answer :=
        execute chunkService toISOString stringify args context in
      Props.countOf answer = length results /\
      Props.listedIds answer = map (fun r => id (chunk r)) results /\
      (results <> [] ->
       exists tokens expanded entries hint warning,
         answer = Search (length results)
                         ("sessions: " ++
                          JS.join ", " (first :: second :: rest))
                         (JS.trim q) tokens expanded entries hint warning /\
         map se_sessionId entries =
           map (fun r => sessionId (chunk r)) results /\
         map se_rank entries = map rank results)) /\
  (forall chunkService,
      query args = None \/
      (exists q, query args = Some q /\ JS.trim q = "") ->
      let recent :=
        getRecentChunks chunkService
                        (mkRecentOptions (Some first) (limitOf args)) in
      let answer :=
        execute chunkService toISOString stringify args context in
      Props.countOf answer = length recent /\
      Props.listedIds answer = map id recent).
Proof.
  intros Hids.
  assert (Hscope : resolveScope args context =
                   (Some first,
                    "sessions: " ++ JS.join ", " (first :: second :: rest))).
  { unfold resolveScope. rewrite Hids. reflexivity. }
  split; [exact Hscope |]. split; [| split; [| split]].
  - intros chunkService. unfold execute. rewrite Hscope.
    assert (Hj : "sessions: " ++ JS.join ", " (first :: second :: rest) =
                 "sessions: " ++ first ++ ", " ++ second ++
                 match rest with
                 | [] => ""
                 | _ :: _ => ", " ++ JS.join ", " rest
                 end).
    { destruct rest; cbn; [rewrite SummaryFacts.append_empty_r |];
        reflexivity. }
    rewrite <- Hj.
    repeat match goal with
           | |- context [if ?b then _ else _] => destruct b
           end; reflexivity.
  - intros service1 service2 Hsearch Hrecent. unfold execute.
    rewrite Hscope.
    rewrite (Hrecent (mkRecentOptions (Some first) _)) by reflexivity.
    rewrite (Hsearch _ (mkSearchOptions (Some first) _ _)) by reflexivity.
    reflexivity.
  - intros chunkService q Hq Hnb. cbv zeta. unfold execute.
    rewrite Hscope, Hq. cbn [JS.truthy_opt].
    apply JSFacts.truthy_true_iff in Hnb. rewrite Hnb.
    cbn [negb JS.or_else]. rewrite Hnb.
    destruct (search chunkService (JS.trim q)
                     (mkSearchOptions (Some first) (depth_arg args)
                                      (limitOf args)))
      as [| r rs] eqn:E.
    + cbn [length Nat.eqb]. repeat split.
      intros Hne. contradiction Hne. reflexivity.
    + cbn [length Nat.eqb].
      cbn [Props.countOf Props.listedIds]. rewrite map_map.
      split; [reflexivity |]. split; [reflexivity |].
      intros _. eexists. eexists. eexists. eexists. eexists.
      split; [reflexivity |]. rewrite !map_map. split; reflexivity.
  - intros chunkService Hblank. cbv zeta. unfold execute. rewrite Hscope.
    assert (Hnone : negb (JS.truthy_opt
                            match query args with
                            | Some q => Some (JS.trim q)
                            | None => None
                            end) = true).
    { destruct Hblank as [-> | [q [-> Hq]]]; [reflexivity |].
      cbn [JS.truthy_opt]. rewrite Hq. reflexivity. }
    rewrite Hnone.
    destruct (getRecentChunks chunkService
                (mkRecentOptions (Some first) (limitOf args)))
      as [| c cs] eqn:E.
    + cbn [length Nat.eqb]. split; reflexivity.
    + cbn [length Nat.eqb].
      cbn [Props.countOf Props.listedIds]. rewrite map_map, length_map.
      split; reflexivity.
Qed.

(** Sessions a and b each hold a chunk that matches; asked for both, the
    tool returns the chunk of session a alone, the one the service finds
    there, and reports both as scope. *)
Lemma only_first_session_id_is_searched_witness :
  exists tokens expanded entries hint warning,
    execute (Demo.serviceOver Demo.twoSessions) Demo.toISOString
            Demo.stringifyEntries Demo.searchBoth Demo.inSessionS =
      Search 1 "sessions: session-a, session-b" "Work" tokens expanded
             entries hint warning /\
    map se_sessionId entries = ["session-a"] /\
    Props.listedIds
      (execute (Demo.serviceOver Demo.twoSessions) Demo.toISOString
               Demo.stringifyEntries Demo.searchBoth Demo.inSessionS) =
      ["ch_a"] /\
    execute (Demo.serviceOver Demo.twoSessions) Demo.toISOString
            Demo.stringifyEntries Demo.searchBoth Demo.inSessionS =
    execute (Demo.serviceOver [Demo.taskChunk "ch_a" "session-a"
                                 "Work in session A"])
            Demo.toISOString Demo.stringifyEntries Demo.searchBoth
            Demo.inSessionS.
Proof.
  destruct (only_first_session_id_is_searched Demo.toISOString
              Demo.stringifyEntries Demo.searchBoth Demo.inSessionS
              "session-a" "session-b" [] eq_refl)
    as [_ [_ [Hsame [Hsearch _]]]].
  eexists. eexists. eexists. eexists. eexists.
  split; [vm_compute; reflexivity |]. split; [reflexivity |]. split.
  - destruct (Hsearch (Demo.serviceOver Demo.twoSessions) "Work" eq_refl)
      as [_ [Hids' _]]; [vm_compute; discriminate |].
    rewrite Hids'. reflexivity.
  - apply Hsame.
    + intros q o Ho. simpl. rewrite Ho. reflexivity.
    + intros o Ho. simpl. rewrite Ho. reflexivity.
Defined.

End HistoryFacts.

(* ================================================================== *)
(** ** The store invariants along an event feed                       *)
(* ================================================================== *)

Module StoreInvariant.
Import Events ChunkService Spec.

Lemma NoDup_snoc (l : list string) (x : string) :
  NoDup l -> ~ In x l -> NoDup (l ++ [x]).
Proof.
  induction l as [| a l IH]; simpl; intros Hnd Hx.
  - constructor; [intros [] | constructor].
  - inversion Hnd as [| y l' Ha Hl]; subst. constructor.
    + rewrite in_app_iff. simpl. intros [H | [H | []]]; [contradiction |].
      apply Hx. left. symmetry. exact H.
    + apply IH; [exact Hl | intros H; apply Hx; right; exact H].
Qed.

Lemma flipActive_ids (sessionID : string) (cs : list Chunk) :
  map id (flipActive sessionID cs) = map id cs.
Proof.
  unfold flipActive. rewrite map_map. apply map_ext. intros c.
  destruct (is_active_in sessionID c); reflexivity.
Qed.

Lemma flipActive_In (sessionID : string) (cs : list Chunk) (c : Chunk) :
  In c (flipActive sessionID cs) ->
  exists c0, In c0 cs /\ id c = id c0 /\ sessionId c = sessionId c0 /\
             childRefs c = childRefs c0.
Proof.
  unfold flipActive. intros H. apply in_map_iff in H.
  destruct H as [c0 [<- Hin]]. exists c0. split; [exact Hin |].
  destruct (is_active_in sessionID c0); repeat split.
Qed.

Lemma In_flipActive (sessionID : string) (cs : list Chunk) (c0 : Chunk) :
  In c0 cs ->
  exists c, In c (flipActive sessionID cs) /\ id c = id c0 /\
            sessionId c = sessionId c0.
Proof.
  intros Hin. eexists. split; [unfold flipActive; apply in_map, Hin |].
  cbv beta. destruct (is_active_in sessionID c0); split; reflexivity.
Qed.

Lemma finalize_storeOk mf st sessionID newId now :
  storeOk st -> ~ In newId (map id (chunks st)) ->
  storeOk (finalize mf st sessionID newId now).
Proof.
  intros [Hnd Hrefs] Hfresh. unfold finalize.
  destruct (Tracker.hasMessages (tracker st) sessionID); simpl;
    [| split; assumption].
  split; simpl.
  - rewrite map_app. simpl. apply NoDup_snoc; assumption.
  - intros c r Hc Hr. apply in_app_or in Hc.
    destruct Hc as [Hc | [<- | []]]; [| contradiction].
    destruct (Hrefs c r Hc Hr) as [child [Hin H]].
    exists child. split; [apply in_or_app; left; exact Hin | exact H].
Qed.

Lemma finalize_ids mf st sessionID newId now (x : string) :
  In x (map id (chunks (finalize mf st sessionID newId now))) ->
  In x (map id (chunks st)) \/ x = newId.
Proof.
  unfold finalize.
  destruct (Tracker.hasMessages (tracker st) sessionID); simpl;
    [| intros H; left; exact H].
  rewrite map_app, in_app_iff. simpl. intros [H | [H | []]]; auto.
Qed.

Lemma compact_storeOk st sessionID summaryText newId now :
  storeOk st -> ~ In newId (map id (chunks st)) ->
  storeOk (fst (compact st sessionID summaryText newId now)).
Proof.
  intros [Hnd Hrefs] Hfresh.
  destruct (Nat.leb_spec (length (getActiveChunks st sessionID)) 1)
    as [Hfew | Hmany].
  - unfold compact.
    destruct (Nat.leb_spec (length (getActiveChunks st sessionID)) 1);
      [split; assumption | lia].
  - pose proof (CompactFacts.compact_many st sessionID summaryText newId now
                  Hnd Hfresh Hmany) as Hc.
    cbv zeta in Hc. rewrite Hc. unfold storeOk, with_chunks.
    change (chunks (fst (?a, ?b))) with (chunks a). cbv beta iota delta [chunks].
    split.
    + rewrite map_app, flipActive_ids. simpl. apply NoDup_snoc; assumption.
    + intros c r Hc' Hr. apply in_app_or in Hc'.
      destruct Hc' as [Hc' | [<- | []]].
      * apply flipActive_In in Hc'.
        destruct Hc' as [c0 [Hc0 [_ [Es Er]]]]. rewrite Er in Hr.
        destruct (Hrefs c0 r Hc0 Hr) as [child [Hin [Ei Ec]]].
        destruct (In_flipActive sessionID (chunks st) child Hin)
          as [child' [Hin' [Ei' Ec']]].
        exists child'. split; [apply in_or_app; left; exact Hin' |].
        split; congruence.
      * simpl in Hr. apply in_map_iff in Hr. destruct Hr as [a [Ea Ha]].
        unfold getActiveChunks in Ha. apply filter_In in Ha.
        destruct Ha as [Ha Hact].
        destruct (In_flipActive sessionID (chunks st) a Ha)
          as [a' [Hin' [Ei' Ec']]].
        exists a'. split; [apply in_or_app; left; exact Hin' |].
        split; [congruence |]. simpl. rewrite Ec'.
        unfold is_active_in in Hact. apply andb_true_iff in Hact.
        apply String.eqb_eq, Hact.
Qed.

Lemma NoDup_map_filter (f : Chunk -> bool) (cs : list Chunk) :
  NoDup (map id cs) -> NoDup (map id (filter f cs)).
Proof.
  induction cs as [| c cs IH]; simpl; [intros H; exact H |].
  intros H. inversion H as [| x l Hx Hl]; subst.
  destruct (f c); simpl; [constructor |]; try apply IH; try assumption.
  intros Hin. apply Hx. apply in_map_iff in Hin.
  destruct Hin as [c' [E Hc']]. apply filter_In in Hc'.
  rewrite <- E. apply in_map, Hc'.
Qed.

Lemma deleteSession_storeOk st sessionID :
  storeOk st -> storeOk (deleteSession st sessionID).
Proof.
  intros [Hnd Hrefs]. unfold deleteSession. split; simpl.
  - apply NoDup_map_filter, Hnd.
  - intros c r Hc Hr. apply filter_In in Hc. destruct Hc as [Hc Hkeep].
    destruct (Hrefs c r Hc Hr) as [child [Hin [Ei Es]]].
    exists child. split; [| split; assumption].
    apply filter_In. split; [exact Hin |]. rewrite Es. exact Hkeep.
Qed.

Lemma handleEvent_storeOk mf st env event :
  storeOk st -> freshEnv env st -> storeOk (handleEvent mf st env event).
Proof.
  intros Hok [Hf1 [Hf2 Hne]]. unfold handleEvent.
  destruct (negb _); [exact Hok |].
  destruct event as [sid | sid | sid | info | part | ty]; try exact Hok.
  - apply finalize_storeOk; assumption.
  - unfold handleSessionCompacted.
    destruct (1 <? _)%nat; [| apply finalize_storeOk; assumption].
    apply compact_storeOk; [apply finalize_storeOk; assumption |].
    intros H. apply finalize_ids in H. destruct H as [H | H];
      [contradiction | apply Hne; symmetry; exact H].
  - unfold handleSessionDeleted. destruct Hok as [Hnd Hrefs].
    apply (deleteSession_storeOk st sid (conj Hnd Hrefs)).
  - unfold handleMessageUpdated. destruct (_ && _); exact Hok.
  - unfold handleMessagePartUpdated.
    destruct (convertPart part); [| exact Hok].
    destruct (Tracker.addPart _ _ _ _ _); exact Hok.
Qed.

(** Every state the hook reaches from the empty state, drawing fresh ids,
    has unique ids and child references that resolve within their
    session. *)
Lemma run_storeOk mf feed st :
  storeOk st -> freshFeed mf st feed -> storeOk (run mf st feed).
Proof.
  revert st. unfold run.
  induction feed as [| [env event] feed IH]; intros st Hok Hfresh; simpl;
    [exact Hok |].
  destruct Hfresh as [Hf Hrest].
  apply IH; [apply handleEvent_storeOk; assumption | exact Hrest].
Qed.

Lemma initial_storeOk : storeOk initial_state.
Proof. split; [constructor | intros c r []]. Qed.

End StoreInvariant.

(* ================================================================== *)
(** ** The embedding on the inputs of the test suites                 *)
(* ================================================================== *)

Module Tests.

Example trim_both_ends : JS.trim ("  a b " ++ nl) = "a b".
Proof. vm_compute. reflexivity. Qed.

Example trim_blank : JS.trim (" " ++ nl ++ "  ") = "".
Proof. vm_compute. reflexivity. Qed.

Example show_numbers : (JS.show 0, JS.show 7, JS.show 2500) = ("0", "7", "2500").
Proof. vm_compute. reflexivity. Qed.

Example includes_marker :
  (JS.includes "## What We Did: see ch_12" "What We Did",
   JS.includes "## What We Did: see ch_12" "ch_",
   JS.includes "nothing here" "ch_") = (true, true, false).
Proof. vm_compute. reflexivity. Qed.

Example estimateTokens_rounds_up :
  (ExpandTool.estimateTokens "", ExpandTool.estimateTokens "abcd",
   ExpandTool.estimateTokens "abcde") = (0, 1, 2).
Proof. vm_compute. reflexivity. Qed.

(** The newest matching text wins, and the plugin's own injected context
    is passed over. *)
Example fetch_skips_own_injection :
  Events.fetchCompactionSummary
    (Events.mkEnv 0 "a" "b"
       (Some [Events.mkOcMessage "m1" "assistant"
                (Some [Events.mkOcPart "text"
                         (Some "Complete Summary of All Work: older")]);
              Events.mkOcMessage "m2" "assistant"
                (Some [Events.mkOcPart "tool" None;
                       Events.mkOcPart "text"
                         (Some "## Project Memory (Memoir) Session Continuation Prompt")]);
              Events.mkOcMessage "m3" "user" None])) =
    Some "Complete Summary of All Work: older".
Proof. vm_compute. reflexivity. Qed.

(** message.updated with the role system is ignored; repeated events for
    one message keep one draft. *)
Example invalid_role_ignored :
  Events.handleEvent Demo.modifiedFiles initial_state Demo.env
    (Events.EvMessageUpdated (Events.mkEventMessage "msg-s" "S" "system"))
    = initial_state.
Proof. reflexivity. Qed.

Example duplicate_message_updated :
  length (Tracker.getMessages
            (tracker (Events.run Demo.modifiedFiles initial_state
                        [(Demo.env, Events.EvMessageUpdated Demo.userMessage);
                         (Demo.env, Events.EvMessageUpdated Demo.userMessage);
                         (Demo.env, Events.EvMessageUpdated Demo.userMessage)]))
            "S" 0) = 1.
Proof. vm_compute. reflexivity. Qed.

(** An unknown event type leaves the state alone. *)
Example unknown_event_ignored :
  Events.handleEvent Demo.modifiedFiles Demo.twoChunks Demo.env
                     (Events.EvOther "session.new_feature") = Demo.twoChunks.
Proof. reflexivity. Qed.

(** session.deleted removes the chunks of the session. *)
Example deleted_session_is_empty :
  ChunkService.getActiveChunks
    (Events.handleEvent Demo.modifiedFiles Demo.compactedOnce Demo.env
                        (Events.EvSessionDeleted "S")) "S" = [].
Proof. vm_compute. reflexivity. Qed.

(** The expand tool on the compacted session: the summary chunk alone
    does not show the text of its children. *)
Example expand_without_children :
  exists tokens content,
    ExpandTool.execute Demo.toISOString Demo.stringify Demo.compactedOnce
                       (ExpandTool.mkArgs "ch_3" (Some false) None) =
      ExpandTool.Full 1 tokens content None /\
    JS.includes content "Summary X" = true /\
    JS.includes content "Task 1" = false.
Proof. eexists. eexists. vm_compute. repeat split. Qed.

(** A chunk whose text is 17000 characters long expands with a warning. *)
Example expand_large_warns :
  match
    ExpandTool.execute Demo.toISOString Demo.stringify
      (fst (ChunkService.create initial_state "S"
              (mkContent
                 [mkMessage "m" user
                    [mkPart Text
                            (Some (string_of_list_ascii
                                     (repeat "y"%char (17 * 1000))))
                            None None None] 0]
                 empty_metadata) "ch_big" 0))
      (ExpandTool.mkArgs "ch_big" None None)
  with
  | ExpandTool.Full 1 tokens _ (Some _) => (4000 <? tokens)%nat
  | _ => false
  end = true.
Proof. vm_compute. reflexivity. Qed.

(** The history tool without a query lists recent chunks; with four
    results of the minimal estimate it does not warn. *)
Example history_recent_mode :
  exists entries hint,
    HistoryTool.execute (Demo.serviceOver Demo.fiveTasks) Demo.toISOString
      Demo.stringifyEntries
      (HistoryTool.mkArgs None None None None (Some 2)) Demo.inSession1 =
      HistoryTool.Recent 2 "current session" entries hint.
Proof. eexists. eexists. vm_compute. reflexivity. Qed.

Example history_four_results_no_warning :
  exists tokens entries hint,
    HistoryTool.execute (Demo.serviceOver Demo.fiveTasks) Demo.toISOString
      Demo.stringifyEntries
      (HistoryTool.mkArgs (Some "Task") None None None (Some 4))
      Demo.inSession1 =
      HistoryTool.Search 4 "current session" "Task" tokens 2000 entries hint
                         None.
Proof. eexists. eexists. eexists. vm_compute. reflexivity. Qed.

(** The compacted demo session satisfies the store invariants. *)
Example compacted_store_ok : Spec.storeOk Demo.compactedOnce.
Proof.
  unfold Demo.compactedOnce, Demo.twoChunks, ChunkService.create.
  cbn [fst].
  apply StoreInvariant.compact_storeOk.
  - split.
    + vm_compute. repeat constructor; simpl; intuition discriminate.
    + intros c r Hc Hr. vm_compute in Hc.
      destruct Hc as [<- | [<- | []]]; contradiction Hr.
  - vm_compute. intuition discriminate.
Qed.

End Tests.

(* ================================================================== *)
(** ** Strings: lengths, joins and occurrences                        *)
(* ================================================================== *)

Module StringFacts.

Lemma length_append (a b : string) :
  String.length (a ++ b) = String.length a + String.length b.
Proof.
  induction a as [| c a IH]; simpl; [reflexivity | rewrite IH; reflexivity].
Qed.

Lemma join_cons (sep x y : string) (l : list string) :
  JS.join sep (x :: y :: l) = x ++ sep ++ JS.join sep (y :: l).
Proof. reflexivity. Qed.

Lemma prefix_append (p r : string) : String.prefix p (p ++ r) = true.
Proof.
  induction p as [| c p IH]; simpl; [destruct r; reflexivity |].
  destruct (Ascii.ascii_dec c c) as [_ | N]; [exact IH | contradiction N].
  reflexivity.
Qed.

Lemma length_substring (m : nat) (s : string) :
  String.length (substring 0 m s) = Nat.min m (String.length s).
Proof.
  revert s. induction m as [| m IH]; intros s; destruct s as [| c s];
    simpl; try reflexivity.
  rewrite IH. reflexivity.
Qed.

Lemma occursIn_refl (s : string) : Props.occursIn s s.
Proof.
  exists "", "". simpl. rewrite SummaryFacts.append_empty_r. reflexivity.
Qed.

Lemma occursIn_append_l (x a b : string) :
  Props.occursIn x a -> Props.occursIn x (a ++ b).
Proof.
  intros [pre [post ->]]. exists pre, (post ++ b).
  rewrite !SummaryFacts.append_assoc. reflexivity.
Qed.

Lemma occursIn_append_r (x a b : string) :
  Props.occursIn x b -> Props.occursIn x (a ++ b).
Proof.
  intros [pre [post ->]]. exists (a ++ pre), post.
  rewrite !SummaryFacts.append_assoc. reflexivity.
Qed.

Lemma occursIn_trans (x y z : string) :
  Props.occursIn x y -> Props.occursIn y z -> Props.occursIn x z.
Proof.
  intros [p1 [q1 ->]] [p2 [q2 ->]]. exists (p2 ++ p1), (q1 ++ q2).
  rewrite !SummaryFacts.append_assoc. reflexivity.
Qed.

(** Every element of a joined list occurs in the join. *)
Lemma occursIn_join (sep x : string) (l : list string) :
  In x l -> Props.occursIn x (JS.join sep l).
Proof.
  induction l as [| a l IH]; [intros [] |].
  intros [-> | Hin].
  - destruct l as [| b l]; [apply occursIn_refl |].
    rewrite join_cons. apply occursIn_append_l, occursIn_refl.
  - destruct l as [| b l]; [destruct Hin |].
    rewrite join_cons. apply occursIn_append_r, occursIn_append_r, IH, Hin.
Qed.

Lemma substring_at_occurrence (before x after : string) :
  substring (String.length before) (String.length x) (before ++ x ++ after)
    = x.
Proof.
  induction before as [| c before IH]; simpl; [| exact IH].
  induction x as [| d x IHx]; simpl.
  - destruct after; reflexivity.
  - rewrite IHx. reflexivity.
Qed.

(** [includes] finds every occurrence. *)
Lemma includes_occursIn (s x : string) :
  Props.occursIn x s -> JS.includes s x = true.
Proof.
  intros [before [after ->]]. unfold JS.includes.
  destruct (String.index 0 x (before ++ x ++ after)) eqn:E; [reflexivity |].
  exfalso. destruct x as [| c x].
  - apply index_correct4 in E. lia.
  - apply (index_correct3 0 (String.length before) _ _ E);
      [discriminate | lia | apply substring_at_occurrence].
Qed.

End StringFacts.

(* ================================================================== *)
(** ** The search for the host's compaction summary                   *)
(* ================================================================== *)

Module FetchFacts.
Import Events Props.

Lemma scanParts_none_iff (parts : list OpenCodeMessagePart) :
  scanParts parts = None <->
  forallb (fun p => negb (isSummaryPart p)) parts = true.
Proof.
  induction parts as [| p parts IH]; simpl; [tauto |].
  unfold isSummaryPart at 1. destruct (oc_text p) as [t |]; simpl;
    [| exact IH].
  destruct ((oc_type p =? "text") && JS.truthy t && looksLikeSummary t &&
            negb (JS.startsWith t "## Project Memory (Memoir)")); simpl;
    [split; discriminate | exact IH].
Qed.

(** [scanParts] returns the text of the first part it takes. *)
Lemma scanParts_first (before after : list OpenCodeMessagePart)
      (p : OpenCodeMessagePart) (t : string) :
  forallb (fun p => negb (isSummaryPart p)) before = true ->
  isSummaryPart p = true -> oc_text p = Some t ->
  scanParts (before ++ p :: after) = Some t.
Proof.
  intros Hb Hp Ht. induction before as [| b before IH]; simpl.
  - unfold isSummaryPart in Hp. rewrite Ht in *. rewrite Hp. reflexivity.
  - simpl in Hb. apply andb_true_iff in Hb. destruct Hb as [Hb Hrest].
    unfold isSummaryPart in Hb. destruct (oc_text b) as [tb |];
      [| apply IH, Hrest].
    apply negb_true_iff in Hb. rewrite Hb. apply IH, Hrest.
Qed.

Lemma scanParts_some (parts : list OpenCodeMessagePart) (t : string) :
  scanParts parts = Some t ->
  exists before p after,
    parts = (before ++ p :: after)%list /\
    forallb (fun p => negb (isSummaryPart p)) before = true /\
    isSummaryPart p = true /\ oc_text p = Some t.
Proof.
  induction parts as [| q parts IH]; simpl; [discriminate |].
  destruct (oc_text q) as [tq |] eqn:Eq.
  - destruct ((oc_type q =? "text") && JS.truthy tq && looksLikeSummary tq &&
              negb (JS.startsWith tq "## Project Memory (Memoir)")) eqn:Ec.
    + intros [= <-]. exists [], q, parts. repeat split; try assumption.
      unfold isSummaryPart. rewrite Eq. exact Ec.
    + intros H. destruct (IH H) as [before [p [after [-> [Hb [Hp Ht]]]]]].
      exists (q :: before), p, after. repeat split; try assumption.
      simpl. rewrite Hb. unfold isSummaryPart. rewrite Eq, Ec. reflexivity.
  - intros H. destruct (IH H) as [before [p [after [-> [Hb [Hp Ht]]]]]].
    exists (q :: before), p, after. repeat split; try assumption.
    simpl. rewrite Hb. unfold isSummaryPart. rewrite Eq. reflexivity.
Qed.

Lemma scanMessages_skip (skipped rest : list OpenCodeMessage) :
  forallb noSummaryIn skipped = true ->
  scanMessages (skipped ++ rest) = scanMessages rest.
Proof.
  induction skipped as [| m skipped IH]; simpl; [reflexivity |].
  intros H. apply andb_true_iff in H. destruct H as [Hm Hrest].
  unfold noSummaryIn in Hm. destruct (oc_parts m) as [parts |];
    [| apply IH, Hrest].
  apply scanParts_none_iff in Hm. rewrite Hm. apply IH, Hrest.
Qed.

Lemma scanMessages_none_iff (l : list OpenCodeMessage) :
  scanMessages l = None <-> forallb noSummaryIn l = true.
Proof.
  induction l as [| m l IH]; simpl; [tauto |].
  unfold noSummaryIn at 1. destruct (oc_parts m) as [parts |]; simpl;
    [| exact IH].
  destruct (scanParts parts) as [t |] eqn:E.
  - split; [discriminate |]. intros H. apply andb_true_iff in H.
    destruct H as [H _]. apply scanParts_none_iff in H. congruence.
  - apply scanParts_none_iff in E. rewrite E. exact IH.
Qed.

Lemma scanMessages_some (l : list OpenCodeMessage) (t : string) :
  scanMessages l = Some t ->
  exists skipped m rest parts,
    l = (skipped ++ m :: rest)%list /\
    forallb noSummaryIn skipped = true /\
    oc_parts m = Some parts /\ scanParts parts = Some t.
Proof.
  induction l as [| m l IH]; simpl; [discriminate |].
  destruct (oc_parts m) as [parts |] eqn:Ep.
  - destruct (scanParts parts) as [t' |] eqn:Es.
    + intros [= <-]. exists [], m, l, parts. repeat split; assumption.
    + intros H. destruct (IH H) as [sk [m' [rest [ps [-> [Hs [Hp Ht]]]]]]].
      exists (m :: sk), m', rest, ps. repeat split; try assumption.
      simpl. rewrite Hs. unfold noSummaryIn. rewrite Ep.
      apply scanParts_none_iff in Es. rewrite Es. reflexivity.
  - intros H. destruct (IH H) as [sk [m' [rest [ps [-> [Hs [Hp Ht]]]]]]].
    exists (m :: sk), m', rest, ps. repeat split; try assumption.
    simpl. rewrite Hs. unfold noSummaryIn. rewrite Ep. reflexivity.
Qed.

Lemma forallb_rev {A : Type} (f : A -> bool) (l : list A) :
  forallb f (rev l) = forallb f l.
Proof.
  apply eq_true_iff_eq. rewrite !forallb_forall.
  split; intros H x Hx; apply H; [apply in_rev in Hx | apply in_rev];
    try rewrite rev_involutive; assumption.
Qed.

(** X1. [fetchCompactionSummary] returns a text exactly when it is the text
    of the first part it takes in the newest message that has such a part:
    a non-empty text part that looks like a summary and does not start
    with the plugin's memory header. *)
Theorem fetch_newest_first_summary (env : Env) (t : string) :
  fetchCompactionSummary env = Some t <->
  exists older m newer before p after,
    env_hostMessages env = Some (older ++ m :: newer)%list /\
    forallb noSummaryIn newer = true /\
    oc_parts m = Some (before ++ p :: after)%list /\
    forallb (fun q => negb (isSummaryPart q)) before = true /\
    isSummaryPart p = true /\ oc_text p = Some t.
Proof.
  unfold fetchCompactionSummary. split.
  - destruct (env_hostMessages env) as [ms |]; [| discriminate].
    intros H. apply scanMessages_some in H.
    destruct H as [sk [m [rest [parts [Hl [Hs [Hp Ht]]]]]]].
    apply scanParts_some in Ht.
    destruct Ht as [before [p [after [-> [Hb [Hq Htx]]]]]].
    exists (rev rest), m, (rev sk), before, p, after.
    repeat split; try assumption.
    + f_equal. rewrite <- (rev_involutive ms), Hl, rev_app_distr. simpl.
      rewrite <- app_assoc. reflexivity.
    + rewrite forallb_rev. exact Hs.
  - intros [older [m [newer [before [p [after [Hm [Hn [Hp [Hb [Hq Ht]]]]]]]]]]].
    rewrite Hm, rev_app_distr. simpl. rewrite <- app_assoc. simpl.
    rewrite scanMessages_skip by (rewrite forallb_rev; exact Hn).
    simpl. rewrite Hp, (scanParts_first before after p t Hb Hq Ht).
    reflexivity.
Qed.

(** X2. [fetchCompactionSummary] returns null exactly when there is no
    answer from the host, or no message of the answer has a part it takes. *)
Theorem fetch_null_iff_no_summary_part (env : Env) :
  fetchCompactionSummary env = None <->
  match env_hostMessages env with
  | None => True
  | Some ms => forallb noSummaryIn ms = true
  end.
Proof.
  unfold fetchCompactionSummary.
  destruct (env_hostMessages env) as [ms |]; [| tauto].
  rewrite scanMessages_none_iff, forallb_rev. tauto.
Qed.

End FetchFacts.

(* ================================================================== *)
(** ** Association lists: lookups after updates                       *)
(* ================================================================== *)

Section AssocUpdates.
Context {V : Type}.

Lemma alookup_aset_same (k : string) (v : V) (m : list (string * V)) :
  alookup k (aset k v m) = Some v.
Proof.
  induction m as [| [k' v'] m IH]; simpl.
  - rewrite String.eqb_refl. reflexivity.
  - destruct (String.eqb_spec k k') as [E | E]; simpl.
    + rewrite <- E, String.eqb_refl. reflexivity.
    + destruct (String.eqb_spec k k'); [contradiction | exact IH].
Qed.

Lemma alookup_aset_other (k k' : string) (v : V) (m : list (string * V)) :
  k' <> k -> alookup k' (aset k v m) = alookup k' m.
Proof.
  intros Hne. induction m as [| [k0 v0] m IH]; simpl.
  - destruct (String.eqb_spec k' k); [contradiction | reflexivity].
  - destruct (String.eqb_spec k k0) as [E | E]; simpl.
    + subst k0. destruct (String.eqb_spec k' k); [contradiction | reflexivity].
    + destruct (k' =? k0); [reflexivity | exact IH].
Qed.

Lemma alookup_adelete_other (k k' : string) (m : list (string * V)) :
  k' <> k -> alookup k' (adelete k m) = alookup k' m.
Proof.
  intros Hne. unfold adelete.
  induction m as [| [k0 v0] m IH]; simpl; [reflexivity |].
  destruct (String.eqb_spec k k0) as [E | E]; simpl.
  - subst k0. destruct (String.eqb_spec k' k); [contradiction | exact IH].
  - destruct (k' =? k0); [reflexivity | exact IH].
Qed.

(** A second write to a key replaces the first. *)
Lemma aset_aset (k : string) (v1 v2 : V) (m : list (string * V)) :
  aset k v2 (aset k v1 m) = aset k v2 m.
Proof.
  induction m as [| [k' v'] m IH]; simpl.
  - rewrite String.eqb_refl. reflexivity.
  - destruct (String.eqb_spec k k') as [E | E]; simpl.
    + rewrite <- E, String.eqb_refl. reflexivity.
    + destruct (String.eqb_spec k k'); [contradiction |].
      rewrite IH. reflexivity.
Qed.

(** Writing back what a key holds changes nothing. *)
Lemma aset_known (k : string) (v : V) (m : list (string * V)) :
  alookup k m = Some v -> aset k v m = m.
Proof.
  induction m as [| [k' v'] m IH]; simpl; [discriminate |].
  destruct (String.eqb_spec k k') as [E | E].
  - intros [= ->]. reflexivity.
  - intros H. rewrite (IH H). reflexivity.
Qed.

End AssocUpdates.

(* ================================================================== *)
(** ** What one event can and cannot change                           *)
(* ================================================================== *)

Module EventFacts.
Import Events ChunkService Props Spec.

Lemma drafts_aset_other (tr : Tracker.t) (s s' : string)
      (ms : list (string * Tracker.DraftMessage)) :
  s' <> s -> Tracker.drafts (aset s ms tr) s' = Tracker.drafts tr s'.
Proof.
  intros H. unfold Tracker.drafts. rewrite alookup_aset_other by exact H.
  reflexivity.
Qed.

Lemma drafts_aset_same (tr : Tracker.t) (s : string)
      (ms : list (string * Tracker.DraftMessage)) :
  Tracker.drafts (aset s ms tr) s = ms.
Proof. unfold Tracker.drafts. rewrite alookup_aset_same. reflexivity. Qed.

Lemma drafts_ensure_other tr s mid role s' :
  s' <> s ->
  Tracker.drafts (Tracker.ensureMessage tr s mid role) s' =
    Tracker.drafts tr s'.
Proof.
  intros H. unfold Tracker.ensureMessage.
  destruct (alookup mid (Tracker.drafts tr s)); [reflexivity |].
  apply drafts_aset_other, H.
Qed.

Lemma drafts_addPart_other tr s mid pid part tr' s' :
  s' <> s -> Tracker.addPart tr s mid pid part = Some tr' ->
  Tracker.drafts tr' s' = Tracker.drafts tr s'.
Proof.
  intros H. unfold Tracker.addPart.
  destruct (alookup mid (Tracker.drafts tr s)); [| discriminate].
  intros [= <-]. apply drafts_aset_other, H.
Qed.

Lemma drafts_clear_other tr s s' :
  s' <> s ->
  Tracker.drafts (Tracker.clearSession tr s) s' = Tracker.drafts tr s'.
Proof.
  intros H. unfold Tracker.drafts, Tracker.clearSession.
  rewrite alookup_adelete_other by exact H. reflexivity.
Qed.

Lemma finalize_other mf st s newId now s' :
  s' <> s ->
  let st' := finalize mf st s newId now in
  Tracker.drafts (tracker st') s' = Tracker.drafts (tracker st) s' /\
  chunksOf st' s' = chunksOf st s' /\
  injectedSessions st' = injectedSessions st.
Proof.
  intros H. cbv zeta. unfold finalize.
  destruct (Tracker.hasMessages (tracker st) s); simpl;
    [| repeat split].
  split; [apply drafts_clear_other, H |]. split; [| reflexivity].
  unfold chunksOf. simpl. rewrite filter_app. simpl.
  destruct (String.eqb_spec s s'); [congruence |]. apply app_nil_r.
Qed.

Lemma flipActive_other (s s' : string) (cs : list Chunk) :
  s' <> s ->
  filter (fun c => sessionId c =? s') (flipActive s cs) =
    filter (fun c => sessionId c =? s') cs.
Proof.
  intros H. unfold flipActive.
  induction cs as [| c cs IH]; simpl; [reflexivity |].
  destruct (is_active_in s c) eqn:E.
  - unfold is_active_in in E. apply andb_true_iff in E.
    destruct E as [E _]. apply String.eqb_eq in E. simpl. rewrite E.
    destruct (String.eqb_spec s s'); [congruence | exact IH].
  - rewrite IH. reflexivity.
Qed.

Lemma compact_other st s text newId now s' :
  storeOk st -> ~ In newId (map id (chunks st)) -> s' <> s ->
  let st' := fst (compact st s text newId now) in
  tracker st' = tracker st /\ chunksOf st' s' = chunksOf st s' /\
  injectedSessions st' = injectedSessions st.
Proof.
  intros [Hnd _] Hfresh H. cbv zeta.
  destruct (Nat.leb_spec (length (getActiveChunks st s)) 1) as [Hfew | Hmany].
  - unfold compact.
    destruct (Nat.leb_spec (length (getActiveChunks st s)) 1);
      [repeat split | lia].
  - pose proof (CompactFacts.compact_many st s text newId now Hnd Hfresh
                  Hmany) as Hc.
    cbv zeta in Hc. rewrite Hc. unfold with_chunks, chunksOf.
    cbv beta iota delta [fst tracker chunks injectedSessions].
    split; [reflexivity |]. split; [| reflexivity].
    rewrite filter_app, (flipActive_other s s' _ H). simpl.
    destruct (String.eqb_spec s s'); [congruence |]. apply app_nil_r.
Qed.

Lemma existsb_filter_other (s s' : string) (l : list string) :
  s' <> s ->
  existsb (String.eqb s') (filter (fun x => negb (x =? s)) l) =
    existsb (String.eqb s') l.
Proof.
  intros H. induction l as [| x l IH]; simpl; [reflexivity |].
  destruct (String.eqb_spec x s) as [-> | Hx]; simpl.
  - destruct (String.eqb_spec s' s); [contradiction | exact IH].
  - rewrite IH. reflexivity.
Qed.

(** X3. Sessions are isolated: on a store that keeps its invariants, with
    fresh ids, an event about one session leaves the drafts, the chunks and
    the injection flag of every other session as they were. *)
Theorem event_leaves_other_sessions_alone
        (mf : string -> option Json -> list string)
        (st : State) (env : Env) (e : Event) (s s' : string) :
  storeOk st -> freshEnv env st -> sessionOf e = Some s -> s' <> s ->
  Tracker.drafts (tracker (handleEvent mf st env e)) s' =
    Tracker.drafts (tracker st) s' /\
  chunksOf (handleEvent mf st env e) s' = chunksOf st s' /\
  ChatMessage.hasInjectedSession (handleEvent mf st env e) s' =
    ChatMessage.hasInjectedSession st s'.
Proof.
  intros Hok [Hf1 [Hf2 Hne]] Hs H. unfold handleEvent.
  destruct e as [sid | sid | sid | info | part | ty]; simpl in Hs;
    try discriminate; injection Hs as <-;
    cbn [event_type negb existsb HANDLED_EVENTS String.eqb Ascii.eqb
         Bool.eqb andb orb].
  - unfold handleSessionIdle.
    destruct (finalize_other mf st sid (env_chunkId env) (env_now env) s' H)
      as [H1 [H2 H3]].
    unfold ChatMessage.hasInjectedSession. rewrite H3. auto.
  - unfold handleSessionCompacted.
    destruct (finalize_other mf st sid (env_chunkId env) (env_now env) s' H)
      as [H1 [H2 H3]].
    destruct (1 <? _)%nat.
    + match goal with
      | |- context [compact ?a ?b ?c ?d ?e] =>
          destruct (compact_other a b c d e s') as [G1 [G2 G3]]
      end.
      * apply StoreInvariant.finalize_storeOk; assumption.
      * intros Hin. apply StoreInvariant.finalize_ids in Hin.
        destruct Hin as [Hin | Hin]; [contradiction |].
        apply Hne. symmetry. exact Hin.
      * exact H.
      * unfold ChatMessage.hasInjectedSession. rewrite G1, G2, G3, H3.
        auto.
    + unfold ChatMessage.hasInjectedSession. rewrite H3. auto.
  - unfold handleSessionDeleted, clearInjectedSession, deleteSession,
      with_tracker, with_chunks, chunksOf, ChatMessage.hasInjectedSession.
    cbv beta iota delta [tracker chunks injectedSessions].
    split; [apply drafts_clear_other, H |]. split.
    + rewrite SummaryFacts.filter_filter. apply filter_ext. intros c.
      destruct (String.eqb_spec (sessionId c) s') as [E | E];
        [| apply andb_false_r].
      rewrite E. destruct (String.eqb_spec s' sid); [contradiction |].
      reflexivity.
    + apply existsb_filter_other, H.
  - unfold handleMessageUpdated. destruct (_ && _); [repeat split |].
    unfold with_tracker, chunksOf, ChatMessage.hasInjectedSession.
    cbv beta iota delta [tracker chunks injectedSessions].
    split; [apply drafts_ensure_other, H | split; reflexivity].
  - unfold handleMessagePartUpdated.
    destruct (convertPart part); [| repeat split].
    destruct (Tracker.addPart _ _ _ _ _) as [tr |] eqn:Ea; [| repeat split].
    unfold with_tracker, chunksOf, ChatMessage.hasInjectedSession.
    cbv beta iota delta [tracker chunks injectedSessions].
    split; [apply (drafts_addPart_other _ _ _ _ _ _ _ H Ea) |].
    split; reflexivity.
Qed.

(** X4. No event but session.deleted loses or rewrites a chunk: after the
    event the store holds the chunks it held, in order, each as it was or
    with its status flipped to compacted, followed by at most two new
    chunks. *)
Theorem events_keep_chunks
        (mf : string -> option Json -> list string)
        (st : State) (env : Env) (e : Event) :
  keepsChunks e = true ->
  exists kept added,
    chunks (handleEvent mf st env e) = (kept ++ added)%list /\
    Forall2 sameButStatus (chunks st) kept /\
    length added <= 2.
Proof.
  assert (Hrefl : forall l, Forall2 sameButStatus l l).
  { induction l; constructor; [left; reflexivity | assumption]. }
  assert (Hsame : exists kept added,
             chunks st = (kept ++ added)%list /\
             Forall2 sameButStatus (chunks st) kept /\ length added <= 2).
  { exists (chunks st), []. rewrite app_nil_r. auto. }
  assert (Hfin : forall sid,
             exists added,
               chunks (finalize mf st sid (env_chunkId env) (env_now env)) =
                 (chunks st ++ added)%list /\ length added <= 1).
  { intros sid. unfold finalize.
    destruct (Tracker.hasMessages (tracker st) sid); simpl.
    - eexists. split; [reflexivity | simpl; lia].
    - exists []. rewrite app_nil_r. auto. }
  intros Hkeep. unfold handleEvent.
  destruct (negb _); [exact Hsame |].
  destruct e as [sid | sid | sid | info | part | ty]; try discriminate;
    try exact Hsame.
  - unfold handleSessionIdle. destruct (Hfin sid) as [added [Hc Hl]].
    exists (chunks st), added. rewrite Hc. repeat split; auto; lia.
  - unfold handleSessionCompacted. destruct (Hfin sid) as [added [Hc Hl]].
    destruct (1 <? _)%nat.
    + unfold compact. destruct (_ <=? 1)%nat; simpl.
      * exists (chunks st), added. rewrite Hc. repeat split; auto; lia.
      * rewrite Hc, !map_app. rewrite <- app_assoc.
        eexists. eexists. split; [reflexivity |]. split.
        -- clear. induction (chunks st) as [| c cs IH]; constructor;
             [| exact IH].
           destruct (existsb _ _); [right | left]; reflexivity.
        -- rewrite length_app, length_map. simpl. lia.
    + exists (chunks st), added. rewrite Hc. repeat split; auto; lia.
  - unfold handleMessageUpdated. destruct (_ && _); exact Hsame.
  - unfold handleMessagePartUpdated. destruct (convertPart part);
      [| exact Hsame].
    destruct (Tracker.addPart _ _ _ _ _); exact Hsame.
Qed.

(** X5. After session.deleted the session has no chunk, no active chunk, no
    draft message and no injection flag. *)
Theorem deleted_session_leaves_nothing
        (mf : string -> option Json -> list string)
        (st : State) (env : Env) (s : string) :
  chunksOf (handleEvent mf st env (EvSessionDeleted s)) s = [] /\
  getActiveChunks (handleEvent mf st env (EvSessionDeleted s)) s = [] /\
  Tracker.drafts (tracker (handleEvent mf st env (EvSessionDeleted s))) s
    = [] /\
  ChatMessage.hasInjectedSession
    (handleEvent mf st env (EvSessionDeleted s)) s = false.
Proof.
  unfold handleEvent. simpl.
  unfold handleSessionDeleted, clearInjectedSession, deleteSession,
    with_tracker, with_chunks, chunksOf, getActiveChunks,
    ChatMessage.hasInjectedSession.
  simpl tracker. simpl chunks. simpl injectedSessions.
  assert (Hnone : forall (f : Chunk -> bool),
             (forall c, f c = true -> sessionId c = s) ->
             filter f (filter (fun c => negb (sessionId c =? s)) (chunks st))
               = []).
  { intros f Hf. rewrite SummaryFacts.filter_filter.
    induction (chunks st) as [| c cs IH]; simpl; [reflexivity |].
    destruct (String.eqb_spec (sessionId c) s) as [E | E]; simpl;
      [exact IH |].
    destruct (f c) eqn:Ef; [apply Hf in Ef; contradiction | exact IH]. }
  split; [apply Hnone; intros c Hc; apply String.eqb_eq, Hc |].
  split.
  { apply Hnone. intros c Hc. unfold is_active_in in Hc.
    apply andb_true_iff in Hc. apply String.eqb_eq, Hc. }
  split.
  - unfold Tracker.drafts, Tracker.clearSession.
    rewrite FinalizeFacts.alookup_adelete. reflexivity.
  - induction (injectedSessions st) as [| x l IH]; simpl; [reflexivity |].
    destruct (String.eqb_spec x s) as [-> | Hx]; simpl; [exact IH |].
    destruct (String.eqb_spec s x); [congruence | exact IH].
Qed.


(** X7. Streamed updates of one part overwrite each other: when two
    message.part.updated events carry the same session, message and part
    ids and the second one passes the filter, handling both leaves the state
    that handling the second alone leaves. *)
Theorem last_part_update_wins
        (mf : string -> option Json -> list string)
        (st : State) (env1 env2 : Env) (p1 p2 : EventMessagePart) :
  ep_sessionID p2 = ep_sessionID p1 -> ep_messageID p2 = ep_messageID p1 ->
  ep_id p2 = ep_id p1 -> convertPart p2 <> None ->
  handleEvent mf (handleEvent mf st env1 (EvMessagePartUpdated p1)) env2
              (EvMessagePartUpdated p2) =
    handleEvent mf st env2 (EvMessagePartUpdated p2).
Proof.
  intros Hs Hm Hi Hacc. unfold handleEvent. simpl.
  unfold handleMessagePartUpdated. rewrite Hs, Hm, Hi.
  destruct (convertPart p2) as [c2 |]; [| contradiction Hacc; reflexivity].
  destruct (convertPart p1) as [c1 |]; [| reflexivity].
  unfold Tracker.addPart.
  destruct (alookup (ep_messageID p1)
              (Tracker.drafts (tracker st) (ep_sessionID p1)))
    as [d |] eqn:E; [| rewrite E; reflexivity].
  unfold with_tracker. simpl tracker.
  rewrite drafts_aset_same, alookup_aset_same. simpl.
  rewrite !aset_aset. reflexivity.
Qed.

Lemma mixed_storeOk : storeOk Demo2.mixed.
Proof.
  split.
  - vm_compute. repeat constructor; simpl; intuition discriminate.
  - intros c r Hc Hr. simpl in Hc.
    destruct Hc as [<- | [<- | [<- | []]]]; contradiction Hr.
Qed.

Lemma mixed_fresh : freshEnv Demo.env Demo2.mixed.
Proof. vm_compute. intuition discriminate. Qed.

(** Compacting session-a leaves the chunk, the draft and the flag of
    session-b where they were. *)
Lemma event_leaves_other_sessions_alone_witness :
  let after :=
    handleEvent Demo.modifiedFiles Demo2.mixed Demo.env
                (EvSessionCompacted "session-a") in
  Tracker.drafts (tracker after) "session-b" =
    [("msg-b", Tracker.mkDraft user [("prt-b", Demo2.partB)])] /\
  chunksOf after "session-b" = [Demo.taskChunk "ch_b" "session-b" "B"] /\
  ChatMessage.hasInjectedSession after "session-b" = true /\
  length (chunks after) = 5.
Proof.
  cbv zeta.
  destruct (event_leaves_other_sessions_alone Demo.modifiedFiles Demo2.mixed
              Demo.env (EvSessionCompacted "session-a") "session-a"
              "session-b" mixed_storeOk mixed_fresh eq_refl)
    as [H1 [H2 H3]]; [discriminate |].
  rewrite H1, H2, H3. repeat split.
Defined.

(** The same event keeps the three chunks and adds two. *)
Lemma events_keep_chunks_witness :
  exists kept added,
    chunks (handleEvent Demo.modifiedFiles Demo2.mixed Demo.env
                        (EvSessionCompacted "session-a")) =
      (kept ++ added)%list /\
    Forall2 sameButStatus (chunks Demo2.mixed) kept /\
    length added <= 2.
Proof.
  exact (events_keep_chunks Demo.modifiedFiles Demo2.mixed Demo.env
           (EvSessionCompacted "session-a") eq_refl).
Defined.


(** Two updates of [prt-1]: the draft holds the later text once. *)
Lemma last_part_update_wins_witness :
  map msg_parts
      (Tracker.getMessages
         (tracker (run Demo.modifiedFiles Demo2.tracked
                       [(Demo.env, EvMessagePartUpdated Demo.helloPart);
                        (Demo.env, EvMessagePartUpdated Demo2.helloAgain)]))
         "S" 0) =
    [[mkPart Text (Some "Hello, world") None None None]].
Proof.
  unfold run. cbn [fold_left fst snd].
  rewrite (last_part_update_wins Demo.modifiedFiles Demo2.tracked Demo.env
             Demo.env Demo.helloPart Demo2.helloAgain eq_refl eq_refl
             eq_refl).
  - vm_compute. reflexivity.
  - vm_compute. discriminate.
Defined.

End EventFacts.

(* ================================================================== *)
(** ** The chat message hook                                          *)
(* ================================================================== *)

Module ChatFacts.
Import ChatMessage Props.

Section WithRuntime.
Variable toLocaleDateString : Z -> string.
Variable services : Services.

Local Abbreviation handle :=
  (handleChatMessage toLocaleDateString services).

(** A session that has its flag gets no context part. *)
Lemma injected_session_gets_no_context
      (n1 n2 : nat) (st : State) (input : ChatMessageInput)
      (parts : list Part) :
  hasInjectedSession st (in_sessionID input) = true ->
  fst (handle n1 n2 st input parts) = st /\
  exists post,
    snd (handle n1 n2 st input parts) = (parts ++ post)%list /\
    length post <= 1.
Proof.
  intros Hin. unfold handle, handleChatMessage.
  destruct (negb (JS.truthy (JS.trim (extractTextFromParts parts)))).
  - split; [reflexivity |]. exists []. rewrite app_nil_r. auto.
  - rewrite Hin. cbn [negb].
    destruct (detectKeyword services (extractTextFromParts parts)).
    + split; [reflexivity |]. eexists. split; [reflexivity | simpl; lia].
    + split; [reflexivity |]. exists []. rewrite app_nil_r. auto.
Qed.

Lemma hasInjected_set_add (l : list string) (s : string) :
  existsb (String.eqb s) (JS.set_add s l) = true.
Proof.
  unfold JS.set_add. destruct (existsb (String.eqb s) l) eqn:E;
    [exact E |].
  rewrite existsb_app. simpl. rewrite String.eqb_refl.
  apply orb_true_r.
Qed.

(** A message with text sets the flag of its session. *)
Lemma text_message_sets_flag
      (n1 n2 : nat) (st : State) (input : ChatMessageInput)
      (parts : list Part) :
  JS.trim (extractTextFromParts parts) <> "" ->
  hasInjectedSession (fst (handle n1 n2 st input parts))
                     (in_sessionID input) = true.
Proof.
  intros Htext. apply JSFacts.truthy_true_iff in Htext.
  unfold handle, handleChatMessage. rewrite Htext. cbn [negb].
  destruct (hasInjectedSession st (in_sessionID input)) eqn:Hin; cbn [negb].
  - destruct (detectKeyword services _); exact Hin.
  - destruct ((0 <? _)%nat || (0 <? _)%nat);
      destruct (detectKeyword services _); cbn [fst];
      unfold hasInjectedSession; cbn [injectedSessions];
      apply hasInjected_set_add.
Qed.

(** X8. The chat hook never drops, reorders or edits the parts it is
    given: its output is those parts, with at most one synthetic text part
    before them and at most one after; the tracker and the chunks are not
    touched; and a message whose text parts are blank is passed through
    with the state as it was. *)
Theorem chat_hook_keeps_parts
        (n1 n2 : nat) (st : State) (input : ChatMessageInput)
        (parts : list Part) :
  (exists pre post,
      snd (handle n1 n2 st input parts) = (pre ++ parts ++ post)%list /\
      length pre <= 1 /\ length post <= 1 /\
      Forall isSynthetic pre /\ Forall isSynthetic post) /\
  tracker (fst (handle n1 n2 st input parts)) = tracker st /\
  chunks (fst (handle n1 n2 st input parts)) = chunks st /\
  (JS.trim (extractTextFromParts parts) = "" ->
   handle n1 n2 st input parts = (st, parts)).
Proof.
  unfold handle, handleChatMessage.
  destruct (JS.truthy (JS.trim (extractTextFromParts parts))) eqn:Ht;
    cbn [negb].
  2: { split; [| repeat split].
       exists [], []. rewrite app_nil_r. simpl. repeat split; auto. }
  assert (Hsyn : forall now sid mid t,
             isSynthetic (createSyntheticPart now sid mid t))
    by (intros; split; reflexivity).
  split; [| split; [| split]].
  - destruct (negb (hasInjectedSession st (in_sessionID input)));
      [destruct ((0 <? _)%nat || (0 <? _)%nat) |];
      destruct (detectKeyword services _); cbn [snd];
      first [ solve [eexists [_], [_]; simpl; repeat split; auto]
            | solve [eexists [_], []; rewrite app_nil_r; simpl;
                     repeat split; auto]
            | solve [eexists [], [_]; simpl; repeat split; auto]
            | solve [exists [], []; rewrite app_nil_r; simpl;
                     repeat split; auto] ].
  - destruct (negb (hasInjectedSession st (in_sessionID input)));
      [destruct ((0 <? _)%nat || (0 <? _)%nat) |];
      destruct (detectKeyword services _); reflexivity.
  - destruct (negb (hasInjectedSession st (in_sessionID input)));
      [destruct ((0 <? _)%nat || (0 <? _)%nat) |];
      destruct (detectKeyword services _); reflexivity.
  - intros Hb. apply JSFacts.truthy_true_iff in Ht. contradiction.
Qed.

(** X9. Context is injected at most once per session: after a message with
    text, whether or not anything was injected for it, the session has its
    flag, and every later message of the session comes back with no part
    put before its own. *)
Theorem context_injected_at_most_once
        (n1 n2 n3 n4 : nat) (st : State) (first later : ChatMessageInput)
        (parts1 parts2 : list Part) :
  JS.trim (extractTextFromParts parts1) <> "" ->
  in_sessionID later = in_sessionID first ->
  let st1 := fst (handle n1 n2 st first parts1) in
  hasInjectedSession st1 (in_sessionID first) = true /\
  fst (handle n3 n4 st1 later parts2) = st1 /\
  exists post,
    snd (handle n3 n4 st1 later parts2) = (parts2 ++ post)%list /\
    length post <= 1.
Proof.
  intros Htext Hsame. cbv zeta.
  pose proof (text_message_sets_flag n1 n2 st first parts1 Htext) as Hflag.
  split; [exact Hflag |].
  apply injected_session_gets_no_context. rewrite Hsame. exact Hflag.
Qed.

End WithRuntime.

(** session.deleted clears the injection flag of the session. *)
Lemma flag_cleared_by_session_deleted
      (mf : string -> option Json -> list string)
      (st : State) (env : Events.Env) (s : string) :
  hasInjectedSession
    (Events.handleEvent mf st env (Events.EvSessionDeleted s)) s = false.
Proof.
  unfold Events.handleEvent. simpl.
  unfold Events.handleSessionDeleted, Events.clearInjectedSession,
    hasInjectedSession.
  simpl injectedSessions.
  induction (injectedSessions st) as [| x l IH]; simpl; [reflexivity |].
  destruct (String.eqb_spec x s) as [-> | Hx]; simpl; [exact IH |].
  destruct (String.eqb_spec s x); [congruence | exact IH].
Qed.

(** A session without the flag gets the context part when there is a
    memory or a recent summary chunk to show. *)
Lemma unflagged_session_gets_context
      (toLocaleDateString : Z -> string) (services : Services)
      (n1 n2 : nat) (st : State) (input : ChatMessageInput)
      (parts : list Part) :
  hasInjectedSession st (in_sessionID input) = false ->
  JS.trim (extractTextFromParts parts) <> "" ->
  searchRelevant services (extractTextFromParts parts) <> [] ->
  exists context post,
    snd (handleChatMessage toLocaleDateString services n1 n2 st input parts)
      = (context :: parts ++ post)%list /\
    isSynthetic context /\
    p_text context =
      Some (formatContextInjection toLocaleDateString
              (searchRelevant services (extractTextFromParts parts))
              match getRecentSummaryChunks services 5 with
              | Some cs => cs
              | None => []
              end) /\
    length post <= 1.
Proof.
  intros Hflag Htext Hmem. apply JSFacts.truthy_true_iff in Htext.
  unfold handleChatMessage. rewrite Htext, Hflag. cbn [negb].
  destruct (searchRelevant services (extractTextFromParts parts))
    as [| m ms] eqn:Em; [contradiction Hmem; reflexivity |].
  cbn [length Nat.ltb Nat.leb orb].
  destruct (detectKeyword services (extractTextFromParts parts)); cbn [snd].
  - eexists. eexists [_]. split; [reflexivity |].
    split; [split; reflexivity |]. split; [reflexivity | simpl; lia].
  - eexists. exists []. rewrite app_nil_r. split; [reflexivity |].
    split; [split; reflexivity |]. split; [reflexivity | simpl; lia].
Qed.

(** X10. Deleting a session re-arms the injection: the first message with
    text after session.deleted is given the context part again, whatever
    the state was before, when the memory service has something for it. *)
Theorem deleted_session_is_injected_again
        (mf : string -> option Json -> list string)
        (toLocaleDateString : Z -> string) (services : Services)
        (n1 n2 : nat) (st : State) (env : Events.Env)
        (input : ChatMessageInput) (parts : list Part) :
  JS.trim (extractTextFromParts parts) <> "" ->
  searchRelevant services (extractTextFromParts parts) <> [] ->
  exists context post,
    snd (handleChatMessage toLocaleDateString services n1 n2
           (Events.handleEvent mf st env
              (Events.EvSessionDeleted (in_sessionID input)))
           input parts) = (context :: parts ++ post)%list /\
    isSynthetic context /\ length post <= 1.
Proof.
  intros Htext Hmem.
  destruct (unflagged_session_gets_context toLocaleDateString services n1 n2
              (Events.handleEvent mf st env
                 (Events.EvSessionDeleted (in_sessionID input)))
              input parts
              (flag_cleared_by_session_deleted mf st env _) Htext Hmem)
    as [context [post [H1 [H2 [_ H3]]]]].
  exists context, post. auto.
Qed.

(** The injected context starts with the memory header when there is a
    memory in it. *)
Lemma injection_starts_with_header
      (toLocaleDateString : Z -> string) (memories : list Memory)
      (recentChunks : list Chunk) :
  memories <> [] ->
  JS.startsWith
    (formatContextInjection toLocaleDateString memories recentChunks)
    "## Project Memory (Memoir)" = true.
Proof.
  intros Hmem. unfold formatContextInjection.
  destruct memories as [| m ms]; [contradiction Hmem; reflexivity |].
  cbn [length Nat.ltb Nat.leb app].
  assert (Hjoin : forall x rest,
             JS.join (nl ++ nl) (("## Project Memory (Memoir)" ++ x) :: rest)
             = "## Project Memory (Memoir)" ++
               match rest with
               | [] => x
               | _ :: _ => x ++ (nl ++ nl) ++ JS.join (nl ++ nl) rest
               end).
  { intros x rest. destruct rest as [| y rest].
    - reflexivity.
    - rewrite StringFacts.join_cons, SummaryFacts.append_assoc.
      reflexivity. }
  unfold JS.startsWith.
  destruct (JS.truthy (formatSessionHistory toLocaleDateString recentChunks));
    cbn [length Nat.ltb Nat.leb app]; rewrite Hjoin;
    apply StringFacts.prefix_append.
Qed.

(** X11. An injected context that holds at least one memory is never taken
    for the host's compaction summary, whatever else it contains. *)
Theorem memory_injection_is_never_the_summary
        (toLocaleDateString : Z -> string) (memories : list Memory)
        (recentChunks : list Chunk) (env : Events.Env) :
  memories <> [] ->
  Events.fetchCompactionSummary env <>
    Some (formatContextInjection toLocaleDateString memories recentChunks).
Proof.
  intros Hmem Hfetch. unfold Events.fetchCompactionSummary in Hfetch.
  destruct (Events.env_hostMessages env) as [ms |]; [| discriminate].
  apply FetchFacts.scanMessages_some in Hfetch.
  destruct Hfetch as [_ [_ [_ [ps [_ [_ [_ Hscan]]]]]]].
  apply FetchFacts.scanParts_some in Hscan.
  destruct Hscan as [_ [p [_ [_ [_ [Hp Ht]]]]]].
  unfold isSummaryPart in Hp. rewrite Ht in Hp.
  rewrite (injection_starts_with_header toLocaleDateString memories
             recentChunks Hmem) in Hp.
  rewrite andb_false_r in Hp. discriminate.
Qed.


(** A first message is given the memory context; the next message of the
    session, which holds a keyword, gets the nudge after its parts and
    nothing before them. *)
Lemma context_injected_at_most_once_witness :
  let first :=
    handleChatMessage Demo2.toLocaleDateString Demo2.chatServices 1 2
                      initial_state Demo2.chatInput
                      [Demo2.userText "Hello"] in
  length (snd first) = 2 /\
  exists nudge,
    snd (handleChatMessage Demo2.toLocaleDateString Demo2.chatServices 3 4
                           (fst first) Demo2.chatInput
                           [Demo2.filePart;
                            Demo2.userText "please remember this"]) =
      [Demo2.filePart; Demo2.userText "please remember this"; nudge].
Proof.
  cbv zeta. split; [reflexivity |].
  destruct (context_injected_at_most_once Demo2.toLocaleDateString
              Demo2.chatServices 1 2 3 4 initial_state Demo2.chatInput
              Demo2.chatInput [Demo2.userText "Hello"]
              [Demo2.filePart; Demo2.userText "please remember this"])
    as [_ [_ [post [Hpost Hlen]]]].
  - vm_compute. discriminate.
  - reflexivity.
  - rewrite Hpost. destruct post as [| nudge [| x post]].
    + exfalso. vm_compute in Hpost. discriminate Hpost.
    + exists nudge. reflexivity.
    + simpl in Hlen. lia.
Defined.

(** The injected context built from history alone. *)
Lemma history_only_injection
      (toLocaleDateString : Z -> string) (c : Chunk) (rest : list Chunk) :
  formatContextInjection toLocaleDateString [] (c :: rest) =
    formatSessionHistory toLocaleDateString (c :: rest) ++ (nl ++ nl) ++
    TOOLS_SECTION /\
  exists tail,
    formatSessionHistory toLocaleDateString (c :: rest) = String "010" tail.
Proof.
  assert (Hhead : exists tail,
             formatSessionHistory toLocaleDateString (c :: rest) =
               String "010" tail).
  { unfold formatSessionHistory. cbn [length Nat.eqb]. eexists.
    reflexivity. }
  split; [| exact Hhead]. destruct Hhead as [tail Htail].
  unfold formatContextInjection. cbn [length Nat.ltb Nat.leb].
  rewrite Htail. cbn [JS.truthy String.eqb negb app length Nat.ltb Nat.leb].
  reflexivity.
Qed.

(** X12. The guard against re-reading the plugin's own injection looks at
    the memory header only: an injection built from history alone (no
    memory), one of whose chunk summaries contains the words
    [Session Continuation Prompt], is returned as the host's compaction
    summary when it is the only part of the newest message. *)
Theorem history_only_injection_is_taken
        (toLocaleDateString : Z -> string) (recentChunks : list Chunk)
        (c : Chunk) (s : string) (env : Events.Env)
        (older : list Events.OpenCodeMessage) (m : Events.OpenCodeMessage) :
  In c recentChunks -> summary c = Some s ->
  occursIn "Session Continuation Prompt" s ->
  Events.env_hostMessages env = Some (older ++ [m])%list ->
  Events.oc_parts m =
    Some [Events.mkOcPart "text"
            (Some (formatContextInjection toLocaleDateString []
                                          recentChunks))] ->
  Events.fetchCompactionSummary env =
    Some (formatContextInjection toLocaleDateString [] recentChunks).
Proof.
  intros Hin Hsum Hocc Henv Hparts.
  assert (Hs : JS.truthy s = true).
  { apply JSFacts.truthy_true_iff. intros ->.
    destruct Hocc as [before [after Hocc]].
    apply (f_equal String.length) in Hocc.
    rewrite !StringFacts.length_append in Hocc. simpl in Hocc. lia. }
  destruct recentChunks as [| c0 rest]; [destruct Hin |].
  destruct (history_only_injection toLocaleDateString c0 rest)
    as [Hform [tail Htail]].
  assert (Hmark : occursIn "Session Continuation Prompt"
                    (formatContextInjection toLocaleDateString []
                                            (c0 :: rest))).
  { rewrite Hform. apply StringFacts.occursIn_append_l.
    unfold formatSessionHistory. cbn [length Nat.eqb].
    do 6 apply StringFacts.occursIn_append_r.
    apply StringFacts.occursIn_append_l.
    eapply StringFacts.occursIn_trans;
      [| apply StringFacts.occursIn_join;
         apply (in_map (fun c =>
                          "- [" ++ id c ++ "] (" ++
                          toLocaleDateString (createdAt c * 1000)%Z ++
                          "): " ++ formatChunkSummary c) _ c Hin)].
    cbv beta.
    do 5 apply StringFacts.occursIn_append_r.
    unfold formatChunkSummary. rewrite Hsum, Hs. exact Hocc. }
  unfold Events.fetchCompactionSummary. rewrite Henv, rev_app_distr.
  simpl rev. cbn [app Events.scanMessages]. rewrite Hparts.
  cbn [Events.scanParts Events.oc_text Events.oc_type String.eqb Ascii.eqb
       Bool.eqb andb].
  unfold Events.looksLikeSummary.
  rewrite (StringFacts.includes_occursIn _ _ Hmark). cbn [orb andb].
  rewrite Hform at 1 2. rewrite Htail.
  cbn [append JS.truthy String.eqb negb JS.startsWith andb].
  reflexivity.
Qed.

(** Session S is flagged by a first message, deleted, and then given the
    context again. *)
Lemma deleted_session_is_injected_again_witness :
  let flagged :=
    fst (handleChatMessage Demo2.toLocaleDateString Demo2.chatServices 1 2
                           initial_state Demo2.chatInput
                           [Demo2.userText "Hello"]) in
  hasInjectedSession flagged "S" = true /\
  exists context,
    snd (handleChatMessage Demo2.toLocaleDateString Demo2.chatServices 3 4
           (Events.handleEvent Demo.modifiedFiles flagged Demo.env
                               (Events.EvSessionDeleted "S"))
           Demo2.chatInput [Demo2.userText "Hello"]) =
      [context; Demo2.userText "Hello"] /\
    isSynthetic context.
Proof.
  cbv zeta. split; [reflexivity |].
  destruct (deleted_session_is_injected_again Demo.modifiedFiles
              Demo2.toLocaleDateString Demo2.chatServices 3 4
              (fst (handleChatMessage Demo2.toLocaleDateString
                      Demo2.chatServices 1 2 initial_state Demo2.chatInput
                      [Demo2.userText "Hello"]))
              Demo.env Demo2.chatInput [Demo2.userText "Hello"])
    as [context [post [H [Hsyn Hlen]]]].
  - vm_compute. discriminate.
  - discriminate.
  - exists context. split; [| exact Hsyn].
    destruct post as [| x post]; [exact H |].
    exfalso. apply (f_equal (@length Part)) in H. vm_compute in H.
    discriminate H.
Defined.

(** An injection that holds a memory, even one that reads like a summary,
    is passed over; the older real summary is found instead. *)
Lemma memory_injection_is_never_the_summary_witness :
  Events.fetchCompactionSummary
    (Demo2.envAfterInjection Demo2.memoryInjection) <>
    Some Demo2.memoryInjection.
Proof.
  apply (memory_injection_is_never_the_summary Demo2.toLocaleDateString
           [Demo2.headingMemory] [Demo2.narrativeChunk]).
  discriminate.
Defined.

(** The injection built from the narrative chunk alone is taken, ahead of
    the older real summary. *)
Lemma history_only_injection_is_taken_witness :
  Events.fetchCompactionSummary
    (Demo2.envAfterInjection Demo2.historyInjection) =
    Some Demo2.historyInjection.
Proof.
  apply (history_only_injection_is_taken Demo2.toLocaleDateString
           [Demo2.narrativeChunk] Demo2.narrativeChunk Demo.hostNarrative
           (Demo2.envAfterInjection Demo2.historyInjection)
           [Demo2.realSummary]
           (Demo2.injectedMessage Demo2.historyInjection)).
  - left. reflexivity.
  - reflexivity.
  - exists "", ": fixed the bug [ch_1]". reflexivity.
  - reflexivity.
  - reflexivity.
Defined.

End ChatFacts.

(* ================================================================== *)
(** ** The compaction hook                                            *)
(* ================================================================== *)

Module CompactionHookFacts.
Import CompactionHook Props.

(** The line of a chunk occurs in the context text built from a list that
    holds the chunk. *)
Lemma chunkLine_occurs (cs : list Chunk) (c : Chunk) :
  In c cs -> occursIn (chunkLine c) (formatChunksForContext cs).
Proof.
  intros Hin. unfold formatChunksForContext. cbv zeta.
  do 5 apply StringFacts.occursIn_append_r.
  apply StringFacts.occursIn_append_l.
  apply StringFacts.occursIn_join, in_map, Hin.
Qed.

(** X13. The compaction hook leaves its output alone when the session has
    no active chunk; otherwise it appends exactly one context string after
    the ones already there, keeps the prompt, and that string holds, for
    every active chunk of the session, the line [[id]: summary], with the
    chunk's own summary when it has a non-empty one. *)
Theorem compaction_hook_lists_active_chunks
        (st : State) (sessionID : string) (output : CompactionOutput) :
  (ChunkService.getActiveChunks st sessionID = [] ->
   handleCompaction st sessionID output = output) /\
  (ChunkService.getActiveChunks st sessionID <> [] ->
   exists text,
     handleCompaction st sessionID output =
       mkOutput (context output ++ [text])%list (prompt output) /\
     forall c, In c (ChunkService.getActiveChunks st sessionID) ->
               occursIn ("[" ++ id c ++ "]: " ++ summarizeChunk c) text /\
               forall s, summary c = Some s -> s <> "" ->
                         occursIn ("[" ++ id c ++ "]: " ++ s) text).
Proof.
  unfold handleCompaction. split.
  - intros ->. reflexivity.
  - intros Hne.
    destruct (ChunkService.getActiveChunks st sessionID) as [| c0 cs] eqn:E;
      [contradiction Hne; reflexivity |].
    cbn [length Nat.eqb]. eexists. split; [reflexivity |].
    intros c Hin.
    pose proof (chunkLine_occurs (c0 :: cs) c Hin) as Hline.
    split; [exact Hline |].
    intros s Hs Hnonempty. unfold chunkLine, summarizeChunk in Hline.
    rewrite Hs in Hline. apply JSFacts.truthy_true_iff in Hnonempty.
    rewrite Hnonempty in Hline. exact Hline.
Qed.

(** The session of two chunks: one context string, holding the line of
    [ch_1] with its generated summary. *)
Lemma compaction_hook_lists_active_chunks_witness :
  exists text,
    handleCompaction Demo.twoChunks "S" (mkOutput ["earlier"] None) =
      mkOutput ["earlier"; text] None /\
    occursIn
      "[ch_1]: 1 messages, tools: read, write, 1 files modified, outcome: success"
      text /\
    handleCompaction Demo.twoChunks "T" (mkOutput ["earlier"] None) =
      mkOutput ["earlier"] None.
Proof.
  destruct (compaction_hook_lists_active_chunks Demo.twoChunks "S"
              (mkOutput ["earlier"] None)) as [_ Hsome].
  destruct Hsome as [text [Hout Hall]]; [vm_compute; discriminate |].
  exists text. split; [exact Hout |]. split.
  - exact (proj1 (Hall (mkChunk "ch_1" "S"
                                (Demo.taskContent "msg-1" "Task 1")
                                None active 0 [] 1700000001)
                       (or_introl eq_refl))).
  - apply (compaction_hook_lists_active_chunks Demo.twoChunks "T").
    reflexivity.
Defined.

End CompactionHookFacts.

(* ================================================================== *)
(** ** The expand tool: sizes and contents                            *)
(* ================================================================== *)

Module ExpandMore.
Import ExpandTool Props.

Lemma length_join (sep : string) (l : list string) :
  String.length (JS.join sep l) =
    list_sum (map String.length l) + String.length sep * (length l - 1).
Proof.
  induction l as [| x l IH]; [simpl; lia |].
  destruct l as [| y l].
  - simpl. lia.
  - rewrite StringFacts.join_cons, !StringFacts.length_append, IH.
    simpl. lia.
Qed.

Lemma fold_sum {A : Type} (f : A -> nat) (l : list A) (a : nat) :
  fold_left (fun sum x => sum + f x) l a = a + list_sum (map f l).
Proof.
  revert a. induction l as [| x l IH]; intros a; simpl; [lia |].
  rewrite IH. lia.
Qed.

(** Four times a sum of estimates stays within three per item of the sum
    of the lengths. *)
Lemma estimates_sum (l : list string) :
  list_sum (map String.length l) <= 4 * list_sum (map estimateTokens l) /\
  4 * list_sum (map estimateTokens l) <=
    list_sum (map String.length l) + 3 * length l.
Proof.
  induction l as [| x l [IHlo IHhi]]; simpl; [lia |].
  destruct (ExpandFacts.estimateTokens_ceil x) as [Hlo Hhi]. lia.
Qed.

(** The response of the tool in preview mode, when the chunk is found. *)
Lemma execute_preview_shape
      (toISOString : Z -> string) (stringify : Json -> string)
      (st : State) (args : Args) :
  ChunkService.expand st (chunk_id args) (include_children args) <> [] ->
  preview_only args = Some true ->
  let chunks :=
    ChunkService.expand st (chunk_id args) (include_children args) in
  let total :=
    list_sum (map (fun c =>
                     estimateTokens
                       (formatChunkContent toISOString stringify c))
                  chunks) in
  exists previews,
    execute toISOString stringify st args =
      Preview (length chunks) total previews
              (if (LARGE_RESPONSE_TOKEN_THRESHOLD <? total)%nat
               then "Full expansion would be ~" ++ JS.show total ++
                    " tokens. Consider using a subagent for detailed analysis."
               else "Use preview_only=false for full content.").
Proof.
  intros Hfound Hprev. cbv zeta. unfold execute. rewrite Hprev.
  destruct (ChunkService.expand st (chunk_id args) (include_children args))
    as [| c cs] eqn:E; [contradiction |].
  cbn [length Nat.eqb]. rewrite fold_sum. cbn [Nat.add].
  eexists. reflexivity.
Qed.

(** X14. Between a preview and the full expansion of the same chunks: the
    preview's [estimated_full_tokens] is the sum of the chunks' own
    estimates, and for [k] chunks the full expansion's [estimated_tokens]
    lies between that sum plus [k - 1] and that sum plus [2 (k - 1)]; for
    one chunk the two numbers are equal. *)
Theorem preview_estimate_tracks_full
        (toISOString : Z -> string) (stringify : Json -> string)
        (st : State) (chunkId : string) (includeChildren : option bool) :
  ChunkService.expand st chunkId includeChildren <> [] ->
  let k := length (ChunkService.expand st chunkId includeChildren) in
  exists total previews hint tokens content warning,
    execute toISOString stringify st
            (mkArgs chunkId includeChildren (Some true)) =
      Preview k total previews hint /\
    execute toISOString stringify st
            (mkArgs chunkId includeChildren None) =
      Full k tokens content warning /\
    total =
      list_sum (map (fun c =>
                       estimateTokens
                         (formatChunkContent toISOString stringify c))
                    (ChunkService.expand st chunkId includeChildren)) /\
    total + (k - 1) <= tokens /\ tokens <= total + 2 * (k - 1).
Proof.
  intros Hfound. cbv zeta.
  destruct (execute_preview_shape toISOString stringify st
              (mkArgs chunkId includeChildren (Some true)) Hfound eq_refl)
    as [previews Hp].
  pose proof (ExpandFacts.execute_full_shape toISOString stringify st
                (mkArgs chunkId includeChildren None) Hfound
                ltac:(discriminate)) as Hf.
  cbv zeta in Hp, Hf. cbn [chunk_id include_children] in Hp, Hf.
  eexists. eexists. eexists. eexists. eexists. eexists.
  split; [exact Hp |]. split; [exact Hf |]. split; [reflexivity |].
  set (chunks := ChunkService.expand st chunkId includeChildren) in *.
  set (texts := map (formatChunkContent toISOString stringify) chunks).
  assert (Hmap : map (fun c => estimateTokens
                                 (formatChunkContent toISOString stringify c))
                     chunks = map estimateTokens texts)
    by (unfold texts; rewrite map_map; reflexivity).
  rewrite Hmap.
  destruct (estimates_sum texts) as [Hlo Hhi].
  destruct (ExpandFacts.estimateTokens_ceil (JS.join divider texts))
    as [Flo Fhi].
  rewrite length_join in Flo, Fhi.
  assert (Hk : length texts = length chunks)
    by (unfold texts; apply length_map).
  assert (Hd : String.length divider = 7) by reflexivity.
  assert (Hpos : 1 <= length chunks)
    by (destruct chunks; [contradiction | simpl; lia]).
  rewrite Hk, Hd in *. lia.
Qed.

(** The summary chunk with its two children: three chunks, and a full
    estimate two to four tokens above the preview's. *)
Lemma preview_estimate_tracks_full_witness :
  exists total previews hint tokens content warning,
    execute Demo.toISOString Demo.stringify Demo.compactedOnce
            (mkArgs "ch_3" (Some true) (Some true)) =
      Preview 3 total previews hint /\
    execute Demo.toISOString Demo.stringify Demo.compactedOnce
            (mkArgs "ch_3" (Some true) None) =
      Full 3 tokens content warning /\
    total + 2 <= tokens /\ tokens <= total + 4.
Proof.
  destruct (preview_estimate_tracks_full Demo.toISOString Demo.stringify
              Demo.compactedOnce "ch_3" (Some true))
    as [total [previews [hint [tokens [content [warning
          [Hp [Hf [_ [Hlo Hhi]]]]]]]]]].
  - vm_compute. discriminate.
  - exists total, previews, hint, tokens, content, warning.
    split; [exact Hp |]. split; [exact Hf |]. split; [exact Hlo | exact Hhi].
Defined.

(** What a truncated input and a truncated output can measure. *)
Lemma truncated_length (limit : nat) (s : string) :
  String.length
    (if (limit <? String.length s)%nat
     then substring 0 limit s ++ nl ++ "... (truncated)"
     else s) <= limit + 16.
Proof.
  destruct (Nat.ltb_spec limit (String.length s)) as [H | H]; [| lia].
  rewrite !StringFacts.length_append, StringFacts.length_substring.
  simpl. lia.
Qed.

(** X15. A formatted tool part is bounded whatever the tool received and
    returned: its length is at most the length of the tool's name plus
    2579, the input being cut at 500 characters and the output at 2000. *)
Theorem tool_part_is_bounded
        (stringify : Json -> string)
        (part : ChunkMessagePart) (name : string) :
  part_type part = Tool -> part_tool part = Some name ->
  String.length (formatMessagePart stringify part) <=
    String.length name + 2579.
Proof.
  intros Htype Hname. unfold formatMessagePart. rewrite Htype, Hname.
  destruct (JS.truthy name); cbn [negb]; [| simpl; lia].
  destruct (part_input part) as [input |];
    [pose proof (truncated_length 500 (stringify input)) as Hin;
     destruct (json_truthy input) |];
    (destruct (part_output part) as [output |];
     [pose proof (truncated_length 2000 output) as Hout;
      destruct (JS.truthy output) |]);
    repeat match goal with
           | |- context [if (?n <? ?l)%nat then ?a else ?b] =>
               let t := fresh "t" in
               set (t := if (n <? l)%nat then a else b) in *; clearbody t
           end;
    cbn [app]; rewrite length_join; cbn [map list_sum fold_right length];
    rewrite !StringFacts.length_append; simpl; lia.
Qed.

(** A bash call that printed 5000 characters formats to at most 2583. *)
Lemma tool_part_is_bounded_witness :
  String.length (formatMessagePart Demo.stringify Demo2.bigTool) <= 2583.
Proof.
  exact (tool_part_is_bounded Demo.stringify Demo2.bigTool "bash"
           eq_refl eq_refl).
Defined.

(** A line of a message is a line of the formatted chunk. *)
Lemma message_line_occurs
      (toISOString : Z -> string) (stringify : Json -> string)
      (c : Chunk) (m : ChunkMessage) (line : string) :
  In m (messages (content c)) ->
  In line (messageLines toISOString stringify m) ->
  occursIn line (formatChunkContent toISOString stringify c).
Proof.
  intros Hm Hline.
  assert (Hflat : In line (flat_map (messageLines toISOString stringify)
                                    (messages (content c))))
    by (apply in_flat_map; exists m; auto).
  unfold formatChunkContent. cbv zeta. apply StringFacts.occursIn_join.
  destruct (summary c) as [s |]; [destruct (JS.truthy s) |];
    (destruct (files_modified (metadata (content c))) as [fs |];
     [destruct (0 <? length fs)%nat |]);
    (destruct (tools_used (metadata (content c))) as [ts |];
     [destruct (0 <? length ts)%nat |]);
    eauto 12 using in_or_app.
Qed.

(** The header of a chunk is the first line of its formatted content. *)
Lemma header_occurs
      (toISOString : Z -> string) (stringify : Json -> string) (c : Chunk) :
  occursIn ("## Chunk " ++ id c)
           (formatChunkContent toISOString stringify c).
Proof.
  unfold formatChunkContent. cbv zeta. apply StringFacts.occursIn_join.
  destruct (summary c) as [s |]; [destruct (JS.truthy s) |];
    (destruct (files_modified (metadata (content c))) as [fs |];
     [destruct (0 <? length fs)%nat |]);
    (destruct (tools_used (metadata (content c))) as [ts |];
     [destruct (0 <? length ts)%nat |]);
    repeat (apply in_or_app; left); left; reflexivity.
Qed.

(** X16. A full expansion shows the text of messages whole: for every chunk
    it expands, the content holds the header [## Chunk id] and, uncut, the
    text of every non-empty text part of every message of the chunk. *)
Theorem full_expansion_holds_every_text
        (toISOString : Z -> string) (stringify : Json -> string)
        (st : State) (args : Args)
        (c : Chunk) (m : ChunkMessage) (p : ChunkMessagePart) (t : string) :
  preview_only args <> Some true ->
  In c (ChunkService.expand st (chunk_id args) (include_children args)) ->
  In m (messages (content c)) -> In p (msg_parts m) ->
  part_type p = Text -> part_text p = Some t -> t <> "" ->
  exists n tokens content warning,
    execute toISOString stringify st args = Full n tokens content warning /\
    occursIn ("## Chunk " ++ id c) content /\
    occursIn t content.
Proof.
  intros Hfull Hc Hm Hp Htype Htext Hne.
  assert (Hfound : ChunkService.expand st (chunk_id args)
                                       (include_children args) <> [])
    by (intros E; rewrite E in Hc; destruct Hc).
  pose proof (ExpandFacts.execute_full_shape toISOString stringify st args
                Hfound Hfull) as Hshape.
  cbv zeta in Hshape.
  eexists. eexists. eexists. eexists. split; [exact Hshape |].
  assert (Hin : In (formatChunkContent toISOString stringify c)
                   (map (formatChunkContent toISOString stringify)
                        (ChunkService.expand st (chunk_id args)
                                             (include_children args))))
    by (apply in_map, Hc).
  apply (StringFacts.occursIn_join divider) in Hin.
  split.
  - eapply StringFacts.occursIn_trans; [apply header_occurs | exact Hin].
  - eapply StringFacts.occursIn_trans; [| exact Hin].
    apply (message_line_occurs toISOString stringify c m t Hm).
    unfold messageLines. right. apply filter_In. split.
    + apply in_map_iff. exists p. split; [| exact Hp].
      unfold formatMessagePart. rewrite Htype, Htext. simpl.
      apply JSFacts.truthy_true_iff in Hne. rewrite Hne. reflexivity.
    + apply JSFacts.truthy_true_iff, Hne.
Qed.

(** The child [ch_1] of the summary chunk: its header and the text
    [Task 1] are in the expansion with children. *)
Lemma full_expansion_holds_every_text_witness :
  exists n tokens content warning,
    execute Demo.toISOString Demo.stringify Demo.compactedOnce
            Demo.expandSummary = Full n tokens content warning /\
    occursIn "## Chunk ch_1" content /\ occursIn "Task 1" content.
Proof.
  apply (full_expansion_holds_every_text Demo.toISOString Demo.stringify
           Demo.compactedOnce Demo.expandSummary
           (set_status compacted
              (mkChunk "ch_1" "S" (Demo.taskContent "msg-1" "Task 1")
                       None active 0 [] 1700000001))
           (Demo.textMessage "msg-1" "Task 1")
           (mkPart Text (Some "Task 1") None None None) "Task 1").
  - discriminate.
  - right. left. reflexivity.
  - left. reflexivity.
  - left. reflexivity.
  - reflexivity.
  - reflexivity.
  - discriminate.
Defined.

End ExpandMore.

(* ================================================================== *)
(** ** The history tool: what every answer lists                      *)
(* ================================================================== *)

Module HistoryMore.
Import HistoryTool Props.

(** The summary shown for a chunk is never empty. *)
Lemma summaryOrCount_nonempty (c : Chunk) : summaryOrCount c <> "".
Proof.
  unfold summaryOrCount, JS.or_else.
  destruct (summary c) as [s |];
    [destruct (JS.truthy s) eqn:E;
     [apply JSFacts.truthy_true_iff; exact E |] |];
    intros H; apply (f_equal String.length) in H;
    rewrite StringFacts.length_append in H; simpl in H; lia.
Qed.

(** [Math.ceil] of a multiple of four, divided by four. *)
Lemma ceil_div_four (k : nat) : JS.ceil_div (4 * k) 4 = k.
Proof.
  unfold JS.ceil_div. rewrite (Nat.mul_comm 4 k).
  rewrite Nat.div_mul by lia. rewrite Nat.Div0.mod_mul. simpl. lia.
Qed.

(** The cost of one result: five tokens a character of summary, and 500
    at least. *)
Lemma expandedCost_step (n : nat) (r : SearchResult) :
  expandedCost n r =
    n + Nat.max (5 * String.length (JS.or_else (summary (chunk r)) "")) 500.
Proof.
  unfold expandedCost, CHARS_PER_TOKEN. cbv zeta.
  generalize (String.length (JS.or_else (summary (chunk r)) "")).
  intros L.
  assert (E : Nat.max (L * 20) 2000 = 4 * Nat.max (5 * L) 500)
    by (destruct (Nat.max_spec (L * 20) 2000) as [[? ->] | [? ->]];
        destruct (Nat.max_spec (5 * L) 500) as [[? ->] | [? ->]]; lia).
  rewrite E, ceil_div_four. reflexivity.
Qed.

Lemma expandedCost_sum (rs : list SearchResult) (n : nat) :
  fold_left expandedCost rs n =
    n + list_sum
          (map (fun r =>
                  Nat.max (5 * String.length
                                 (JS.or_else (summary (chunk r)) "")) 500)
               rs).
Proof.
  revert n. induction rs as [| r rs IH]; intros n;
    cbn [fold_left map list_sum fold_right]; [lia |].
  rewrite IH, expandedCost_step. fold (list_sum
    (map (fun r0 =>
            Nat.max (5 * String.length
                           (JS.or_else (summary (chunk r0)) "")) 500) rs)).
  lia.
Qed.

(** X17. Every answer of the history tool lists exactly the chunks the
    service returned, in its order: the recent chunks of the resolved
    session when there is no query or a blank one, the chunks of the search
    results for the trimmed query otherwise.  Each is listed under its id
    with its stored summary when that is not empty and with [N messages], N
    the number of its messages, otherwise, so never with an empty text; and
    the count is the number of those chunks. *)
Theorem history_entries_well_formed
        (chunkService : ChunkQueries) (toISOString : Z -> string)
        (stringify : list SearchEntry -> string)
        (args : Args) (context : ToolContext) :
  let r := execute chunkService toISOString stringify args context in
  let sid := fst (resolveScope args context) in
  let recent :=
    getRecentChunks chunkService (mkRecentOptions sid (limitOf args)) in
  let listed :=
    match query args with
    | Some q =>
        if JS.trim q =? "" then recent
        else map chunk
                 (search chunkService (JS.trim q)
                         (mkSearchOptions sid (depth_arg args)
                                          (limitOf args)))
    | None => recent
    end in
  listedIds r = map id listed /\
  listedSummaries r =
    map (fun c =>
           match summary c with
           | Some (String a s) => String a s
           | _ => JS.show (length (messages (content c))) ++ " messages"
           end) listed /\
  countOf r = length listed /\
  Forall (fun s => s <> "") (listedSummaries r).
Proof.
  cbv zeta.
  assert (Hshown : forall c,
             summaryOrCount c =
               match summary c with
               | Some (String a s) => String a s
               | _ => JS.show (length (messages (content c))) ++ " messages"
               end).
  { intros c. unfold summaryOrCount, JS.or_else.
    destruct (summary c) as [[| a s] |]; reflexivity. }
  assert (Hne : forall l : list Chunk,
             Forall (fun s => s <> "") (map summaryOrCount l)).
  { intros l. apply Forall_forall. intros s Hs.
    apply in_map_iff in Hs. destruct Hs as [c [<- _]].
    apply summaryOrCount_nonempty. }
  unfold execute.
  destruct (resolveScope args context) as [sid scope]. cbn [fst]. cbv zeta.
  destruct (query args) as [q |].
  - cbn [JS.truthy_opt JS.or_else].
    assert (Ht : JS.truthy (JS.trim q) = negb (JS.trim q =? ""))
      by reflexivity.
    destruct (JS.trim q =? "") eqn:Eq; cbn [negb] in Ht; rewrite !Ht;
      cbn [negb].
    + destruct (getRecentChunks chunkService
                  (mkRecentOptions sid (limitOf args))) as [| c cs].
      * cbn. repeat split. constructor.
      * cbn [length Nat.eqb listedIds listedSummaries countOf].
        rewrite !map_map, length_map. repeat split.
        -- apply map_ext. exact Hshown.
        -- apply (Hne (c :: cs)).
    + destruct (search chunkService (JS.trim q)
                       (mkSearchOptions sid (depth_arg args) (limitOf args)))
        as [| r rs].
      * cbn. repeat split. constructor.
      * cbn [length Nat.eqb listedIds listedSummaries countOf].
        rewrite !map_map, !length_map. repeat split.
        -- apply map_ext. intros x. apply Hshown.
        -- rewrite <- (map_map chunk summaryOrCount).
           apply (Hne (map chunk (r :: rs))).
  - cbn [JS.truthy_opt negb].
    destruct (getRecentChunks chunkService
                (mkRecentOptions sid (limitOf args))) as [| c cs].
    + cbn. repeat split. constructor.
    + cbn [length Nat.eqb listedIds listedSummaries countOf].
      rewrite !map_map, length_map. repeat split.
      * apply map_ext. exact Hshown.
      * apply (Hne (c :: cs)).
Qed.

(** X18. A query of white space only is no query: the tool answers with the
    recent chunks exactly as it does without a query.  It does not search
    (the answer is the same for any two services that list the same recent
    chunks), and neither [depth] nor the serializer of the entries has a
    part in it. *)
Theorem blank_query_lists_recent
        (toISOString : Z -> string)
        (stringify1 stringify2 : list SearchEntry -> string)
        (q : string) (all : option bool) (ids : option (list string))
        (depth1 depth2 : option nat) (lim : option nat)
        (context : ToolContext) (service1 service2 : ChunkQueries) :
  JS.all_space q = true ->
  (forall o, getRecentChunks service1 o = getRecentChunks service2 o) ->
  execute service1 toISOString stringify1
          (mkArgs (Some q) all ids depth1 lim) context =
  execute service2 toISOString stringify2
          (mkArgs None all ids depth2 lim) context.
Proof.
  intros Hq Hrecent. apply JSFacts.trim_empty_iff in Hq.
  unfold execute.
  replace (resolveScope (mkArgs (Some q) all ids depth1 lim) context)
    with (resolveScope (mkArgs None all ids depth2 lim) context)
    by reflexivity.
  destruct (resolveScope (mkArgs None all ids depth2 lim) context)
    as [sid scope].
  cbn [query]. rewrite Hq. cbn [JS.truthy_opt JS.truthy String.eqb negb].
  rewrite Hrecent. reflexivity.
Qed.

(** Three blanks with a depth, against a service that would find every
    chunk: the answer is the listing of the five recent chunks. *)
Lemma blank_query_lists_recent_witness :
  execute (Demo.serviceOver Demo.fiveTasks) Demo.toISOString
          Demo.stringifyEntries Demo2.blankQuery Demo.inSession1 =
  execute (mkQueries (fun _ _ => [])
                     (getRecentChunks (Demo.serviceOver Demo.fiveTasks)))
          Demo.toISOString Demo.stringifyEntries Demo2.noQuery
          Demo.inSession1.
Proof.
  apply (blank_query_lists_recent Demo.toISOString Demo.stringifyEntries
           Demo.stringifyEntries "   " None None (Some 2) None None
           Demo.inSession1).
  - reflexivity.
  - intros o. reflexivity.
Defined.

(** X19. For a query with results, the entries mirror the results one by
    one, in the service's order, with its ranks; [estimated_tokens] is the
    estimate of the serialized entries, and [estimated_expanded_tokens] is
    the sum over the results of five tokens a character of summary, with
    500 as the least for a result. *)
Theorem search_entries_mirror_results
        (chunkService : ChunkQueries) (toISOString : Z -> string)
        (stringify : list SearchEntry -> string)
        (args : Args) (context : ToolContext) (q : string) :
  query args = Some q -> JS.trim q <> "" ->
  let results :=
    search chunkService (JS.trim q)
           (mkSearchOptions (fst (resolveScope args context))
                            (depth_arg args) (limitOf args)) in
  results <> [] ->
  exists tokens expanded entries hint warning,
    execute chunkService toISOString stringify args context =
      Search (length results) (snd (resolveScope args context)) (JS.trim q)
             tokens expanded entries hint warning /\
    map se_id entries = map (fun r => id (chunk r)) results /\
    map se_sessionId entries = map (fun r => sessionId (chunk r)) results /\
    map se_rank entries = map rank results /\
    tokens = estimateTokens (stringify entries) /\
    expanded =
      list_sum
        (map (fun r =>
                Nat.max (5 * String.length
                               (JS.or_else (summary (chunk r)) "")) 500)
             results).
Proof.
  intros Hq Hnb. cbv zeta. intros Hres. unfold execute.
  destruct (resolveScope args context) as [sid scope]. rewrite Hq.
  cbn [JS.truthy_opt fst snd] in *.
  apply JSFacts.truthy_true_iff in Hnb. rewrite Hnb. cbn [negb JS.or_else].
  rewrite Hnb.
  destruct (search chunkService (JS.trim q)
                   (mkSearchOptions sid (depth_arg args) (limitOf args)))
    as [| r rs] eqn:E; [contradiction |].
  cbn [length Nat.eqb].
  eexists. eexists. eexists. eexists. eexists.
  split; [reflexivity |].
  rewrite !map_map. repeat split.
  rewrite expandedCost_sum. reflexivity.
Qed.

(** Five chunks without a summary: 500 tokens each. *)
Lemma search_entries_mirror_results_witness :
  expandedTokensOf
    (execute (Demo.serviceOver Demo.fiveTasks) Demo.toISOString
             Demo.stringifyEntries Demo.searchTask Demo.inSession1) =
  Some 2500.
Proof.
  destruct (search_entries_mirror_results (Demo.serviceOver Demo.fiveTasks)
              Demo.toISOString Demo.stringifyEntries Demo.searchTask
              Demo.inSession1 "Task")
    as [tokens [expanded [entries [hint [warning [Hx [_ [_ [_ [_ Hexp]]]]]]]]]].
  - reflexivity.
  - vm_compute. discriminate.
  - vm_compute. discriminate.
  - rewrite Hx. simpl expandedTokensOf. rewrite Hexp. vm_compute.
    reflexivity.
Defined.

End HistoryMore.

(* ================================================================== *)
(** ** The logger                                                     *)
(* ================================================================== *)

Module LoggingFacts.
Import Logging Props.

Lemma causeChain_cons (e : JsError) :
  exists x rest, causeChain e = x :: rest.
Proof. destruct e as [m c]. simpl. eexists. eexists. reflexivity. Qed.

(** At depth [d] the formatter prints the first [11 - d] messages. *)
Lemma formatError_chain (e : JsError) :
  forall d, d <= 10 ->
  formatError e d =
    JS.join " Caused by: " (firstn (11 - d) (causeChain e)).
Proof.
  revert e. fix IH 1. intros [m [inner |]] d Hd.
  - simpl formatError. simpl causeChain.
    destruct (Nat.ltb_spec d 10) as [Hlt | Hge].
    + rewrite (IH inner (d + 1)) by lia.
      replace (11 - d) with (S (S (9 - d))) by lia.
      replace (11 - (d + 1)) with (S (9 - d)) by lia.
      destruct (causeChain_cons inner) as [x [rest E]]. rewrite E.
      reflexivity.
    + replace (11 - d) with 1 by lia. reflexivity.
  - simpl formatError. simpl causeChain.
    replace (11 - d) with (S (10 - d)) by lia. simpl. rewrite firstn_nil.
    reflexivity.
Qed.

(** X20. An error is logged as its message followed by the messages of its
    causes, joined by [ Caused by: ] and cut after the tenth cause: eleven
    messages at most.  The extra record of a log call is formatted entry by
    entry, whatever its size: every key stays where it is, an error value
    is replaced by that text, any other value is kept; and no record stays
    no record. *)
Theorem error_chain_is_cut_after_ten_causes :
  (forall e,
      formatError e 0 = JS.join " Caused by: " (firstn 11 (causeChain e))) /\
  formatExtra None = None /\
  (forall entries,
      exists formatted,
        formatExtra (Some entries) = Some formatted /\
        Forall2 (fun given shown =>
                   fst shown = fst given /\
                   match snd given with
                   | Thrown e =>
                       snd shown =
                         JStr (JS.join " Caused by: "
                                       (firstn 11 (causeChain e)))
                   | Plain v => snd shown = v
                   end) entries formatted).
Proof.
  assert (H : forall e,
             formatError e 0 =
               JS.join " Caused by: " (firstn 11 (causeChain e)))
    by (intros e; apply (formatError_chain e 0); lia).
  split; [exact H |]. split; [reflexivity |].
  intros entries. eexists. split; [reflexivity |].
  induction entries as [| [key value] entries IH]; [constructor |].
  cbn [map]. constructor; [| exact IH].
  destruct value as [v | e]; cbn [fst snd]; split; try reflexivity.
  rewrite H. reflexivity.
Qed.

(** X21. With the default configuration (no debug, no file) and no client,
    the logger is silent: initializing it creates no directory and writes no
    start-up line, it reports itself disabled with no path, and no later
    log call at any level has an effect. *)
Theorem logger_is_quiet_by_default
        (join : list string -> string) (dirname : string -> string)
        (existsSync : string -> bool) (platform homedir : string)
        (APPDATA XDG_DATA_HOME : option string)
        (stringify : list (string * Json) -> string)
        (s : Statics) (isoNow : string) (cfg : LoggingConfig)
        (storagePath : string) :
  instance s = None -> client s = None ->
  cfg_debug cfg = false -> JS.truthy_opt (cfg_file cfg) = false ->
  exists s' l,
    initialize join dirname existsSync platform homedir APPDATA
               XDG_DATA_HOME stringify s isoNow cfg storagePath =
      (s', l, []) /\
    instance s' = Some l /\
    isEnabled s' l = false /\
    getPath l = None /\
    forall now level message extra,
      logVia stringify s' now level message extra = [].
Proof.
  intros Hi Hc Hd Hf. unfold initialize, newLogger. rewrite Hi, Hd, Hf.
  cbv zeta. cbv beta iota. rewrite Hc.
  eexists. eexists. split.
  - unfold log, writeToFile. cbn. reflexivity.
  - unfold isEnabled, logVia, log, writeToFile. cbn. rewrite Hd.
    repeat split.
    intros now level message extra. destruct (negb _); reflexivity.
Qed.

(** A fresh process with the default configuration. *)
Lemma logger_is_quiet_by_default_witness :
  exists s' l,
    initialize Demo2.pathJoin Demo2.pathDirname (fun _ => false) "linux"
               "/home/u" None None Demo2.logStringify Demo2.freshStatics
               "2024-01-01T00:00:00.000Z" Demo2.defaultLogging "/data" =
      (s', l, []) /\
    instance s' = Some l /\
    isEnabled s' l = false /\
    getPath l = None /\
    forall now level message extra,
      logVia Demo2.logStringify s' now level message extra = [].
Proof.
  apply (logger_is_quiet_by_default Demo2.pathJoin Demo2.pathDirname
           (fun _ => false) "linux" "/home/u" None None Demo2.logStringify
           Demo2.freshStatics "2024-01-01T00:00:00.000Z"
           Demo2.defaultLogging "/data");
    reflexivity.
Defined.

(** X22. The logger is a singleton: once [initialize] has returned, a
    second call returns the same instance whatever configuration and
    storage path it is given, changes nothing and has no effect. *)
Theorem initialize_is_sticky
        (join : list string -> string) (dirname : string -> string)
        (existsSync : string -> bool) (platform homedir : string)
        (APPDATA XDG_DATA_HOME : option string)
        (stringify : list (string * Json) -> string)
        (s : Statics) (now1 now2 : string) (cfg1 cfg2 : LoggingConfig)
        (path1 path2 : string) :
  let first :=
    initialize join dirname existsSync platform homedir APPDATA
               XDG_DATA_HOME stringify s now1 cfg1 path1 in
  initialize join dirname existsSync platform homedir APPDATA
             XDG_DATA_HOME stringify (fst (fst first)) now2 cfg2 path2 =
    (fst (fst first), snd (fst first), []).
Proof.
  cbv zeta. unfold initialize at 2 3 4.
  destruct (instance s) as [l |] eqn:E.
  - cbn [fst snd]. unfold initialize. rewrite E. reflexivity.
  - destruct (newLogger join dirname existsSync platform homedir APPDATA
                        XDG_DATA_HOME cfg1 path1) as [l created].
    cbn [fst snd]. unfold initialize. cbn [instance]. reflexivity.
Qed.

(** X23. A log call has no effect exactly when its level is below the
    logger's minimum, or there is neither a client nor a fallback path.
    For a logger made by the constructor, the only level ever below the
    minimum is debug, and that exactly when the configuration has debug
    off. *)
Theorem log_is_silent_iff
        (join : list string -> string) (dirname : string -> string)
        (existsSync : string -> bool) (platform homedir : string)
        (APPDATA XDG_DATA_HOME : option string)
        (stringify : list (string * Json) -> string)
        (s : Statics) (l : Logger) (now : string) (level : LogLevel)
        (message : string) (extra : option (list (string * ExtraValue)))
        (cfg : LoggingConfig) (storagePath : string) :
  (log stringify s l now level message extra = [] <->
   shouldLog l level = false \/
   (client s = None /\ JS.truthy_opt (getPath l) = false)) /\
  (shouldLog (fst (newLogger join dirname existsSync platform homedir
                             APPDATA XDG_DATA_HOME cfg storagePath))
             level = false <->
   level = debug /\ cfg_debug cfg = false).
Proof.
  split.
  - unfold log, writeToFile, getPath.
    destruct (shouldLog l level); cbn [negb].
    + destruct (client s) as [c |].
      * destruct (c _); split;
          [discriminate | intros [H | [H _]]; discriminate
          | discriminate | intros [H | [H _]]; discriminate].
      * destruct (fallbackPath l) as [p |]; cbn [JS.truthy_opt].
        -- destruct (JS.truthy p); cbn [negb]; split;
             [discriminate | intros [H | [_ H]]; discriminate
             | auto | reflexivity].
        -- split; auto.
    + split; auto.
  - unfold newLogger, shouldLog. cbn [fst minLevel].
    destruct (cfg_debug cfg); destruct level; cbn; split;
      solve [ discriminate | intros [H1 H2]; discriminate | auto ].
Qed.

Lemma prefix_app_cancel (a b c : string) :
  String.prefix (a ++ b) (a ++ c) = String.prefix b c.
Proof.
  induction a as [| x a IH]; [reflexivity |].
  cbn [append String.prefix].
  destruct (Ascii.ascii_dec x x) as [_ | N]; [exact IH | contradiction N].
  reflexivity.
Qed.

(** The line [writeToFile] appends, and where. *)
Lemma writeToFile_line
      (stringify : list (string * Json) -> string)
      (l : Logger) (now : string) (level : LogLevel) (message : string)
      (extra : option (list (string * Json))) (path line : string) :
  In (AppendFile path line)
     (writeToFile stringify l now level message extra) ->
  fallbackPath l = Some path /\
  String.prefix (padEnd (upperName level) 5 ++ " " ++ beforeDot now ++
                 " service=memoir " ++ message) line = true.
Proof.
  unfold writeToFile.
  destruct (fallbackPath l) as [p |]; [| intros []].
  destruct (negb (JS.truthy p)); [intros [] |].
  cbv zeta. intros [H | []].
  match type of H with
  | AppendFile _ ?written = _ =>
      assert (Hl : written = line) by (injection H; auto);
      assert (Hp : p = path) by (injection H; auto)
  end.
  clear H. subst p. rewrite <- Hl. clear Hl.
  split; [reflexivity |].
  rewrite (prefix_app_cancel (padEnd (upperName level) 5)).
  rewrite (prefix_app_cancel " "), (prefix_app_cancel (beforeDot now)).
  rewrite (prefix_app_cancel " service=memoir ").
  apply StringFacts.prefix_append.
Qed.

(** X24. A line goes to a file only as the fallback: when the level passes
    and the client is missing or has rejected the same message.  The file
    is the one [getPath] names, and the line begins with the level padded
    to five characters, the timestamp cut at its first dot, the service
    name and the message. *)
Theorem file_is_only_the_fallback
        (stringify : list (string * Json) -> string)
        (s : Statics) (l : Logger) (now : string) (level : LogLevel)
        (message : string) (extra : option (list (string * ExtraValue)))
        (path line : string) :
  In (AppendFile path line) (log stringify s l now level message extra) ->
  getPath l = Some path /\
  shouldLog l level = true /\
  (client s = None \/
   exists c, client s = Some c /\
             c (mkBody "memoir" level message (formatExtra extra)) = false) /\
  String.length (padEnd (upperName level) 5) = 5 /\
  String.prefix (padEnd (upperName level) 5 ++ " " ++ beforeDot now ++
                 " service=memoir " ++ message) line = true.
Proof.
  unfold log, getPath. intros Hin.
  assert (Hpad : String.length (padEnd (upperName level) 5) = 5)
    by (destruct level; reflexivity).
  destruct (shouldLog l level); cbn [negb] in Hin; [| destruct Hin].
  cbv zeta in Hin.
  destruct (client s) as [c |].
  - destruct (c (mkBody "memoir" level message (formatExtra extra))) eqn:Ec.
    + destruct Hin as [H | []]; discriminate.
    + destruct Hin as [H | Hin]; [discriminate |].
      destruct (writeToFile_line _ _ _ _ _ _ _ _ Hin) as [Hp Hl].
      repeat split; auto. right. exists c. auto.
  - destruct (writeToFile_line _ _ _ _ _ _ _ _ Hin) as [Hp Hl].
    repeat split; auto.
Qed.

(** A logger with a log file and a client that rejects: the warning goes
    to the file. *)
Lemma file_is_only_the_fallback_witness :
  getPath (fst (newLogger Demo2.pathJoin Demo2.pathDirname (fun _ => true)
                          "linux" "/home/u" None None Demo2.fileLogging
                          "/data")) =
    Some "/data/memoir.log" /\
  String.prefix "WARN  2024-01-01T00:00:00 service=memoir disk full"
    ("WARN  2024-01-01T00:00:00 service=memoir disk full" ++ nl) = true.
Proof.
  destruct (file_is_only_the_fallback Demo2.logStringify
              (mkStatics None (Some Demo2.rejectingClient))
              (fst (newLogger Demo2.pathJoin Demo2.pathDirname
                              (fun _ => true) "linux" "/home/u" None None
                              Demo2.fileLogging "/data"))
              "2024-01-01T00:00:00.000Z" warn "disk full" None
              "/data/memoir.log"
              ("WARN  2024-01-01T00:00:00 service=memoir disk full" ++ nl))
    as [Hp [_ [_ [_ Hl]]]].
  - right. left. reflexivity.
  - split; [exact Hp | exact Hl].
Defined.

End LoggingFacts.

(* ================================================================== *)
(** ** From the event stream to the expand tool                       *)
(* ================================================================== *)

Section AssocMembers.
Context {V : Type}.

Lemma aset_holds (k : string) (v : V) (m : list (string * V)) :
  In v (map snd (aset k v m)).
Proof.
  induction m as [| [k' v'] m IH]; simpl; [left; reflexivity |].
  destruct (k =? k'); simpl; auto.
Qed.

Lemma aset_not_nil (k : string) (v : V) (m : list (string * V)) :
  aset k v m <> [].
Proof.
  destruct m as [| [k' v'] m]; simpl; [discriminate |].
  destruct (k =? k'); discriminate.
Qed.

End AssocMembers.

Module RoundTrip.
Import Events Props.

(** A chunk appended under an id no stored chunk has is the one found. *)
Lemma getChunk_appended
      (tr : Tracker.t) (cs : list Chunk) (inj : list string) (c : Chunk) :
  (forall c', In c' cs -> id c' <> id c) ->
  ChunkService.getChunk (mkState tr (cs ++ [c])%list inj) (id c) = Some c.
Proof.
  intros Hfresh. unfold ChunkService.getChunk. simpl chunks.
  induction cs as [| c0 cs IH]; simpl.
  - rewrite String.eqb_refl. reflexivity.
  - destruct (String.eqb_spec (id c0) (id c)) as [E | _].
    + contradiction (Hfresh c0 (or_introl eq_refl)).
    + apply IH. intros c' Hc'. apply Hfresh. right. exact Hc'.
Qed.

(** After message.updated with a role the hook takes, the message has a
    draft, and nothing but the tracker has changed. *)
Lemma message_updated_known
      (mf : string -> option Json -> list string)
      (st : State) (env : Env) (info : Message) :
  m_role info = "user" \/ m_role info = "assistant" ->
  exists tr d,
    handleEvent mf st env (EvMessageUpdated info) = with_tracker st tr /\
    alookup (m_id info) (Tracker.drafts tr (m_sessionID info)) = Some d.
Proof.
  intros Hrole. unfold handleEvent. simpl. unfold handleMessageUpdated.
  assert (Hvalid : negb (m_role info =? "user") &&
                   negb (m_role info =? "assistant") = false)
    by (destruct Hrole as [-> | ->]; reflexivity).
  rewrite Hvalid. unfold Tracker.ensureMessage.
  destruct (alookup (m_id info)
              (Tracker.drafts (tracker st) (m_sessionID info)))
    as [d |] eqn:E.
  - exists (tracker st), d. split; [reflexivity | exact E].
  - eexists. eexists. split; [reflexivity |].
    rewrite EventFacts.drafts_aset_same, alookup_aset_same. reflexivity.
Qed.

(** A text part with something to say becomes a text part of that text. *)
Lemma convertPart_text (part : EventMessagePart) (t : string) :
  ep_type part = "text" -> ep_text part = Some t ->
  JS.all_space t = false ->
  convertPart part = Some (mkPart Text (Some t) None None None).
Proof.
  intros Htype Htext Hsay.
  assert (He : emptyText (ep_text part) = false)
    by (apply PartFilter.emptyText_false_iff; exists t; auto).
  unfold convertPart. rewrite Htype, He, Htext. reflexivity.
Qed.

(** X25. What the event hook records is what the expand tool shows.  On a
    store in which the id drawn for the new chunk is unused: after
    message.updated for a user or assistant message, message.part.updated
    with a text part of that message that is not blank, and session.idle
    for the session, no draft of the session is left, and expanding the new
    chunk's id gives one chunk whose content holds the part's text
    verbatim. *)
Theorem recorded_text_is_expanded
        (mf : string -> option Json -> list string)
        (toISOString : Z -> string) (stringify : Json -> string)
        (st : State) (env1 env2 env3 : Env)
        (info : Message) (part : EventMessagePart) (t : string) :
  (forall c, In c (chunks st) -> id c <> env_chunkId env3) ->
  m_role info = "user" \/ m_role info = "assistant" ->
  ep_sessionID part = m_sessionID info -> ep_messageID part = m_id info ->
  ep_type part = "text" -> ep_text part = Some t ->
  JS.all_space t = false ->
  let after :=
    run mf st [(env1, EvMessageUpdated info);
               (env2, EvMessagePartUpdated part);
               (env3, EvSessionIdle (m_sessionID info))] in
  Tracker.drafts (tracker after) (m_sessionID info) = [] /\
  length (chunks after) = S (length (chunks st)) /\
  exists tokens content warning,
    ExpandTool.execute toISOString stringify after
                       (ExpandTool.mkArgs (env_chunkId env3) None None) =
      ExpandTool.Full 1 tokens content warning /\
    occursIn t content.
Proof.
  intros Hfresh Hrole Hs Hm Htype Htext Hsay. cbv zeta.
  unfold run. cbn [fold_left fst snd].
  destruct (message_updated_known mf st env1 info Hrole)
    as [tr1 [d [-> Hd]]].
  assert (Hne : t <> "") by (intros ->; discriminate Hsay).
  (* the part reaches the draft *)
  set (cp := mkPart Text (Some t) None None None).
  set (d' := Tracker.mkDraft (Tracker.draft_role d)
                             (aset (ep_id part) cp (Tracker.draft_parts d))).
  set (ds := aset (m_id info) d' (Tracker.drafts tr1 (m_sessionID info))).
  assert (H2 : handleEvent mf (with_tracker st tr1) env2
                           (EvMessagePartUpdated part) =
               with_tracker st (aset (m_sessionID info) ds tr1)).
  { unfold handleEvent. simpl. unfold handleMessagePartUpdated.
    rewrite (convertPart_text part t Htype Htext Hsay).
    unfold Tracker.addPart. rewrite Hs, Hm. simpl tracker. rewrite Hd.
    reflexivity. }
  rewrite H2.
  (* the idle event makes the chunk *)
  set (ms := Tracker.getMessages (aset (m_sessionID info) ds tr1)
                                 (m_sessionID info) (env_now env3)).
  set (chunk := mkChunk (env_chunkId env3) (m_sessionID info)
                        (mkContent ms (ChunkService.deriveMetadata mf ms))
                        None active 0 [] (env_now env3)).
  assert (H3 : handleEvent mf
                 (with_tracker st (aset (m_sessionID info) ds tr1)) env3
                 (EvSessionIdle (m_sessionID info)) =
               mkState (Tracker.clearSession
                          (aset (m_sessionID info) ds tr1)
                          (m_sessionID info))
                       (chunks st ++ [chunk])%list (injectedSessions st)).
  { unfold handleEvent. simpl. unfold handleSessionIdle.
    unfold ChunkService.finalize, Tracker.hasMessages.
    simpl tracker. simpl chunks. simpl injectedSessions.
    rewrite EventFacts.drafts_aset_same.
    destruct ds as [| d0 ds0] eqn:Eds;
      [exfalso; exact (aset_not_nil _ _ _ Eds) |].
    reflexivity. }
  rewrite H3. clear H2 H3.
  split.
  { unfold Tracker.drafts, Tracker.clearSession. simpl tracker.
    rewrite FinalizeFacts.alookup_adelete. reflexivity. }
  split.
  { simpl chunks. rewrite length_app. simpl. lia. }
  assert (Hget : ChunkService.getChunk
                   (mkState (Tracker.clearSession
                               (aset (m_sessionID info) ds tr1)
                               (m_sessionID info))
                            (chunks st ++ [chunk])%list
                            (injectedSessions st))
                   (env_chunkId env3) = Some chunk)
    by (apply (getChunk_appended _ (chunks st) _ chunk); exact Hfresh).
  match goal with
  | |- exists tokens content warning,
         ExpandTool.execute _ _ ?after ?args = _ /\ _ =>
      assert (Hexp : ChunkService.expand after (ExpandTool.chunk_id args)
                       (ExpandTool.include_children args) = [chunk])
        by (unfold ChunkService.expand; cbn [ExpandTool.chunk_id
              ExpandTool.include_children]; rewrite Hget; reflexivity);
      pose proof (ExpandFacts.execute_full_shape toISOString stringify
                    after args) as Hfull
  end.
  rewrite Hexp in Hfull. cbv zeta in Hfull.
  eexists. eexists. eexists. split.
  { apply Hfull; discriminate. }
  cbn [map JS.join String.concat].
  (* the text is a line of the message *)
  assert (Hin : exists m, In m ms /\ In cp (msg_parts m)).
  { unfold ms, Tracker.getMessages. rewrite EventFacts.drafts_aset_same.
    pose proof (aset_holds (m_id info) d'
                  (Tracker.drafts tr1 (m_sessionID info))) as Hd'.
    fold ds in Hd'. apply in_map_iff in Hd'.
    destruct Hd' as [kv [Hkv Hkvin]].
    exists (mkMessage (fst kv) (Tracker.draft_role (snd kv))
                      (map snd (Tracker.draft_parts (snd kv)))
                      (env_now env3)).
    split.
    - apply in_map_iff. exists kv. split; [reflexivity | exact Hkvin].
    - cbn [msg_parts]. rewrite Hkv. unfold d'. cbn [Tracker.draft_parts].
      apply aset_holds. }
  destruct Hin as [m [Hmin Hcp]].
  apply (ExpandMore.message_line_occurs toISOString stringify chunk m t).
  - exact Hmin.
  - unfold ExpandTool.messageLines. right. apply filter_In. split.
    + apply in_map_iff. exists cp. split; [| exact Hcp].
      unfold ExpandTool.formatMessagePart. cbn [part_type part_text cp].
      unfold JS.or_else. apply JSFacts.truthy_true_iff in Hne.
      rewrite Hne. reflexivity.
    + apply JSFacts.truthy_true_iff, Hne.
Qed.

(** Hello, said in session S of a fresh process, is in the chunk
    [ch_10]. *)
Lemma recorded_text_is_expanded_witness :
  exists tokens content warning,
    ExpandTool.execute Demo.toISOString Demo.stringify
      (run Demo.modifiedFiles initial_state
           [(Demo.env, EvMessageUpdated Demo.userMessage);
            (Demo.env, EvMessagePartUpdated Demo.helloPart);
            (Demo.env, EvSessionIdle "S")])
      (ExpandTool.mkArgs "ch_10" None None) =
      ExpandTool.Full 1 tokens content warning /\
    occursIn "Hello" content.
Proof.
  apply (recorded_text_is_expanded Demo.modifiedFiles Demo.toISOString
           Demo.stringify initial_state Demo.env Demo.env Demo.env
           Demo.userMessage Demo.helloPart "Hello").
  - intros c [].
  - left. reflexivity.
  - reflexivity.
  - reflexivity.
  - reflexivity.
  - reflexivity.
  - reflexivity.
Defined.

End RoundTrip.
